(** * Attendance session lifecycle: a shallow embedding of the attendance routes

    The development follows the Express router of the attendance API
    (session start, session end, mark, student history, report, list of
    sessions) and the Subject schema.  The document store is a record of
    collections, each a list in insertion order; a handler is a function
    from the caller, the request and the store to a reply and the next
    store.

    Conventions.
    - Identifiers are the canonical text of the store's object
      identifiers and are compared as the store compares them.
    - A JavaScript number is a binary64 value ([spec_float] at precision
      53, as the kernel's float specification defines its operations);
      counters are kept in [Z] and converted where the code divides.
    - Dates are instants in milliseconds.
    - A document is saved as the handler built it: the validators of the
      Attendance, AttendanceSession and User schemas are declared in
      model files and are outside the handlers. *)

From stdpp Require Import base decidable option list sets strings numbers pretty.
From Stdlib Require Import ZArith QArith Qpower Lqa Floats.SpecFloat Sorting.Sorted.

Close Scope Q_scope.

(** ** JavaScript values met in request bodies *)

Module Js.

Definition prec : Z := 53.
Definition emax : Z := 1024.

Definition number := spec_float.

Definition ofZ (z : Z) : number := binary_normalize prec emax z 0 false.
Definition div : number → number → number := SFdiv prec emax.
Definition mul : number → number → number := SFmul prec emax.
(** [x >= y] on numbers: false as soon as one side is NaN. *)
Definition geb (x y : number) : bool := SFleb y x.

Inductive value :=
  | Undefined
  | Null
  | Bool (b : bool)
  | Number (x : number)
  | Str (s : string).

(** ToBoolean. *)
Definition truthy (v : value) : bool :=
  match v with
  | Undefined | Null => false
  | Bool b => b
  | Number (S754_zero _) | Number S754_nan => false
  | Number _ => true
  | Str s => negb (String.eqb s "")
  end.

(** [a || b]. *)
Definition or (a b : value) : value := if truthy a then a else b.

Definition zero : value := Number (S754_zero false).
Definition empty : value := Str "".

End Js.

(** ** Enumerations *)

Inductive Role := RoleStudent | RoleFaculty | RoleAdmin.
Inductive MarkStatus := Present | Absent | Late.
Inductive SessionStatus := Active | Completed.

#[global] Instance Role_eq_dec : EqDecision Role.
Proof. solve_decision. Defined.
#[global] Instance MarkStatus_eq_dec : EqDecision MarkStatus.
Proof. solve_decision. Defined.
#[global] Instance SessionStatus_eq_dec : EqDecision SessionStatus.
Proof. solve_decision. Defined.

(** The text of a mark status, as [body('status').isIn] lists it. *)
Definition parseMarkStatus (s : string) : option MarkStatus :=
  if String.eqb s "present" then Some Present
  else if String.eqb s "absent" then Some Absent
  else if String.eqb s "late" then Some Late
  else None.

(** ** Documents *)

Module User.
(** A user document, with the fields the handlers read (the schema is
    declared in models/User.js); a field a document lacks reads as the
    empty text. *)
Record t := mk {
  _id : string;
  username : string;
  role : Role;
  department : string;
  division : string;
  semester : Z;
  isActive : bool;
  enrollmentNumber : string
}.

Definition findById (id : string) (users : list t) : option t :=
  snd <$> list_find (λ u, _id u = id) users.

(** The filter of [User.countDocuments] in the session start. *)
Definition enrolled (dep div : string) (sem : Z) (u : t) : Prop :=
  role u = RoleStudent ∧ department u = dep ∧ division u = div
  ∧ semester u = sem ∧ isActive u = true.

#[global] Instance enrolled_dec dep div sem u : Decision (enrolled dep div sem u).
Proof. unfold enrolled. apply _. Defined.
End User.

Module Subject.
(** server/models/Subject.js *)
Record t := mk {
  _id : string;
  name : string;
  code : string;
  department : string;
  credits : Z;
  semester : Z;
  facultyId : option string;
  facultyName : option string;
  description : option string;
  isActive : bool;
  syllabus : option string
}.

Definition findById (id : string) (subjects : list t) : option t :=
  snd <$> list_find (λ s, _id s = id) subjects.
End Subject.

Module AttendanceSession.
(** A session document: the fields the session start writes and the
    three the session end adds, [None] until then. *)
Record t := mk {
  sessionId : string;
  subject : string;
  subjectName : string;
  faculty : string;
  facultyName : string;
  date : Z;
  startTime : Z;
  division : string;
  department : string;
  semester : Z;
  totalStudents : Z;
  status : SessionStatus;
  endTime : option Z;
  presentStudents : option Z;
  absentStudents : option Z
}.

(** The filter [{ sessionId, faculty, status }]. *)
Definition matches (sid fid : string) (st : SessionStatus) (s : t) : Prop :=
  sessionId s = sid ∧ faculty s = fid ∧ status s = st.

#[global] Instance matches_dec sid fid st s : Decision (matches sid fid st s).
Proof. unfold matches. apply _. Defined.

(** [findOne]: the first matching document and its position. *)
Definition findOne (sid fid : string) (st : SessionStatus) (sessions : list t)
  : option (nat * t) :=
  list_find (matches sid fid st) sessions.

(** The four assignments of the session end. *)
Definition close (now presentCount absentCount : Z) (s : t) : t :=
  {| sessionId := sessionId s; subject := subject s;
     subjectName := subjectName s; faculty := faculty s;
     facultyName := facultyName s; date := date s;
     startTime := startTime s; division := division s;
     department := department s; semester := semester s;
     totalStudents := totalStudents s;
     status := Completed;
     endTime := Some now;
     presentStudents := Some presentCount;
     absentStudents := Some absentCount |}.
End AttendanceSession.

Module Attendance.
(** An attendance record: the fields the mark handler writes. *)
Record t := mk {
  student : string;
  studentName : string;
  enrollmentNumber : string;
  subject : string;
  subjectName : string;
  faculty : string;
  facultyName : string;
  date : Z;
  status : MarkStatus;
  division : string;
  department : string;
  semester : Z;
  sessionId : string;
  detectionConfidence : Js.value;
  remarks : Js.value
}.

(** The filter [{ student, sessionId }] of the mark handler. *)
Definition keyed (stu sid : string) (r : t) : Prop :=
  student r = stu ∧ sessionId r = sid.

#[global] Instance keyed_dec stu sid r : Decision (keyed stu sid r).
Proof. unfold keyed. apply _. Defined.

Definition findOne (stu sid : string) (records : list t) : option (nat * t) :=
  list_find (keyed stu sid) records.

(** The filter [{ sessionId, status }] of the session end. *)
Definition inSession (sid : string) (st : MarkStatus) (r : t) : Prop :=
  sessionId r = sid ∧ status r = st.

#[global] Instance inSession_dec sid st r : Decision (inSession sid st r).
Proof. unfold inSession. apply _. Defined.

Definition countDocuments (sid : string) (st : MarkStatus) (records : list t) : Z :=
  Z.of_nat (length (filter (inSession sid st) records)).

(** The three assignments of the update branch of the mark handler. *)
Definition remark (st : MarkStatus) (conf rem : Js.value) (r : t) : t :=
  {| student := student r; studentName := studentName r;
     enrollmentNumber := enrollmentNumber r; subject := subject r;
     subjectName := subjectName r; faculty := faculty r;
     facultyName := facultyName r; date := date r;
     status := st;
     division := division r; department := department r;
     semester := semester r; sessionId := sessionId r;
     detectionConfidence := conf;
     remarks := rem |}.
End Attendance.

(** ** The store *)

Record Store := mkStore {
  users : list User.t;
  subjects : list Subject.t;
  sessions : list AttendanceSession.t;
  attendances : list Attendance.t
}.

Definition withSessions (db : Store) (l : list AttendanceSession.t) : Store :=
  {| users := users db; subjects := subjects db; sessions := l;
     attendances := attendances db |}.

Definition withAttendances (db : Store) (l : list Attendance.t) : Store :=
  {| users := users db; subjects := subjects db; sessions := sessions db;
     attendances := l |}.

(** ** Requests and replies *)

Module Auth.
(** [req.user], as [authenticateToken] leaves it. *)
Record t := mk { userId : string; role : Role }.

(** Modelled from the spec: the route guard of middleware/auth.js, which
    is outside the handlers; a route lists the roles it admits
    ("Auth: faculty", "faculty/admin") and the guard stops every other
    caller before the handler runs. *)
Definition requireRole (roles : list Role) (user : t) : bool :=
  bool_decide (role user ∈ roles).
End Auth.

(** What a handler sends. [Sent] is [res.status(code).json(body)] on a
    success path, [Message] is [res.status(code).json({ message })],
    [Errors] is the 400 reply carrying the validation errors (listed by
    field), [Rejected] is the route guard stopping the request. *)
Inductive Reply (A : Type) :=
  | Sent (code : nat) (body : A)
  | Message (code : nat) (message : string)
  | Errors (fields : list string)
  | Rejected.

Arguments Sent {A} code body.
Arguments Message {A} code message.
Arguments Errors {A} fields.
Arguments Rejected {A}.

(** The names the specification gives to the failures of the routes. *)
Definition NotFoundError {A} : Reply A := Message 404 "Active session not found".
Definition InvalidSessionError {A} : Reply A := Message 400 "Invalid or inactive session".
Definition InvalidStudentError {A} : Reply A := Message 400 "Student not found".
Definition AccessDeniedError {A} : Reply A := Message 403 "Access denied".
Definition ServerError {A} : Reply A := Message 500 "Server error".

(** ** Validators *)

Definition isHexDigit (c : Ascii.ascii) : bool :=
  let n := Ascii.nat_of_ascii c in
  ((48 <=? n) && (n <=? 57) || (65 <=? n) && (n <=? 70)
   || (97 <=? n) && (n <=? 102))%nat.

(** One or more hexadecimal digits. *)
Definition hexDigits (l : list Ascii.ascii) : bool :=
  match l with
  | [] => false
  | _ => forallb isHexDigit l
  end.

(** The letter of a prefix: x, X, h or H. *)
Definition isHexPrefix (c : Ascii.ascii) : bool :=
  let n := Ascii.nat_of_ascii c in
  ((n =? 120) || (n =? 88) || (n =? 104) || (n =? 72))%nat.

(** [isHexadecimal]: the text matches [/^(0x|0h)?[0-9A-F]+$/i], one or
    more hexadecimal digits after an optional prefix 0x or 0h. *)
Definition isHexadecimal (s : string) : bool :=
  let l := String.list_ascii_of_string s in
  hexDigits l
  || match l with
     | zero :: p :: digits =>
       (Ascii.nat_of_ascii zero =? 48)%nat && isHexPrefix p && hexDigits digits
     | _ => false
     end.

(** [isMongoId]: [isHexadecimal(str) && str.length === 24]. *)
Definition isMongoId (s : string) : bool :=
  isHexadecimal s && (String.length s =? 24)%nat.

Definition notEmpty (s : string) : bool := negb (String.eqb s "").

Definition isIn (values : list string) (s : string) : bool :=
  existsb (String.eqb s) values.

(** [isInt({ min, max })] on a field already read as an integer. *)
Definition isInt (min max n : Z) : bool := ((min <=? n) && (n <=? max))%Z.

(** The fields whose check fails, in the order of the chain. *)
Definition failing (checks : list (string * bool)) : list string :=
  fst <$> filter (λ c, snd c = false) checks.

(** ** POST /session/start *)

Module StartBody.
Record t := mk {
  subjectId : string;
  division : string;
  department : string;
  semester : Z
}.

Definition validate (b : t) : list string :=
  failing [("subjectId", isMongoId (subjectId b));
           ("division", isIn ["A"; "B"; "C"] (division b));
           ("department", isIn ["CSE"; "ME"; "CE"; "EE"; "ECE"] (department b));
           ("semester", isInt 1 8 (semester b))].
End StartBody.

Definition startSession (now : Z) (user : Auth.t) (body : StartBody.t) (db : Store)
  : Reply (string * AttendanceSession.t) * Store :=
  if negb (Auth.requireRole [RoleFaculty] user) then (Rejected, db) else
  match StartBody.validate body with
  | [] =>
    let subjectId := StartBody.subjectId body in
    let division := StartBody.division body in
    let department := StartBody.department body in
    let semester := StartBody.semester body in
    let facultyId := Auth.userId user in
    match Subject.findById subjectId (subjects db) with
    | None => (Message 400 "Subject not found", db)
    | Some subject =>
      match User.findById facultyId (users db) with
      | None => (Message 400 "Faculty not found", db)
      | Some faculty =>
        let totalStudents :=
          Z.of_nat (length (filter (User.enrolled department division semester)
                                   (users db))) in
        let sessionId := pretty now +:+ "_" +:+ facultyId +:+ "_" +:+ subjectId in
        let session :=
          {| AttendanceSession.sessionId := sessionId;
             AttendanceSession.subject := subjectId;
             AttendanceSession.subjectName := Subject.name subject;
             AttendanceSession.faculty := facultyId;
             AttendanceSession.facultyName := User.username faculty;
             AttendanceSession.date := now;
             AttendanceSession.startTime := now;
             AttendanceSession.division := division;
             AttendanceSession.department := department;
             AttendanceSession.semester := semester;
             AttendanceSession.totalStudents := totalStudents;
             AttendanceSession.status := Active;
             AttendanceSession.endTime := None;
             AttendanceSession.presentStudents := None;
             AttendanceSession.absentStudents := None |} in
        (Sent 201 ("Attendance session started successfully", session),
         withSessions db (sessions db ++ [session]))
      end
    end
  | errors => (Errors errors, db)
  end.

(** ** PUT /session/:sessionId/end *)

Definition endSession (now : Z) (user : Auth.t) (sessionId : string) (db : Store)
  : Reply (string * AttendanceSession.t) * Store :=
  if negb (Auth.requireRole [RoleFaculty] user) then (Rejected, db) else
  let facultyId := Auth.userId user in
  match AttendanceSession.findOne sessionId facultyId Active (sessions db) with
  | None => (NotFoundError, db)
  | Some (i, session) =>
    let presentCount := Attendance.countDocuments sessionId Present (attendances db) in
    let absentCount := (AttendanceSession.totalStudents session - presentCount)%Z in
    let session := AttendanceSession.close now presentCount absentCount session in
    (Sent 200 ("Attendance session ended successfully", session),
     withSessions db (<[i := session]> (sessions db)))
  end.

(** ** POST /mark *)

Module MarkBody.
Record t := mk {
  sessionId : string;
  studentId : string;
  status : string;
  detectionConfidence : Js.value;
  remarks : Js.value
}.

Definition validate (b : t) : list string :=
  failing [("sessionId", notEmpty (sessionId b));
           ("studentId", isMongoId (studentId b));
           ("status", isIn ["present"; "absent"; "late"] (status b))].
End MarkBody.

Definition mark (user : Auth.t) (body : MarkBody.t) (db : Store)
  : Reply (string * Attendance.t) * Store :=
  if negb (Auth.requireRole [RoleFaculty] user) then (Rejected, db) else
  match MarkBody.validate body, parseMarkStatus (MarkBody.status body) with
  | [], Some status =>
    let sessionId := MarkBody.sessionId body in
    let studentId := MarkBody.studentId body in
    let detectionConfidence := MarkBody.detectionConfidence body in
    let remarks := MarkBody.remarks body in
    let facultyId := Auth.userId user in
    match AttendanceSession.findOne sessionId facultyId Active (sessions db) with
    | None => (InvalidSessionError, db)
    | Some (_, session) =>
      match User.findById studentId (users db) with
      | None => (InvalidStudentError, db)
      | Some student =>
        if negb (bool_decide (User.role student = RoleStudent))
        then (InvalidStudentError, db) else
        let faculty := User.findById facultyId (users db) in
        match Attendance.findOne studentId sessionId (attendances db) with
        | Some (i, existingAttendance) =>
          let existingAttendance :=
            Attendance.remark status (Js.or detectionConfidence Js.zero)
                              (Js.or remarks Js.empty) existingAttendance in
          (Sent 200 ("Attendance updated successfully", existingAttendance),
           withAttendances db (<[i := existingAttendance]> (attendances db)))
        | None =>
          match faculty with
          | None => (ServerError, db)     (* [faculty.username] throws *)
          | Some faculty =>
            let attendance :=
              {| Attendance.student := studentId;
                 Attendance.studentName := User.username student;
                 Attendance.enrollmentNumber := User.enrollmentNumber student;
                 Attendance.subject := AttendanceSession.subject session;
                 Attendance.subjectName := AttendanceSession.subjectName session;
                 Attendance.faculty := facultyId;
                 Attendance.facultyName := User.username faculty;
                 Attendance.date := AttendanceSession.date session;
                 Attendance.status := status;
                 Attendance.division := AttendanceSession.division session;
                 Attendance.department := AttendanceSession.department session;
                 Attendance.semester := AttendanceSession.semester session;
                 Attendance.sessionId := sessionId;
                 Attendance.detectionConfidence := Js.or detectionConfidence Js.zero;
                 Attendance.remarks := Js.or remarks Js.empty |} in
            (Sent 201 ("Attendance marked successfully", attendance),
             withAttendances db (attendances db ++ [attendance]))
          end
        end
      end
    end
  | errors, _ => (Errors errors, db)
  end.

(** ** Attendance.find: filters, sorting, population *)

Module Filter.
Record t := mk {
  student : option string;
  subject : option string;
  division : option string;
  department : option string;
  semester : option Z;
  faculty : option string;
  date : option (Z * Z)
}.

(** [{}] and the assignments [filter.field = value]. *)
Definition empty : t := mk None None None None None None None.
Definition setStudent (v : string) (f : t) : t :=
  mk (Some v) (subject f) (division f) (department f) (semester f) (faculty f) (date f).
Definition setSubject (v : string) (f : t) : t :=
  mk (student f) (Some v) (division f) (department f) (semester f) (faculty f) (date f).
Definition setDivision (v : string) (f : t) : t :=
  mk (student f) (subject f) (Some v) (department f) (semester f) (faculty f) (date f).
Definition setDepartment (v : string) (f : t) : t :=
  mk (student f) (subject f) (division f) (Some v) (semester f) (faculty f) (date f).
Definition setSemester (v : Z) (f : t) : t :=
  mk (student f) (subject f) (division f) (department f) (Some v) (faculty f) (date f).
Definition setFaculty (v : string) (f : t) : t :=
  mk (student f) (subject f) (division f) (department f) (semester f) (Some v) (date f).
Definition setDate (gte lte : Z) (f : t) : t :=
  mk (student f) (subject f) (division f) (department f) (semester f) (faculty f)
     (Some (gte, lte)).

(** A field the filter does not name is not constrained. *)
Definition holds {A} (o : option A) (P : A → Prop) : Prop :=
  match o with None => True | Some v => P v end.

#[global] Instance holds_dec {A} (o : option A) (P : A → Prop)
  `{∀ v, Decision (P v)} : Decision (holds o P).
Proof. destruct o; simpl; apply _. Defined.

Definition matches (f : t) (r : Attendance.t) : Prop :=
  holds (student f) (λ v, Attendance.student r = v)
  ∧ holds (subject f) (λ v, Attendance.subject r = v)
  ∧ holds (division f) (λ v, Attendance.division r = v)
  ∧ holds (department f) (λ v, Attendance.department r = v)
  ∧ holds (semester f) (λ v, Attendance.semester r = v)
  ∧ holds (faculty f) (λ v, Attendance.faculty r = v)
  ∧ holds (date f) (λ v, (fst v ≤ Attendance.date r ∧ Attendance.date r ≤ snd v)%Z).

#[global] Instance matches_dec f r : Decision (matches f r).
Proof. unfold matches. apply _. Defined.
End Filter.

Definition find (f : Filter.t) (records : list Attendance.t) : list Attendance.t :=
  filter (Filter.matches f) records.

(** A query parameter that is present and not the empty text. *)
Definition given (p : option string) : option string :=
  match p with
  | Some s => if String.eqb s "" then None else Some s
  | None => None
  end.

(** A stable sort; documents that compare equal keep the store's order. *)
Fixpoint insertBy {A} (le : A → A → bool) (x : A) (l : list A) : list A :=
  match l with
  | [] => [x]
  | y :: l' => if le x y then x :: l else y :: insertBy le x l'
  end.

Definition sortBy {A} (le : A → A → bool) (l : list A) : list A :=
  foldr (insertBy le) [] l.

(** [{ date: -1 }] *)
Definition byDateDesc (a b : Attendance.t) : bool :=
  (Attendance.date b <=? Attendance.date a)%Z.

(** [{ date: -1, studentName: 1 }] *)
Definition byDateDescThenName (a b : Attendance.t) : bool :=
  (Attendance.date b <? Attendance.date a)%Z
  || ((Attendance.date b =? Attendance.date a)%Z
      && String.leb (Attendance.studentName a) (Attendance.studentName b)).

(** A record with its references replaced by the documents they name
    ([None] where the store has no such document); [student] is only
    populated by the report. *)
Module Populated.
Record t := mk {
  doc : Attendance.t;
  student : option User.t;
  subject : option Subject.t;
  faculty : option User.t
}.
End Populated.

Definition populateHistory (db : Store) (r : Attendance.t) : Populated.t :=
  {| Populated.doc := r;
     Populated.student := None;
     Populated.subject := Subject.findById (Attendance.subject r) (subjects db);
     Populated.faculty := User.findById (Attendance.faculty r) (users db) |}.

Definition populateReport (db : Store) (r : Attendance.t) : Populated.t :=
  {| Populated.doc := r;
     Populated.student := User.findById (Attendance.student r) (users db);
     Populated.subject := Subject.findById (Attendance.subject r) (subjects db);
     Populated.faculty := User.findById (Attendance.faculty r) (users db) |}.

(** ** Number.prototype.toFixed(1) and the comparison with a number *)

Module Fixed.
(** What [toFixed(1)] returns: [Digits neg n] is the text of the sign
    and of [n] with a point before its last digit; [Plain x] is the text
    [Number::toString] gives, for a value that is not finite or is at
    least ten to the twenty-one. *)
Inductive t :=
  | Digits (neg : bool) (n : Z)
  | Plain (x : Js.number).

(** The integer [n] for which [n / 10 - m * 2 ^ e] is as close to zero
    as possible, the larger one when there are two. *)
Definition nearestTenths (m : positive) (e : Z) : Z :=
  match e with
  | Zneg p => (20 * Zpos m + 2 ^ Zpos p) / 2 ^ (Zpos p + 1)
  | _ => 10 * Zpos m * 2 ^ e
  end%Z.

(** [k ≤ m * 2 ^ e] *)
Definition atLeast (k : Z) (m : positive) (e : Z) : bool :=
  match e with
  | Zneg p => (k * 2 ^ Zpos p <=? Zpos m)
  | _ => (k <=? Zpos m * 2 ^ e)
  end%Z.

Definition toFixed1 (x : Js.number) : t :=
  match x with
  | S754_zero _ => Digits false 0
  | S754_finite s m e =>
    if atLeast (10 ^ 21) m e then Plain x else Digits s (nearestTenths m e)
  | _ => Plain x
  end.

(** The text of [Digits neg n]. *)
Definition text (neg : bool) (n : Z) : string :=
  (if neg then "-" else "") +:+ pretty (n / 10)%Z +:+ "." +:+ pretty (n mod 10)%Z.

(** StringToNumber on the text: the decimal [n / 10] rounded to the
    nearest number, ties to even. *)
Definition toNumber (f : t) : Js.number :=
  match f with
  | Digits neg (Zpos n) => Js.div (S754_finite neg n 0) (S754_finite false 10 0)
  | Digits neg _ => S754_zero neg
  | Plain x => x
  end.
End Fixed.

(** ** Per-subject statistics of the student history *)

Inductive Grade := Excellent | Good | Bad.

Module Tally.
(** A value of [stats] while the records are counted. *)
Record t := mk {
  subjectName : string;
  total : Z;
  present : Z;
  absent : Z;
  late : Z
}.

Definition fresh (name : string) : t := mk name 0 0 0 0.

(** [total++] and [stat[record.status]++] *)
Definition count (st : MarkStatus) (s : t) : t :=
  match st with
  | Present => mk (subjectName s) (total s + 1) (present s + 1) (absent s) (late s)
  | Absent => mk (subjectName s) (total s + 1) (present s) (absent s + 1) (late s)
  | Late => mk (subjectName s) (total s + 1) (present s) (absent s) (late s + 1)
  end%Z.
End Tally.

(** [stat.percentage] is the text of [toFixed(1)], or the number 0. *)
Inductive Percentage :=
  | PctText (f : Fixed.t)
  | PctNumber (x : Js.number).

Definition percentageNumber (p : Percentage) : Js.number :=
  match p with
  | PctText f => Fixed.toNumber f
  | PctNumber x => x
  end.

Module Stat.
Record t := mk {
  tally : Tally.t;
  percentage : Percentage;
  status : Grade
}.
End Stat.

(** One step of the [forEach] over the records: [stats] keeps its keys
    in the order they were first written. *)
Fixpoint countRecord (key name : string) (st : MarkStatus)
    (stats : list (string * Tally.t)) : list (string * Tally.t) :=
  match stats with
  | [] => [(key, Tally.count st (Tally.fresh name))]
  | (k, s) :: rest =>
    if decide (k = key) then (k, Tally.count st s) :: rest
    else (k, s) :: countRecord key name st rest
  end.

(** The [forEach]; [None] when [record.subject] is null and reading its
    [_id] throws. *)
Fixpoint countRecords (records : list Populated.t)
    (stats : list (string * Tally.t)) : option (list (string * Tally.t)) :=
  match records with
  | [] => Some stats
  | record :: rest =>
    match Populated.subject record with
    | None => None
    | Some subject =>
      let subjectKey := Subject._id subject in
      countRecords rest
        (countRecord subjectKey
           (Attendance.subjectName (Populated.doc record))
           (Attendance.status (Populated.doc record)) stats)
    end
  end.

Definition percentageOf (stat : Tally.t) : Percentage :=
  if (0 <? Tally.total stat)%Z
  then PctText (Fixed.toFixed1
         (Js.mul (Js.div (Js.ofZ (Tally.present stat + Tally.late stat))
                         (Js.ofZ (Tally.total stat)))
                 (Js.ofZ 100)))
  else PctNumber (Js.ofZ 0).

Definition gradeOf (percentage : Percentage) : Grade :=
  if Js.geb (percentageNumber percentage) (Js.ofZ 90) then Excellent
  else if Js.geb (percentageNumber percentage) (Js.ofZ 75) then Good
  else Bad.

Definition finish (stat : Tally.t) : Stat.t :=
  let percentage := percentageOf stat in
  {| Stat.tally := stat; Stat.percentage := percentage;
     Stat.status := gradeOf percentage |}.

(** The statistics by subject key, then [Object.values]. *)
Definition perSubject (records : list Populated.t) : option (list (string * Stat.t)) :=
  match countRecords records [] with
  | None => None
  | Some stats => Some ((λ ks : string * Tally.t, (ks.1, finish ks.2)) <$> stats)
  end.

Definition statistics (records : list Populated.t) : option (list Stat.t) :=
  match perSubject records with
  | None => None
  | Some stats => Some (snd <$> stats)
  end.

(** ** GET /student/:studentId *)

Module StudentQuery.
Record t := mk {
  subjectId : option string;
  startDate : option Z;
  endDate : option Z
}.

Definition filter (studentId : string) (q : t) : Filter.t :=
  let filter := Filter.setStudent studentId Filter.empty in
  let filter :=
    match given (subjectId q) with
    | Some subjectId => Filter.setSubject subjectId filter
    | None => filter
    end in
  match startDate q, endDate q with
  | Some startDate, Some endDate => Filter.setDate startDate endDate filter
  | _, _ => filter
  end.
End StudentQuery.

Definition studentAttendance (user : Auth.t) (studentId : string)
    (query : StudentQuery.t) (db : Store)
  : Reply (list Populated.t * list Stat.t) :=
  if bool_decide (Auth.role user = RoleStudent)
     && negb (String.eqb (Auth.userId user) studentId)
  then AccessDeniedError else
  let filter := StudentQuery.filter studentId query in
  let attendance :=
    populateHistory db <$> sortBy byDateDesc (find filter (attendances db)) in
  match statistics attendance with
  | None => ServerError
  | Some statistics => Sent 200 (attendance, statistics)
  end.

(** ** GET /report *)

Module ReportQuery.
Record t := mk {
  subjectId : option string;
  division : option string;
  department : option string;
  semester : option Z;
  startDate : option Z;
  endDate : option Z;
  facultyId : option string
}.

Definition filter (user : Auth.t) (q : t) : Filter.t :=
  let filter := Filter.empty in
  let filter :=
    match given (subjectId q) with
    | Some v => Filter.setSubject v filter | None => filter end in
  let filter :=
    match given (division q) with
    | Some v => Filter.setDivision v filter | None => filter end in
  let filter :=
    match given (department q) with
    | Some v => Filter.setDepartment v filter | None => filter end in
  let filter :=
    match semester q with
    | Some v => Filter.setSemester v filter | None => filter end in
  let filter :=
    match given (facultyId q) with
    | Some v => Filter.setFaculty v filter | None => filter end in
  let filter :=
    if bool_decide (Auth.role user = RoleFaculty)
    then Filter.setFaculty (Auth.userId user) filter else filter in
  match startDate q, endDate q with
  | Some startDate, Some endDate => Filter.setDate startDate endDate filter
  | _, _ => filter
  end.
End ReportQuery.

Definition report (user : Auth.t) (query : ReportQuery.t) (db : Store)
  : Reply (list Populated.t) :=
  if negb (Auth.requireRole [RoleFaculty; RoleAdmin] user) then Rejected else
  let filter := ReportQuery.filter user query in
  Sent 200 (populateReport db <$>
              sortBy byDateDescThenName (find filter (attendances db))).

(** ** GET /sessions *)

(** The text of a session status. *)
Definition parseSessionStatus (s : string) : option SessionStatus :=
  if String.eqb s "active" then Some Active
  else if String.eqb s "completed" then Some Completed
  else None.

Module SessionsQuery.
(** [limit] is what [parseInt] reads off the parameter, for a request in
    which that is a positive integer; a request without the parameter
    gets 10. *)
Record t := mk {
  status : option string;
  limit : option positive
}.

(** [{ faculty: facultyId }], and [status] when the parameter is given. *)
Definition matches (facultyId : string) (q : t) (s : AttendanceSession.t) : Prop :=
  AttendanceSession.faculty s = facultyId
  ∧ Filter.holds (given (status q))
      (λ v, parseSessionStatus v = Some (AttendanceSession.status s)).

#[global] Instance asked_dec facultyId q s : Decision (matches facultyId q s).
Proof. unfold matches. apply _. Defined.
End SessionsQuery.

(** [{ createdAt: -1 }] *)
Definition byCreatedDesc (createdAt : AttendanceSession.t → Z)
    (a b : AttendanceSession.t) : bool :=
  (createdAt b <=? createdAt a)%Z.

(** [createdAt] reads the creation time of a session document, a field
    of the schema (models/AttendanceSession.js, outside the handlers). *)
Definition listSessions (createdAt : AttendanceSession.t → Z) (user : Auth.t)
    (query : SessionsQuery.t) (db : Store)
  : Reply (list (AttendanceSession.t * option Subject.t)) :=
  if negb (Auth.requireRole [RoleFaculty] user) then Rejected else
  let facultyId := Auth.userId user in
  let limit := default 10%positive (SessionsQuery.limit query) in
  let found :=
    take (Pos.to_nat limit)
      (sortBy (byCreatedDesc createdAt)
         (filter (SessionsQuery.matches facultyId query) (sessions db))) in
  Sent 200 ((λ s, (s, Subject.findById (AttendanceSession.subject s) (subjects db)))
              <$> found).

(** * Vocabulary of the statements *)

(** ** Lookups and replies *)

(** An active session of the caller with this identifier is in the store. *)
Definition activeSessionOf (sid fid : string) (db : Store) : Prop :=
  ∃ s, s ∈ sessions db ∧ AttendanceSession.matches sid fid Active s.

(** The identifier names a user whose role is student. *)
Definition validStudent (id : string) (db : Store) : Prop :=
  ∃ u, User.findById id (users db) = Some u ∧ User.role u = RoleStudent.

Definition succeeded {A} (r : Reply A) : Prop :=
  match r with Sent _ _ => True | _ => False end.

(** ** Sequences of marks *)




(** ** Sessions *)

(** Modelled from the spec: the unique constraint on the session
    identifier, which is for the AttendanceSession schema
    (models/AttendanceSession.js, outside the handlers) to declare: no
    two sessions of the store share an identifier. *)
Definition uniqueSessionIds (db : Store) : Prop :=
  NoDup (AttendanceSession.sessionId <$> sessions db).

(** At most one session of the store carries the identifier. *)
Definition soleSession (sid : string) (db : Store) : Prop :=
  ∀ i j s s',
    sessions db !! i = Some s → sessions db !! j = Some s' →
    AttendanceSession.sessionId s = sid → AttendanceSession.sessionId s' = sid →
    i = j.

(** The two counts of a session document add up to its total. *)
Definition countsAddUp (s : AttendanceSession.t) : Prop :=
  ∃ p a,
    AttendanceSession.presentStudents s = Some p
    ∧ AttendanceSession.absentStudents s = Some a
    ∧ (a + p = AttendanceSession.totalStudents s)%Z.

(** ** Reports *)

(** What a report query asks of a record apart from its faculty: the
    subject, division and department when the parameter is given and
    not empty, the semester when it is given, the dates when both ends
    are given. *)
Definition passesOthers (q : ReportQuery.t) (r : Attendance.t) : Prop :=
  (∀ v, ReportQuery.subjectId q = Some v → v ≠ "" → Attendance.subject r = v)
  ∧ (∀ v, ReportQuery.division q = Some v → v ≠ "" → Attendance.division r = v)
  ∧ (∀ v, ReportQuery.department q = Some v → v ≠ "" → Attendance.department r = v)
  ∧ (∀ v, ReportQuery.semester q = Some v → Attendance.semester r = v)
  ∧ (∀ a b, ReportQuery.startDate q = Some a → ReportQuery.endDate q = Some b →
       (a ≤ Attendance.date r ≤ b)%Z).

(** The request with another [facultyId] parameter. *)
Definition withFacultyId (q : ReportQuery.t) (f : option string) : ReportQuery.t :=
  {| ReportQuery.subjectId := ReportQuery.subjectId q;
     ReportQuery.division := ReportQuery.division q;
     ReportQuery.department := ReportQuery.department q;
     ReportQuery.semester := ReportQuery.semester q;
     ReportQuery.startDate := ReportQuery.startDate q;
     ReportQuery.endDate := ReportQuery.endDate q;
     ReportQuery.facultyId := f |}.

(** ** Statistics *)

#[global] Instance Grade_eq_dec : EqDecision Grade.
Proof. solve_decision. Defined.

(** The key under which a record is counted. *)
Definition subjectKey (p : Populated.t) : option string :=
  Subject._id <$> Populated.subject p.

(** The records of one subject, in the order they are visited. *)
Definition group (k : string) (records : list Populated.t) : list Populated.t :=
  filter (λ p, subjectKey p = Some k) records.

Definition countStatus (st : MarkStatus) (g : list Populated.t) : Z :=
  Z.of_nat (length (filter (λ p, Attendance.status (Populated.doc p) = st) g)).

(** The counts of a group, named after its first record. *)
Definition tallyOf (g : list Populated.t) : option Tally.t :=
  match g with
  | [] => None
  | p :: _ =>
    Some (Tally.mk (Attendance.subjectName (Populated.doc p))
            (Z.of_nat (length g)) (countStatus Present g)
            (countStatus Absent g) (countStatus Late g))
  end.

(** [stats[k]] *)
Fixpoint assoc {A} (k : string) (stats : list (string * A)) : option A :=
  match stats with
  | [] => None
  | (k0, x) :: rest => if decide (k0 = k) then Some x else assoc k rest
  end.

(** What [stats] holds once the records [seen] are counted. *)
Definition counted (stats : list (string * Tally.t)) (seen : list Populated.t) : Prop :=
  NoDup stats.*1 ∧ ∀ k, assoc k stats = tallyOf (group k seen).

(** [n / 10] is a one-decimal value nearest to [a / t * 100]: no other
    is closer, and at an exact half either neighbour qualifies. *)
Definition nearestTo (a t n : Z) : Prop := (Z.abs (2 * (n * t - 1000 * a)) ≤ t)%Z.

(** The grade read off the percentage in tenths: excellent from 90.0,
    good from 75.0, bad below. *)
Definition gradeByTenths (n : Z) : Grade :=
  if (900 <=? n)%Z then Excellent else if (750 <=? n)%Z then Good else Bad.

(** ** Binary64 rounding *)

(** [mrs] locates the number [N / D]: its integer part is [shr_m], and
    the two bits tell where the rest lies between 0, a half and 1. *)
Definition located (N D : Z) (mrs : shr_record) : Prop :=
  ∃ R, (0 < D ∧ 0 ≤ R < D ∧ 0 ≤ shr_m mrs ∧ N = shr_m mrs * D + R
        ∧ (shr_r mrs = true ↔ D ≤ 2 * R)
        ∧ (shr_s mrs = true ↔ R ≠ 0 ∧ 2 * R ≠ D))%Z.

(** The rational a finite positive number stands for. *)
Definition value (m : positive) (e : Z) : Q := (inject_Z (Zpos m) * 2 ^ e)%Q.

(** Half a unit in the last of 53 digits, relative to the number. *)
Definition eps : Q := (1 # 9007199254740992)%Q.

(** [v] is [X] up to the relative error of one rounding. *)
Definition close (v X : Q) : Prop :=
  (0 < X ∧ X * (1 - eps) <= v ∧ v <= X * (1 + eps))%Q.

(** A normal number has 53 significant digits. *)
Definition normal (m : positive) : Prop := (2 ^ 52 ≤ Zpos m < 2 ^ 53)%Z.

(** ** Runs of the handlers that write *)

(** A request to one of the three routes that write to the store. *)
Inductive Op :=
  | OpStart (now : Z) (user : Auth.t) (body : StartBody.t)
  | OpEnd (now : Z) (user : Auth.t) (sessionId : string)
  | OpMark (user : Auth.t) (body : MarkBody.t).

(** The store the request leaves. *)
Definition step (db : Store) (op : Op) : Store :=
  match op with
  | OpStart now user body => (startSession now user body db).2
  | OpEnd now user sessionId => (endSession now user sessionId db).2
  | OpMark user body => (mark user body db).2
  end.

(** Requests served one after the other. *)
Definition run (ops : list Op) (db : Store) : Store := foldl step db ops.

(** The clock readings of the session starts of a run. *)
Definition startTimes (ops : list Op) : list Z :=
  omap (λ op, match op with OpStart now _ _ => Some now | _ => None end) ops.

(** The identifier the session start builds. *)
Definition sessionIdOf (now : Z) (facultyId subjectId : string) : string :=
  pretty now +:+ "_" +:+ facultyId +:+ "_" +:+ subjectId.

Definition underscore : Ascii.ascii := Ascii.ascii_of_nat 95.

(** The text has no underscore. *)
Fixpoint plain (s : string) : Prop :=
  match s with
  | EmptyString => True
  | String c s' => c ≠ underscore ∧ plain s'
  end.

(** What the handlers keep true of every session document: the cohort
    descriptors passed the validators, the total is a count, and the
    end time and the two counts are there exactly when the session is
    completed, the counts adding up to the total. *)
Definition sessionShape (s : AttendanceSession.t) : Prop :=
  isIn ["A"; "B"; "C"] (AttendanceSession.division s) = true
  ∧ isIn ["CSE"; "ME"; "CE"; "EE"; "ECE"] (AttendanceSession.department s) = true
  ∧ (1 ≤ AttendanceSession.semester s ≤ 8)%Z
  ∧ (0 ≤ AttendanceSession.totalStudents s)%Z
  ∧ match AttendanceSession.status s with
    | Active =>
      AttendanceSession.endTime s = None
      ∧ AttendanceSession.presentStudents s = None
      ∧ AttendanceSession.absentStudents s = None
    | Completed =>
      ∃ t p a, AttendanceSession.endTime s = Some t
        ∧ AttendanceSession.presentStudents s = Some p
        ∧ AttendanceSession.absentStudents s = Some a
        ∧ (0 ≤ p)%Z ∧ (a + p = AttendanceSession.totalStudents s)%Z
    end.

(** The pair an attendance record is kept under. *)
Definition recordKey (r : Attendance.t) : string * string :=
  (Attendance.student r, Attendance.sessionId r).

(** No two records of the store share a (student, session) pair. *)
Definition uniqueRecords (db : Store) : Prop :=
  NoDup (recordKey <$> attendances db).

(** The record carries the descriptors of a session of the store that
    has its session identifier. *)
Definition refersTo (db : Store) (r : Attendance.t) : Prop :=
  ∃ s, s ∈ sessions db
    ∧ AttendanceSession.sessionId s = Attendance.sessionId r
    ∧ AttendanceSession.faculty s = Attendance.faculty r
    ∧ AttendanceSession.subject s = Attendance.subject r
    ∧ AttendanceSession.subjectName s = Attendance.subjectName r
    ∧ AttendanceSession.date s = Attendance.date r
    ∧ AttendanceSession.division s = Attendance.division r
    ∧ AttendanceSession.department s = Attendance.department r
    ∧ AttendanceSession.semester s = Attendance.semester r.

(** Two session documents that differ at most by the session end. *)
Definition sameSession (s s' : AttendanceSession.t) : Prop :=
  AttendanceSession.sessionId s' = AttendanceSession.sessionId s
  ∧ AttendanceSession.subject s' = AttendanceSession.subject s
  ∧ AttendanceSession.subjectName s' = AttendanceSession.subjectName s
  ∧ AttendanceSession.faculty s' = AttendanceSession.faculty s
  ∧ AttendanceSession.facultyName s' = AttendanceSession.facultyName s
  ∧ AttendanceSession.date s' = AttendanceSession.date s
  ∧ AttendanceSession.startTime s' = AttendanceSession.startTime s
  ∧ AttendanceSession.division s' = AttendanceSession.division s
  ∧ AttendanceSession.department s' = AttendanceSession.department s
  ∧ AttendanceSession.semester s' = AttendanceSession.semester s
  ∧ AttendanceSession.totalStudents s' = AttendanceSession.totalStudents s.

(** Two attendance records that differ at most in what a mark rewrites. *)
Definition sameRecord (r r' : Attendance.t) : Prop :=
  ∃ st conf rem, r' = Attendance.remark st conf rem r.


(** The dates of a filter: both ends, or none. *)
Definition bothDates (startDate endDate : option Z) : option (Z * Z) :=
  match startDate, endDate with
  | Some a, Some b => Some (a, b)
  | _, _ => None
  end.

(** ** Queries *)

(** What the query of the student history asks of a record: the
    student; the subject, when the parameter is given and not empty; the
    dates, when both ends are given. *)
Definition inHistory (studentId : string) (q : StudentQuery.t) (r : Attendance.t) : Prop :=
  Attendance.student r = studentId
  ∧ (∀ v, StudentQuery.subjectId q = Some v → v ≠ "" → Attendance.subject r = v)
  ∧ (∀ a b, StudentQuery.startDate q = Some a → StudentQuery.endDate q = Some b →
       (a ≤ Attendance.date r ≤ b)%Z).

(** What the query of the report asks of a record for this caller. *)
Definition inReport (user : Auth.t) (q : ReportQuery.t) (r : Attendance.t) : Prop :=
  (∀ v, ReportQuery.subjectId q = Some v → v ≠ "" → Attendance.subject r = v)
  ∧ (∀ v, ReportQuery.division q = Some v → v ≠ "" → Attendance.division r = v)
  ∧ (∀ v, ReportQuery.department q = Some v → v ≠ "" → Attendance.department r = v)
  ∧ (∀ v, ReportQuery.semester q = Some v → Attendance.semester r = v)
  ∧ (if bool_decide (Auth.role user = RoleFaculty)
     then Attendance.faculty r = Auth.userId user
     else ∀ v, ReportQuery.facultyId q = Some v → v ≠ "" → Attendance.faculty r = v)
  ∧ (∀ a b, ReportQuery.startDate q = Some a → ReportQuery.endDate q = Some b →
       (a ≤ Attendance.date r ≤ b)%Z).

(** The order of [{ date: -1 }]. *)
Definition newestFirst (a b : Attendance.t) : Prop :=
  (Attendance.date b ≤ Attendance.date a)%Z.

(** The order of [{ date: -1, studentName: 1 }]. *)
Definition newestFirstThenName (a b : Attendance.t) : Prop :=
  (Attendance.date b < Attendance.date a)%Z
  ∨ (Attendance.date b = Attendance.date a
     ∧ String.leb (Attendance.studentName a) (Attendance.studentName b) = true).

(** The records the entries of the statistics count, all together. *)
Definition totalCounted (stats : list Stat.t) : Z :=
  foldr (λ s n, (Tally.total (Stat.tally s) + n)%Z) 0%Z stats.

(** The records of a tally that count as attended. *)
Definition attended (s : Tally.t) : Z := (Tally.present s + Tally.late s)%Z.

Definition gradeRank (g : Grade) : nat :=
  match g with Bad => 0 | Good => 1 | Excellent => 2 end.

(** The subject of every session and of every record is in the store. *)
Definition subjectsKnown (db : Store) : Prop :=
  Forall (λ s, is_Some (Subject.findById (AttendanceSession.subject s) (subjects db)))
    (sessions db)
  ∧ Forall (λ r, is_Some (Subject.findById (Attendance.subject r) (subjects db)))
      (attendances db).

(** The order of [{ createdAt: -1 }]. *)
Definition newestCreatedFirst (createdAt : AttendanceSession.t → Z)
    (a b : AttendanceSession.t) : Prop :=
  (createdAt b ≤ createdAt a)%Z.

(** ** A store to run the handlers on *)

Module Example.

Definition prof : User.t :=
  {| User._id := "64b000000000000000000001"; User.username := "asha";
     User.role := RoleFaculty; User.department := "CSE"; User.division := "";
     User.semester := 0; User.isActive := true; User.enrollmentNumber := "" |}.

Definition otherProf : User.t :=
  {| User._id := "64b000000000000000000002"; User.username := "bram";
     User.role := RoleFaculty; User.department := "ME"; User.division := "";
     User.semester := 0; User.isActive := true; User.enrollmentNumber := "" |}.

(** A student of CSE, division A, semester 3. *)
Definition enrolledStudent : User.t :=
  {| User._id := "64b0000000000000000000a1"; User.username := "chen";
     User.role := RoleStudent; User.department := "CSE"; User.division := "A";
     User.semester := 3; User.isActive := true; User.enrollmentNumber := "CSE-301" |}.

(** A student of another department, division and semester. *)
Definition outsider : User.t :=
  {| User._id := "64b0000000000000000000a2"; User.username := "dana";
     User.role := RoleStudent; User.department := "ME"; User.division := "B";
     User.semester := 5; User.isActive := false; User.enrollmentNumber := "ME-512" |}.

Definition algorithms : Subject.t :=
  {| Subject._id := "64b0000000000000000000c1"; Subject.name := "Algorithms";
     Subject.code := "CS301"; Subject.department := "CSE"; Subject.credits := 4;
     Subject.semester := 3; Subject.facultyId := None; Subject.facultyName := None;
     Subject.description := None; Subject.isActive := true; Subject.syllabus := None |}.

Definition db0 : Store :=
  {| users := [prof; otherProf; enrolledStudent; outsider];
     subjects := [algorithms]; sessions := []; attendances := [] |}.

Definition asProf : Auth.t := Auth.mk (User._id prof) RoleFaculty.
Definition asOtherProf : Auth.t := Auth.mk (User._id otherProf) RoleFaculty.
Definition asStudent : Auth.t := Auth.mk (User._id enrolledStudent) RoleStudent.
Definition asAdmin : Auth.t := Auth.mk "64b0000000000000000000f1" RoleAdmin.

Definition opened : Z := 1700000000000.
Definition closed : Z := 1700000003000.

Definition start : StartBody.t := StartBody.mk (Subject._id algorithms) "A" "CSE" 3.

(** The store once the session is started. *)
Definition db1 : Store := (startSession opened asProf start db0).2.

Definition sid : string :=
  "1700000000000_64b000000000000000000001_64b0000000000000000000c1".

Definition markOf (u : User.t) (status : string) (conf rem : Js.value) : MarkBody.t :=
  MarkBody.mk sid (User._id u) status conf rem.

(** 0.9 as a number: 8106479329266893 * 2 ^ -53. *)
Definition ninetenths : Js.value :=
  Js.Number (Js.div (Js.ofZ 9) (Js.ofZ 10)).


(** The store after the first of them. *)
Definition db2 : Store :=
  (mark asProf (markOf enrolledStudent "present" ninetenths (Js.Str "on time")) db1).2.

(** The store after a student of no cohort of the session is marked too. *)
Definition db3 : Store :=
  (mark asProf (markOf outsider "present" Js.Undefined Js.Undefined) db2).2.

(** The store with one student present and one late. *)
Definition dbLate : Store :=
  (mark asProf (markOf outsider "late" Js.Undefined Js.Undefined) db2).2.

(** One record of the student's history in the subject. *)
Definition record (st : MarkStatus) : Populated.t :=
  {| Populated.doc :=
       Attendance.mk (User._id enrolledStudent) "chen" "CSE-301"
         (Subject._id algorithms) "Algorithms" (User._id prof) "asha"
         opened st "A" "CSE" 3 sid Js.zero Js.empty;
     Populated.student := None;
     Populated.subject := Some algorithms;
     Populated.faculty := Some prof |}.

(** A history with so many records present, late and absent. *)
Definition history (present late absent : nat) : list Populated.t :=
  replicate present (record Present) ++ replicate late (record Late)
  ++ replicate absent (record Absent).

End Example.

(** ** A run on the example store *)

Module Trace.

(** On the started session two students are marked, one of them twice,
    the session is ended, and another faculty member starts a session. *)
Definition rest : list Op :=
  [OpMark Example.asProf
     (Example.markOf Example.enrolledStudent "present" Example.ninetenths
        (Js.Str "on time"));
   OpMark Example.asProf
     (Example.markOf Example.outsider "late" Js.Undefined Js.Undefined);
   OpMark Example.asProf
     (Example.markOf Example.enrolledStudent "absent" Js.Undefined Js.Undefined);
   OpEnd Example.closed Example.asProf Example.sid;
   OpStart Example.closed Example.asOtherProf Example.start].

(** The same, from the session start on. *)
Definition ops : list Op :=
  OpStart Example.opened Example.asProf Example.start :: rest.

(** The example store once the subject is deleted. *)
Definition noSubjects (db : Store) : Store :=
  {| users := users db; subjects := []; sessions := sessions db;
     attendances := attendances db |}.

End Trace.

(** * Properties *)

(** ** Reading the lookups *)

Lemma findOne_session_None sid fid st l :
  AttendanceSession.findOne sid fid st l = None
  ↔ ∀ s, s ∈ l → ¬ AttendanceSession.matches sid fid st s.
Proof.
  unfold AttendanceSession.findOne. rewrite list_find_None, Forall_forall. done.
Qed.

Lemma findOne_session_Some sid fid st l i s :
  AttendanceSession.findOne sid fid st l = Some (i, s)
  → l !! i = Some s ∧ s ∈ l ∧ AttendanceSession.matches sid fid st s.
Proof.
  unfold AttendanceSession.findOne. intros (Hi & Hm & _)%list_find_Some.
  split_and!; [done | by eapply list_elem_of_lookup_2 | done].
Qed.

Lemma activeSessionOf_findOne sid fid db :
  activeSessionOf sid fid db
  ↔ is_Some (AttendanceSession.findOne sid fid Active (sessions db)).
Proof.
  split.
  - intros (s & Hin & Hm). by eapply list_find_elem_of.
  - intros [[i s] H]. apply findOne_session_Some in H as (_ & ? & ?).
    by exists s.
Qed.

Lemma validate_mark_status body :
  MarkBody.validate body = [] → is_Some (parseMarkStatus (MarkBody.status body)).
Proof.
  unfold MarkBody.validate, failing, parseMarkStatus, isIn. simpl.
  destruct (notEmpty _), (isMongoId _); simpl;
    repeat (rewrite ?filter_cons, ?filter_nil; simpl; repeat case_decide; simpl);
    try discriminate.
  all: destruct (String.eqb _ "present"); [eauto|].
  all: destruct (String.eqb _ "absent"); [eauto|].
  all: destruct (String.eqb _ "late"); [eauto|]; simpl in *; try done.
Qed.

Lemma requireRole_faculty user :
  Auth.role user = RoleFaculty → Auth.requireRole [RoleFaculty] user = true.
Proof.
  intros H. unfold Auth.requireRole. rewrite H. by apply bool_decide_eq_true_2, list_elem_of_here.
Qed.

(** The two ways a mark succeeds, and what each does to the store. *)
Lemma mark_succeeded user body db code b db' :
  mark user body db = (Sent code b, db')
  → ∃ st session j student,
      parseMarkStatus (MarkBody.status body) = Some st
      ∧ AttendanceSession.findOne (MarkBody.sessionId body) (Auth.userId user)
          Active (sessions db) = Some (j, session)
      ∧ User.findById (MarkBody.studentId body) (users db) = Some student
      ∧ User.role student = RoleStudent
      ∧ let conf := Js.or (MarkBody.detectionConfidence body) Js.zero in
        let rem := Js.or (MarkBody.remarks body) Js.empty in
        ((∃ i old,
            Attendance.findOne (MarkBody.studentId body) (MarkBody.sessionId body)
              (attendances db) = Some (i, old)
            ∧ code = 200%nat
            ∧ b = ("Attendance updated successfully", Attendance.remark st conf rem old)
            ∧ db' = withAttendances db (<[i := b.2]> (attendances db)))
         ∨ (Attendance.findOne (MarkBody.studentId body) (MarkBody.sessionId body)
              (attendances db) = None
            ∧ code = 201%nat
            ∧ b.1 = "Attendance marked successfully"
            ∧ Attendance.keyed (MarkBody.studentId body) (MarkBody.sessionId body) b.2
            ∧ Attendance.status b.2 = st
            ∧ Attendance.detectionConfidence b.2 = conf
            ∧ Attendance.remarks b.2 = rem
            ∧ db' = withAttendances db (attendances db ++ [b.2]))).
Proof.
  unfold mark. intros H.
  destruct (negb _); [discriminate|].
  destruct (MarkBody.validate body); [|discriminate].
  destruct (parseMarkStatus _) as [st|]; [|discriminate].
  destruct (AttendanceSession.findOne _ _ _ _) as [[j session]|] eqn:Hs; [|discriminate].
  destruct (User.findById (MarkBody.studentId body) _) as [student|] eqn:Hu; [|discriminate].
  destruct (bool_decide (User.role student = RoleStudent)) eqn:Hr; simpl in H; [|discriminate].
  apply bool_decide_eq_true_1 in Hr.
  exists st, session, j, student. split_and!; try done.
  destruct (Attendance.findOne _ _ _) as [[i old]|] eqn:Ha.
  - left. exists i, old. by simplify_eq.
  - right. destruct (User.findById (Auth.userId user) _); [|discriminate].
    simplify_eq. by split_and!.
Qed.

(** A mark that does not succeed leaves the store as it was. *)
Lemma mark_failed user body db reply db' :
  mark user body db = (reply, db') → ¬ succeeded reply → db' = db.
Proof.
  unfold mark. intros H Hn.
  repeat (match type of H with
          | context [match ?x with _ => _ end] => destruct x eqn:?
          | context [if ?x then _ else _] => destruct x eqn:?
          end; simpl in H; try (by simplify_eq); try (simplify_eq; by destruct Hn)).
Qed.

(** ** Mark: preconditions *)

(** C6. A mark by a faculty caller with a well-formed body fails with
    InvalidSessionError unless the store holds an active session with
    the given identifier whose faculty is the caller; given such a
    session it fails with InvalidStudentError unless the target user
    exists and has the role student; a record is created or updated only
    when both hold, and a mark that does not succeed changes nothing. *)
Theorem mark_preconditions user body db :
  Auth.role user = RoleFaculty → MarkBody.validate body = [] →
  let sid := MarkBody.sessionId body in
  let stu := MarkBody.studentId body in
  (¬ activeSessionOf sid (Auth.userId user) db
     → mark user body db = (InvalidSessionError, db))
  ∧ (activeSessionOf sid (Auth.userId user) db → ¬ validStudent stu db
     → mark user body db = (InvalidStudentError, db))
  ∧ (∀ code b db', mark user body db = (Sent code b, db')
     → activeSessionOf sid (Auth.userId user) db ∧ validStudent stu db)
  ∧ (∀ reply db', mark user body db = (reply, db')
     → ¬ succeeded reply → db' = db).
Proof.
  intros Hrole Hval sid stu. subst sid stu.
  destruct (validate_mark_status _ Hval) as [st Hst].
  split_and!.
  - intros Hno. unfold mark.
    rewrite (requireRole_faculty _ Hrole), Hval, Hst. cbn [negb].
    destruct (AttendanceSession.findOne _ _ _ _) as [[j s]|] eqn:Hf; [|done].
    destruct Hno. apply activeSessionOf_findOne. by rewrite Hf.
  - intros [[j s] Hf]%activeSessionOf_findOne Hno. unfold mark.
    rewrite (requireRole_faculty _ Hrole), Hval, Hst, Hf. cbn [negb].
    destruct (User.findById (MarkBody.studentId body) _) as [student|] eqn:Hu; [|done].
    destruct (bool_decide (User.role student = RoleStudent)) eqn:Hr; [|done].
    destruct Hno. exists student. split; [done|]. by apply bool_decide_eq_true in Hr.
  - intros code b db' H.
    apply mark_succeeded in H as (st' & session & j & student & _ & Hs & Hu & Hr & _).
    split.
    + apply activeSessionOf_findOne. by rewrite Hs.
    + by exists student.
  - intros reply db'. apply mark_failed.
Qed.

(** ** Mark: one record per student and session *)

Lemma findOne_attendance_None stu sid l :
  Attendance.findOne stu sid l = None ↔ filter (Attendance.keyed stu sid) l = [].
Proof.
  unfold Attendance.findOne. rewrite list_find_None.
  induction l as [|x l IH]; [done|].
  rewrite Forall_cons, filter_cons. case_decide.
  - split; [by intros [] | done].
  - rewrite IH. by split; [intros [] | ].
Qed.

Lemma findOne_attendance_last stu sid l r :
  filter (Attendance.keyed stu sid) l = [] → Attendance.keyed stu sid r →
  Attendance.findOne stu sid (l ++ [r]) = Some (length l, r).
Proof.
  intros Hl Hr. apply findOne_attendance_None in Hl.
  unfold Attendance.findOne in *. rewrite list_find_app_r by done.
  simpl. by rewrite decide_True by done.
Qed.

Lemma insert_last {A} (l : list A) (x y : A) : <[length l := y]> (l ++ [x]) = l ++ [y].
Proof.
  rewrite insert_app_r_alt by lia. by rewrite Nat.sub_diag.
Qed.




(** C10. When the pair already has a record, a successful mark rewrites
    that record with the new status and with [detectionConfidence || 0]
    and [remarks || ''], whatever the record held: a confidence that is
    omitted, 0 or any other falsy value stores 0, and omitted or empty
    remarks store the empty text; the other fields stay. *)
Theorem mark_update_overwrites user body db i old code b db' :
  Attendance.findOne (MarkBody.studentId body) (MarkBody.sessionId body)
    (attendances db) = Some (i, old) →
  mark user body db = (Sent code b, db') →
  ∃ st, parseMarkStatus (MarkBody.status body) = Some st
    ∧ code = 200%nat
    ∧ attendances db' = <[i := b.2]> (attendances db)
    ∧ attendances db' !! i = Some b.2
    ∧ b.2 = Attendance.remark st
              (Js.or (MarkBody.detectionConfidence body) Js.zero)
              (Js.or (MarkBody.remarks body) Js.empty) old
    ∧ (Js.truthy (MarkBody.detectionConfidence body) = false
       → Attendance.detectionConfidence b.2 = Js.zero)
    ∧ (Js.truthy (MarkBody.remarks body) = false
       → Attendance.remarks b.2 = Js.empty).
Proof.
  intros Hf Hm.
  apply mark_succeeded in Hm as (st & session & j & student & Hst & _ & _ & _ & Hcase).
  simpl in Hcase. rewrite Hf in Hcase.
  destruct Hcase as [(i' & old' & Heq & -> & -> & ->)|(? & _)]; [|discriminate].
  simplify_eq. exists st. simpl. split_and!; try done.
  - apply list_lookup_insert_eq. apply list_find_Some in Hf as (Hi & _).
    by eapply lookup_lt_Some.
  - intros Ht. unfold Js.or. by rewrite Ht.
  - intros Ht. unfold Js.or. by rewrite Ht.
Qed.

(** ** Session end *)

(** What a successful session end read and wrote. *)
Lemma endSession_succeeded now user sid db code b db' :
  endSession now user sid db = (Sent code b, db')
  → ∃ i s,
      AttendanceSession.findOne sid (Auth.userId user) Active (sessions db) = Some (i, s)
      ∧ code = 200%nat
      ∧ b = ("Attendance session ended successfully",
             AttendanceSession.close now
               (Attendance.countDocuments sid Present (attendances db))
               (AttendanceSession.totalStudents s
                - Attendance.countDocuments sid Present (attendances db))%Z s)
      ∧ db' = withSessions db (<[i := b.2]> (sessions db)).
Proof.
  unfold endSession. intros H.
  destruct (negb _); [discriminate|].
  destruct (AttendanceSession.findOne _ _ _ _) as [[i s]|] eqn:Hf; [|discriminate].
  exists i, s. by simplify_eq.
Qed.


Lemma NoDup_fmap_lookup {A B} (f : A → B) (l : list A) i j x y :
  NoDup (f <$> l) → l !! i = Some x → l !! j = Some y → f x = f y → i = j.
Proof.
  intros Hnd Hi Hj Hxy.
  eapply NoDup_lookup; [exact Hnd| |].
  - rewrite list_lookup_fmap, Hi. done.
  - rewrite list_lookup_fmap, Hj. simpl. by rewrite Hxy.
Qed.

Lemma uniqueSessionIds_sole sid db : uniqueSessionIds db → soleSession sid db.
Proof.
  intros Hu i j s s' Hi Hj Hs Hs'.
  eapply (NoDup_fmap_lookup AttendanceSession.sessionId); eauto. congruence.
Qed.


(** C3. A session end that succeeds returns, and stores in place of the
    session it found, that session with presentStudents = the number of
    attendance records carrying the session identifier and the status
    present, absentStudents = totalStudents minus that number (records
    that are late or absent do not enter it), endTime = the time of the
    call and status = completed; totalStudents and the other fields are
    as they were. *)
Theorem endSession_counts now user sid db code b db' :
  endSession now user sid db = (Sent code b, db') →
  ∃ i s,
    sessions db !! i = Some s
    ∧ AttendanceSession.matches sid (Auth.userId user) Active s
    ∧ sessions db' = <[i := b.2]> (sessions db)
    ∧ attendances db' = attendances db
    ∧ let presentCount :=
        Z.of_nat (length (filter
          (λ r, Attendance.sessionId r = sid ∧ Attendance.status r = Present)
          (attendances db))) in
      AttendanceSession.presentStudents b.2 = Some presentCount
      ∧ AttendanceSession.absentStudents b.2
        = Some (AttendanceSession.totalStudents s - presentCount)%Z
      ∧ AttendanceSession.endTime b.2 = Some now
      ∧ AttendanceSession.status b.2 = Completed
      ∧ AttendanceSession.totalStudents b.2 = AttendanceSession.totalStudents s
      ∧ b.2 = AttendanceSession.close now presentCount
                (AttendanceSession.totalStudents s - presentCount)%Z s.
Proof.
  intros Hend.
  apply endSession_succeeded in Hend as (i & s & Hf & -> & -> & ->).
  apply findOne_session_Some in Hf as (Hi & _ & Hm).
  exists i, s. simpl. by split_and!.
Qed.

(** After a successful session end the two counts add up to the total. *)
Lemma endSession_sum now user sid db code b db' :
  endSession now user sid db = (Sent code b, db') →
  ∃ p a,
    AttendanceSession.presentStudents b.2 = Some p
    ∧ AttendanceSession.absentStudents b.2 = Some a
    ∧ (a + p = AttendanceSession.totalStudents b.2)%Z.
Proof.
  intros Hend.
  apply endSession_succeeded in Hend as (i & s & Hf & -> & -> & ->).
  simpl. eexists _, _. split_and!; [done..|]. lia.
Qed.

(** C4, as stated: some successful session end over a store with a late
    record of the session returns counts that do not add up to the
    total.  The code has no such run. *)
Lemma late_records_keep_the_sum :
  ¬ ∃ now user sid db code b db',
      endSession now user sid db = (Sent code b, db')
      ∧ (∃ r, r ∈ attendances db ∧ Attendance.inSession sid Late r)
      ∧ ¬ countsAddUp b.2.
Proof.
  intros (now & user & sid & db & code & b & db' & Hend & _ & Hno).
  apply Hno. eapply endSession_sum, Hend.
Qed.

(** C4, amended. After every successful session end, with or without
    late records, absentStudents + presentStudents = totalStudents:
    presentStudents counts the records of the session marked present,
    absentStudents is the total minus that count, and a record marked
    late does not enter presentStudents. *)
Theorem endSession_counts_add_up now user sid db code b db' :
  endSession now user sid db = (Sent code b, db') →
  countsAddUp b.2
  ∧ AttendanceSession.presentStudents b.2
    = Some (Attendance.countDocuments sid Present (attendances db))
  ∧ ∀ r, Attendance.inSession sid Late r →
      AttendanceSession.presentStudents b.2
      = Some (Attendance.countDocuments sid Present (r :: attendances db)).
Proof.
  intros Hend. split; [by eapply endSession_sum|].
  apply endSession_succeeded in Hend as (i & s & Hf & -> & -> & ->).
  simpl. split; [done|].
  intros r [Hsid Hst]. unfold Attendance.countDocuments.
  rewrite filter_cons, decide_False; [done|].
  intros [_ Hp]. congruence.
Qed.

(** ** Report *)

Lemma filter_faculty_forced user q :
  Auth.role user = RoleFaculty →
  ∀ f, ReportQuery.filter user (withFacultyId q f)
       = ReportQuery.filter user (withFacultyId q None).
Proof.
  intros Hrole f. unfold ReportQuery.filter. rewrite Hrole. simpl.
  destruct (given f); simpl; [|done].
  destruct (given (ReportQuery.subjectId q)), (given (ReportQuery.division q)),
    (given (ReportQuery.department q)), (ReportQuery.semester q),
    (ReportQuery.startDate q), (ReportQuery.endDate q); done.
Qed.

Lemma filter_faculty_field user q :
  Filter.faculty (ReportQuery.filter user q)
  = if bool_decide (Auth.role user = RoleFaculty) then Some (Auth.userId user)
    else given (ReportQuery.facultyId q).
Proof.
  unfold ReportQuery.filter.
  destruct (bool_decide _), (given (ReportQuery.facultyId q)),
    (given (ReportQuery.subjectId q)), (given (ReportQuery.division q)),
    (given (ReportQuery.department q)), (ReportQuery.semester q),
    (ReportQuery.startDate q), (ReportQuery.endDate q); done.
Qed.

Lemma elem_of_insertBy {A} (le : A → A → bool) x y l :
  x ∈ insertBy le y l ↔ x = y ∨ x ∈ l.
Proof.
  induction l as [|z l IH]; simpl.
  - rewrite list_elem_of_singleton. set_solver.
  - destruct (le y z); set_solver.
Qed.

Lemma elem_of_sortBy {A} (le : A → A → bool) x l : x ∈ sortBy le l ↔ x ∈ l.
Proof.
  induction l as [|z l IH]; simpl; [done|].
  rewrite elem_of_insertBy, IH. set_solver.
Qed.

Lemma doc_populateReport db (l : list Attendance.t) :
  Populated.doc <$> (populateReport db <$> l) = l.
Proof. induction l as [|r l IH]; simpl; [done|]. by f_equal. Qed.

(** The documents of a report are the records the filter admits. *)
Lemma report_records user q db body :
  report user q db = Sent 200 body →
  ∀ r, r ∈ Populated.doc <$> body
       ↔ r ∈ attendances db ∧ Filter.matches (ReportQuery.filter user q) r.
Proof.
  unfold report. destruct (negb _); [discriminate|]. intros [= <-] r.
  rewrite doc_populateReport, elem_of_sortBy. unfold find. by rewrite list_elem_of_filter, (comm _ (r ∈ _)).
Qed.

(** A parameter counts when it is given and not the empty text. *)
Lemma given_holds p (P : string → Prop) :
  Filter.holds (given p) P ↔ ∀ v, p = Some v → v ≠ "" → P v.
Proof.
  unfold given. destruct p as [s|]; simpl; [|naive_solver].
  destruct (String.eqb_spec s ""); simpl; naive_solver.
Qed.

(** The filter of a report, field by field. *)
Lemma report_filter_fields user q :
  let f := ReportQuery.filter user q in
  Filter.student f = None
  ∧ Filter.subject f = given (ReportQuery.subjectId q)
  ∧ Filter.division f = given (ReportQuery.division q)
  ∧ Filter.department f = given (ReportQuery.department q)
  ∧ Filter.semester f = ReportQuery.semester q
  ∧ Filter.date f
    = match ReportQuery.startDate q, ReportQuery.endDate q with
      | Some a, Some b => Some (a, b)
      | _, _ => None
      end.
Proof.
  destruct q as [subj div dep sem sd ed fac]. unfold ReportQuery.filter. simpl.
  destruct (given subj), (given div), (given dep), (given fac), sem, sd, ed,
    (bool_decide (Auth.role user = RoleFaculty)); by split_and!.
Qed.

(** A record passes the filter of a report when it passes the faculty
    field and what the query asks apart from the faculty. *)
Lemma report_matches user q r :
  Filter.matches (ReportQuery.filter user q) r
  ↔ Filter.holds (Filter.faculty (ReportQuery.filter user q))
      (λ v, Attendance.faculty r = v)
    ∧ passesOthers q r.
Proof.
  destruct (report_filter_fields user q) as (H1 & H2 & H3 & H4 & H5 & H7).
  unfold Filter.matches, passesOthers. rewrite H1, H2, H3, H4, H5, H7.
  rewrite !given_holds.
  destruct (ReportQuery.semester q), (ReportQuery.startDate q),
    (ReportQuery.endDate q); simpl; naive_solver.
Qed.

(** C7. For a caller whose role is faculty the faculty filter of a
    report is the caller's own identifier whatever [facultyId] the
    request carries: two requests of that caller that differ only in
    [facultyId] get the same reply, the report is sent, and the records
    returned are exactly the records of the store whose faculty is the
    caller and that pass the other filters.  For a caller whose role is
    admin the filter is the [facultyId] supplied: with one supplied the
    records returned are exactly those of that faculty that pass the
    other filters, with none exactly those that pass the other
    filters. *)
Theorem report_faculty_scope user q db :
  (Auth.role user = RoleFaculty →
     Filter.faculty (ReportQuery.filter user q) = Some (Auth.userId user)
     ∧ (∀ f1 f2, report user (withFacultyId q f1) db
                 = report user (withFacultyId q f2) db)
     ∧ (∀ body, report user q db = Sent 200 body
        → ∀ p, p ∈ body → Attendance.faculty (Populated.doc p) = Auth.userId user)
     ∧ ∃ body, report user q db = Sent 200 body
        ∧ ∀ r, r ∈ Populated.doc <$> body
          ↔ r ∈ attendances db ∧ Attendance.faculty r = Auth.userId user
            ∧ passesOthers q r)
  ∧ (Auth.role user = RoleAdmin →
     Filter.faculty (ReportQuery.filter user q) = given (ReportQuery.facultyId q)
     ∧ ∃ body, report user q db = Sent 200 body
        ∧ (∀ f, given (ReportQuery.facultyId q) = Some f
           → ∀ r, r ∈ Populated.doc <$> body
             ↔ r ∈ attendances db ∧ Attendance.faculty r = f
               ∧ Filter.matches (ReportQuery.filter user (withFacultyId q None)) r)
        ∧ (∀ f, given (ReportQuery.facultyId q) = Some f
           → ∀ r, r ∈ Populated.doc <$> body
             ↔ r ∈ attendances db ∧ Attendance.faculty r = f ∧ passesOthers q r)
        ∧ (given (ReportQuery.facultyId q) = None
           → ∀ r, r ∈ Populated.doc <$> body
             ↔ r ∈ attendances db ∧ passesOthers q r)).
Proof.
  split.
  - intros Hrole. split_and!.
    + rewrite filter_faculty_field, Hrole. done.
    + intros f1 f2. unfold report.
      by rewrite (filter_faculty_forced _ _ Hrole f1), (filter_faculty_forced _ _ Hrole f2).
    + intros body Hrep p Hp.
      assert (Hin : Populated.doc p ∈ Populated.doc <$> body)
        by (by apply list_elem_of_fmap_2).
      apply (report_records _ _ _ _ Hrep) in Hin as [_ Hm].
      destruct Hm as (_ & _ & _ & _ & _ & Hfac & _).
      rewrite filter_faculty_field, Hrole in Hfac. done.
    + assert (Hrep : report user q db
                     = Sent 200 (populateReport db <$>
                         sortBy byDateDescThenName
                           (find (ReportQuery.filter user q) (attendances db))))
        by (unfold report, Auth.requireRole; by rewrite Hrole).
      eexists. split; [exact Hrep|]. intros r.
      rewrite (report_records _ _ _ _ Hrep), report_matches, filter_faculty_field, Hrole.
      done.
  - intros Hrole.
    assert (Hrep : report user q db
                   = Sent 200 (populateReport db <$>
                       sortBy byDateDescThenName
                         (find (ReportQuery.filter user q) (attendances db))))
      by (unfold report, Auth.requireRole; by rewrite Hrole).
    split.
    + rewrite filter_faculty_field, Hrole. done.
    + eexists. split; [exact Hrep|]. split_and!.
      * intros f Hf r. rewrite (report_records _ _ _ _ Hrep).
        unfold Filter.matches, ReportQuery.filter. rewrite Hrole, Hf. simpl.
        destruct (given (ReportQuery.subjectId q)), (given (ReportQuery.division q)),
          (given (ReportQuery.department q)), (ReportQuery.semester q),
          (ReportQuery.startDate q), (ReportQuery.endDate q); simpl; naive_solver.
      * intros f Hf r.
        rewrite (report_records _ _ _ _ Hrep), report_matches, filter_faculty_field,
          Hrole, Hf.
        done.
      * intros Hf r.
        rewrite (report_records _ _ _ _ Hrep), report_matches, filter_faculty_field,
          Hrole, Hf.
        simpl. naive_solver.
Qed.

(** ** Student history *)

(** C8. A caller whose role is student and who asks for the history of
    an identifier other than their own gets AccessDeniedError and no
    records; a student asking for their own identifier, and a caller
    with another role, are not stopped by this check: the reply is the
    records with the statistics, or the server error of a record whose
    subject is no longer in the store. *)
Theorem studentAttendance_access user studentId query db :
  (Auth.role user = RoleStudent → Auth.userId user ≠ studentId
     → studentAttendance user studentId query db = AccessDeniedError)
  ∧ (Auth.role user ≠ RoleStudent ∨ Auth.userId user = studentId
     → studentAttendance user studentId query db ≠ AccessDeniedError
       ∧ ((∃ body, studentAttendance user studentId query db = Sent 200 body
             ∧ ∀ p, p ∈ body.1 → Attendance.student (Populated.doc p) = studentId)
          ∨ studentAttendance user studentId query db = ServerError)).
Proof.
  unfold studentAttendance. split.
  - intros Hrole Hne. rewrite Hrole.
    apply String.eqb_neq in Hne. by rewrite Hne.
  - intros Hok.
    assert (bool_decide (Auth.role user = RoleStudent)
            && negb (String.eqb (Auth.userId user) studentId) = false) as ->.
    { destruct Hok as [Hr | ->].
      - by rewrite bool_decide_eq_false_2.
      - rewrite String.eqb_refl. by rewrite andb_false_r. }
    destruct (statistics _) as [stats|] eqn:Hs; [|split; [done | by right]].
    split; [done|]. left. eexists. split; [done|]. simpl.
    intros p (r & -> & Hr)%list_elem_of_fmap. simpl.
    apply elem_of_sortBy in Hr. unfold find in Hr.
    apply list_elem_of_filter in Hr as [(Hstu & _) _].
    revert Hstu. unfold StudentQuery.filter.
    destruct (given _), (StudentQuery.startDate query), (StudentQuery.endDate query); done.
Qed.

(** ** Mark and the cohort of the session *)

Lemma findById_Some id (l : list User.t) u :
  User.findById id l = Some u → u ∈ l ∧ User._id u = id.
Proof.
  unfold User.findById. destruct (list_find _ l) as [[i x]|] eqn:Hf; [|done].
  intros [= <-]. apply list_find_Some in Hf as (Hi & Hid & _).
  split; [by eapply list_elem_of_lookup_2 | done].
Qed.

(** C9. The mark handler asks of the student only that the user exists
    and has the role student: with an active session of the caller, any
    such user is marked, whatever the department, division, semester and
    activity of the user and of the session.  So the present records of
    a session can outnumber its totalStudents: in the run below a
    session is started for a cohort of one, two students are marked
    present, the second from no cohort of the session, and the session
    end computes absentStudents = 1 - 2 = -1. *)
Theorem mark_ignores_cohort :
  (∀ user body db st j session student faculty,
     Auth.role user = RoleFaculty → MarkBody.validate body = [] →
     parseMarkStatus (MarkBody.status body) = Some st →
     AttendanceSession.findOne (MarkBody.sessionId body) (Auth.userId user)
       Active (sessions db) = Some (j, session) →
     User.findById (MarkBody.studentId body) (users db) = Some student →
     User.role student = RoleStudent →
     User.findById (Auth.userId user) (users db) = Some faculty →
     ∃ code b db', mark user body db = (Sent code b, db')
       ∧ b.2 ∈ attendances db'
       ∧ Attendance.keyed (MarkBody.studentId body) (MarkBody.sessionId body) b.2
       ∧ Attendance.status b.2 = st)
  ∧ ∃ s1 r1 r2 s4 db4,
      startSession Example.opened Example.asProf Example.start Example.db0
        = (Sent 201 ("Attendance session started successfully", s1), Example.db1)
      ∧ AttendanceSession.totalStudents s1 = 1%Z
      ∧ ¬ User.enrolled (AttendanceSession.department s1)
            (AttendanceSession.division s1) (AttendanceSession.semester s1)
            Example.outsider
      ∧ mark Example.asProf
          (Example.markOf Example.enrolledStudent "present" Example.ninetenths
             (Js.Str "on time")) Example.db1
        = (Sent 201 ("Attendance marked successfully", r1), Example.db2)
      ∧ mark Example.asProf
          (Example.markOf Example.outsider "present" Js.Undefined Js.Undefined)
          Example.db2
        = (Sent 201 ("Attendance marked successfully", r2), Example.db3)
      ∧ Attendance.countDocuments Example.sid Present (attendances Example.db3) = 2%Z
      ∧ endSession Example.closed Example.asProf Example.sid Example.db3
        = (Sent 200 ("Attendance session ended successfully", s4), db4)
      ∧ AttendanceSession.totalStudents s4 = 1%Z
      ∧ AttendanceSession.presentStudents s4 = Some 2%Z
      ∧ AttendanceSession.absentStudents s4 = Some (-1)%Z.
Proof.
  split.
  - intros user body db st j session student faculty Hrole Hval Hst Hs Hu Hr Hf.
    unfold mark.
    rewrite (requireRole_faculty _ Hrole), Hval, Hst, Hs, Hu, Hf. cbn [negb].
    rewrite (bool_decide_eq_true_2 _ Hr). cbn [negb].
    destruct (Attendance.findOne _ _ _) as [[i old]|] eqn:Ha.
    + apply list_find_Some in Ha as (Hi & [Hk1 Hk2] & _).
      eexists _, _, _. split; [done|]. simpl. split_and!; try done.
      eapply list_elem_of_lookup_2, list_lookup_insert_eq. by eapply lookup_lt_Some.
    + eexists _, _, _. split; [done|]. simpl. split_and!; try done.
      apply elem_of_app. right. apply list_elem_of_here.
  - eexists _, _, _, _, _. vm_compute. split_and!; try done.
    intros (_ & H & _). discriminate H.
Qed.

(** ** Binary64 arithmetic on counts *)

(** The statistics divide and multiply counts as binary64 numbers and
    round the result to one decimal.  This part derives, from the
    definitions of the float specification at precision 53 and maximal
    exponent 1024 ([Js.prec], [Js.emax]), that each of the two
    operations is off by a relative error of at most [eps], and from
    that, that [toFixed(1)] of the percentage of a count is a nearest
    one-decimal value of the exact percentage. *)

Module Binary64.

Local Open Scope Z_scope.

(** *** Digits *)

Lemma digits2_pos_bounds m :
  2 ^ (Zpos (digits2_pos m) - 1) ≤ Zpos m < 2 ^ Zpos (digits2_pos m).
Proof.
  induction m as [m IH|m IH|]; simpl digits2_pos.
  - rewrite Pos2Z.inj_succ.
    replace (Z.succ (Zpos (digits2_pos m)) - 1) with (Z.succ (Zpos (digits2_pos m) - 1)) by lia.
    rewrite !Z.pow_succ_r by lia. lia.
  - rewrite Pos2Z.inj_succ.
    replace (Z.succ (Zpos (digits2_pos m)) - 1) with (Z.succ (Zpos (digits2_pos m) - 1)) by lia.
    rewrite !Z.pow_succ_r by lia. lia.
  - simpl. lia.
Qed.

Lemma digits2_pos_unique m d :
  2 ^ (d - 1) ≤ Zpos m < 2 ^ d → Zpos (digits2_pos m) = d.
Proof.
  intros [Hlo Hhi]. pose proof (digits2_pos_bounds m) as [Hlo' Hhi'].
  assert (0 < d).
  { destruct (Z.lt_trichotomy d 0) as [Hneg|[->|Hpos]]; [|simpl in Hhi; lia|done].
    rewrite Z.pow_neg_r in Hhi by done. lia. }
  destruct (Z.lt_trichotomy (Zpos (digits2_pos m)) d) as [Hlt|[Heq|Hgt]]; [|done|].
  - assert (2 ^ Zpos (digits2_pos m) ≤ 2 ^ (d - 1)) by (apply Z.pow_le_mono_r; lia). lia.
  - assert (2 ^ d ≤ 2 ^ (Zpos (digits2_pos m) - 1)) by (apply Z.pow_le_mono_r; lia). lia.
Qed.

(** *** Shifting keeps the location *)

Ltac bits := repeat split; intros; first [done | lia | exfalso; lia].

Lemma located_shr_1 N D mrs : located N D mrs → located N (2 * D) (shr_1 mrs).
Proof.
  intros (R & HD & HR & Hm & HN & Hr & Hs).
  destruct mrs as [m r s]. simpl in *.
  destruct m as [|[p|p|]|p]; simpl; try (exfalso; lia).
  - exists R. simpl. destruct r, s; simpl in *; bits.
  - exists (D + R). simpl. destruct r, s; simpl in *; bits.
  - exists R. simpl. destruct r, s; simpl in *; bits.
  - exists (D + R). simpl. destruct r, s; simpl in *; bits.
Qed.

Lemma located_iter n : ∀ N D mrs,
  located N D mrs → located N (D * 2 ^ Zpos n) (iter_pos shr_1 n mrs).
Proof.
  induction n as [n IH|n IH|]; intros N D mrs H; simpl iter_pos.
  - apply located_shr_1 in H. apply IH, IH in H.
    replace (D * 2 ^ Zpos n~1) with (2 * D * 2 ^ Zpos n * 2 ^ Zpos n); [done|].
    replace (Zpos n~1) with (1 + Zpos n + Zpos n) by lia.
    rewrite !Z.pow_add_r by lia. ring.
  - apply IH, IH in H.
    replace (D * 2 ^ Zpos n~0) with (D * 2 ^ Zpos n * 2 ^ Zpos n); [done|].
    replace (Zpos n~0) with (Zpos n + Zpos n) by lia.
    rewrite !Z.pow_add_r by lia. ring.
  - apply located_shr_1 in H. by rewrite Z.mul_comm.
Qed.

Lemma located_round N D mrs :
  located N D mrs →
  let m := round_nearest_even (shr_m mrs) (loc_of_shr_record mrs) in
  (m = shr_m mrs ∨ m = shr_m mrs + 1) ∧ Z.abs (2 * (m * D - N)) ≤ D.
Proof.
  intros (R & HD & HR & Hm & HN & Hr & Hs). destruct mrs as [m r s]. simpl in *.
  destruct r, s; simpl.
  - pose proof (proj1 Hr eq_refl). pose proof (proj1 Hs eq_refl). split; [by right|lia].
  - pose proof (proj1 Hr eq_refl).
    assert (2 * R = D) by (destruct (decide (2 * R = D)); [done|]; 
      assert (false = true) by (apply Hs; lia); done).
    destruct (Z.even m); split; [by left|lia|by right|lia].
  - pose proof (proj1 Hs eq_refl).
    assert (¬ D ≤ 2 * R) by (intros ?; assert (false = true) by (by apply Hr); done).
    split; [by left|lia].
  - assert (¬ D ≤ 2 * R) by (intros ?; assert (false = true) by (by apply Hr); done).
    assert (R = 0) by (destruct (decide (R = 0)); [done|];
      assert (false = true) by (apply Hs; lia); done).
    split; [by left|lia].
Qed.

(** The location built by [shr_record_of_loc] from a quotient and its rest. *)
Lemma located_new_location q r T :
  0 ≤ q → 0 ≤ r < T →
  located (q * T + r) T (shr_record_of_loc q (new_location T r)).
Proof.
  intros Hq Hr. exists r.
  unfold new_location, new_location_even, new_location_odd.
  destruct (Z.even T) eqn:Hev.
  - destruct (Z.eqb_spec r 0) as [->|Hne]; simpl.
    + split_and!; try done; try lia; split; try done; lia.
    + destruct (Z.compare_spec (2 * r) T); simpl;
        (split_and!; try done; try lia; split; try done; try lia).
      all: intros _; lia.
  - assert (Z.odd T = true) as Hodd by (by rewrite <-Z.negb_even, Hev).
    apply Z.odd_spec in Hodd as [k Hk].
    destruct (Z.eqb_spec r 0) as [->|Hne]; simpl.
    + split_and!; try done; try lia; split; try done; lia.
    + destruct (Z.compare_spec (2 * r + 1) T); simpl;
        (split_and!; try done; try lia; split; try done; try lia).
      all: intros _; lia.
Qed.

Lemma located_exact m : 0 ≤ m → located m 1 (shr_record_of_loc m loc_Exact).
Proof.
  intros Hm. exists 0. simpl. split_and!; try lia; split; try done; lia.
Qed.

(** *** One rounding *)

Lemma shr_m_of_loc m l : shr_m (shr_record_of_loc m l) = m.
Proof. by destruct l as [|[]]. Qed.

Lemma fexp_normal z : -1074 ≤ z - 53 → fexp 53 1024 z = z - 53.
Proof. intros H. unfold fexp, emin. lia. Qed.

Lemma shr_located N D mrs e n :
  located N D mrs → 0 ≤ n →
  located N (D * 2 ^ n) (shr mrs e n).1 ∧ (shr mrs e n).2 = e + n.
Proof.
  intros H Hn. destruct n as [|p|p]; simpl; [| |lia].
  - split; [|lia]. by rewrite Z.mul_1_r.
  - split; [|done]. by apply located_iter.
Qed.

Lemma Zdigits2_unique m d : 0 < m → 2 ^ (d - 1) ≤ m < 2 ^ d → Zdigits2 m = d.
Proof.
  intros Hm H. destruct m as [|p|p]; [lia| |lia]. simpl. by apply digits2_pos_unique.
Qed.

Lemma Zdigits2_bounds m : 0 < m → 2 ^ (Zdigits2 m - 1) ≤ m < 2 ^ Zdigits2 m.
Proof.
  intros Hm. destruct m as [|p|p]; [lia| |lia]. simpl. apply digits2_pos_bounds.
Qed.

(** Rounding a located number whose integer part has at least 53 digits
    and whose exponent stays in the normal range: the result is a
    normal number within half a unit of the last kept digit. *)
Lemma binary_round_aux_normal mx ex lx N D :
  located N D (shr_record_of_loc mx lx) →
  53 ≤ Zdigits2 mx → -1074 ≤ Zdigits2 mx + ex - 53 → Zdigits2 mx + ex ≤ 1023 →
  ∃ m e, binary_round_aux 53 1024 false mx ex lx = S754_finite false m e
    ∧ 2 ^ 52 ≤ Zpos m < 2 ^ 53
    ∧ ex + (Zdigits2 mx - 53) ≤ e ≤ ex + (Zdigits2 mx - 53) + 1
    ∧ Z.abs (2 * (Zpos m * 2 ^ (e - ex) * D - N)) ≤ 2 ^ (Zdigits2 mx - 53) * D
    ∧ 2 ^ 52 * (2 ^ (Zdigits2 mx - 53) * D) ≤ N.
Proof.
  intros Hloc Hd Hlo Hhi.
  set (d := Zdigits2 mx) in *. set (n := d - 53).
  assert (Hmx : 0 < mx).
  { destruct mx as [|p|p]; [simpl in d; lia|lia|].
    destruct Hloc as (R & _ & _ & Hm & _). rewrite shr_m_of_loc in Hm. lia. }
  pose proof (Zdigits2_bounds mx Hmx) as Hmxb. fold d in Hmxb.
  assert (HN : located N D (shr_record_of_loc mx lx)) by done.
  destruct HN as (R & HD & HR & _ & HN & _). rewrite shr_m_of_loc in HN.
  assert (Hpow : 2 ^ d = 2 ^ 53 * 2 ^ n)
    by (rewrite <-Z.pow_add_r by lia; f_equal; lia).
  assert (Hpow' : 2 ^ (d - 1) = 2 ^ 52 * 2 ^ n)
    by (rewrite <-Z.pow_add_r by lia; f_equal; lia).
  assert (Hn2 : 0 < 2 ^ n) by (apply Z.pow_pos_nonneg; lia).
  unfold binary_round_aux, shr_fexp. fold d.
  rewrite (fexp_normal (d + ex)) by lia.
  replace (d + ex - 53 - ex) with n by lia.
  destruct (shr_located N D (shr_record_of_loc mx lx) ex n Hloc ltac:(lia)) as [H1 He1].
  destruct (shr (shr_record_of_loc mx lx) ex n) as [mrs1 e1]. simpl in H1, He1. subst e1.
  pose proof (located_round _ _ _ H1) as [Hm2 Herr]. simpl in Hm2, Herr.
  destruct H1 as (R1 & HD1 & HR1 & Hm1 & HN1 & _).
  set (m1 := shr_m mrs1) in *.
  set (m2 := round_nearest_even m1 (loc_of_shr_record mrs1)) in *.
  assert (Hm1b : 2 ^ 52 ≤ m1 < 2 ^ 53) by nia.
  assert (Hbig : 2 ^ 52 * (2 ^ n * D) ≤ N) by nia.
  destruct (decide (m2 < 2 ^ 53)) as [Hlt|Hge].
  - assert (Hdig : Zdigits2 m2 = 53) by (apply Zdigits2_unique; lia).
    rewrite Hdig, (fexp_normal (53 + (ex + n))) by lia.
    replace (53 + (ex + n) - 53 - (ex + n)) with 0 by lia. simpl.
    destruct m2 as [|p|p] eqn:Hp; [lia| |lia].
    assert ((ex + n <=? 1024 - 53) = true) as -> by (apply Z.leb_le; lia).
    exists p, (ex + n). split_and!; try done; try lia.
    replace (ex + n - ex) with n by lia. 
    replace (Z.pos p * 2 ^ n * D) with (Z.pos p * (D * 2 ^ n)) by ring.
    rewrite (Z.mul_comm (2 ^ n) D). done.
  - assert (Hm2eq : m2 = 2 ^ 53) by lia.
    rewrite Hm2eq in *.
    assert (Hdig : Zdigits2 (2 ^ 53) = 54) by done.
    rewrite Hdig, (fexp_normal (54 + (ex + n))) by lia.
    replace (54 + (ex + n) - 53 - (ex + n)) with 1 by lia. 
    change (shr (shr_record_of_loc (2 ^ 53) loc_Exact) (ex + n) 1)
      with ({| shr_m := 2 ^ 52; shr_r := false; shr_s := false |}, ex + n + 1).
    cbn [shr_m]. change (2 ^ 52) with (Zpos (2 ^ 52)) at 1.
    cbv iota beta.
    assert ((ex + n + 1 <=? 1024 - 53) = true) as -> by (apply Z.leb_le; lia).
    exists (2 ^ 52)%positive, (ex + n + 1). split_and!; try done; try lia.
    replace (ex + n + 1 - ex) with (n + 1) by lia.
    rewrite Z.pow_add_r by lia.
    replace (Z.pos (2 ^ 52) * (2 ^ n * 2 ^ 1) * D) with (2 ^ 53 * (D * 2 ^ n)).
    + rewrite (Z.mul_comm (2 ^ n) D). done.
    + change (Z.pos (2 ^ 52)) with (2 ^ 52). change (2 ^ 53) with (2 ^ 52 * 2 ^ 1). ring.
Qed.

Local Close Scope Z_scope.
Local Open Scope Q_scope.

(** *** The error of one rounding, as a rational *)

Lemma pow2_pos e : (0 < 2 ^ e)%Q.
Proof. by apply Qpower_0_lt. Qed.

Lemma pow2_add a b : (2 ^ (a + b) == 2 ^ a * 2 ^ b)%Q.
Proof. by apply Qpower_plus. Qed.

Lemma pow2_inject k : (0 ≤ k)%Z → (2 ^ k == inject_Z (2 ^ k))%Q.
Proof. intros H. by rewrite Zpower_Qpower. Qed.

Lemma binary_round_aux_close mx ex lx N D :
  located N D (shr_record_of_loc mx lx) →
  (53 ≤ Zdigits2 mx)%Z → (-1074 ≤ Zdigits2 mx + ex - 53)%Z →
  (Zdigits2 mx + ex ≤ 1023)%Z →
  ∃ m e, binary_round_aux 53 1024 false mx ex lx = S754_finite false m e
    ∧ (2 ^ 52 ≤ Zpos m < 2 ^ 53)%Z
    ∧ (ex + (Zdigits2 mx - 53) ≤ e ≤ ex + (Zdigits2 mx - 53) + 1)%Z
    ∧ close (value m e) (inject_Z N / inject_Z D * 2 ^ ex).
Proof.
  intros Hloc Hd Hlo Hhi.
  destruct (binary_round_aux_normal mx ex lx N D Hloc Hd Hlo Hhi)
    as (m & e & Heq & Hm & He & Herr & Hbig).
  exists m, e. split_and!; try done; try lia.
  destruct Hloc as (R & HD & _).
  set (n := (Zdigits2 mx - 53)%Z) in *. set (k := (e - ex)%Z) in *.
  set (W := (2 ^ n * D)%Z) in *. set (G := (Zpos m * 2 ^ k * D)%Z) in *.
  assert (HG : ((2 ^ 53 - 1) * N ≤ 2 ^ 53 * G ∧ 2 ^ 53 * G ≤ (2 ^ 53 + 1) * N)%Z) by lia.
  assert (HNpos : (0 < N)%Z).
  { assert (0 < W)%Z by (apply Z.mul_pos_pos; [apply Z.pow_pos_nonneg|]; lia). lia. }
  destruct HG as [HG1 HG2].
  rewrite Zle_Qle in HG1, HG2. rewrite Zlt_Qlt in HNpos, HD.
  unfold G in HG1, HG2. rewrite !inject_Z_mult in HG1, HG2.
  assert (Hv : (value m e == inject_Z (Zpos m) * inject_Z (2 ^ k) * 2 ^ ex)%Q).
  { unfold value. replace e with (k + ex)%Z by lia.
    rewrite pow2_add, (pow2_inject k) by lia. ring. }
  pose proof (pow2_pos ex) as HP.
  set (P := (2 ^ ex)%Q) in *. set (Nq := inject_Z N) in *. set (Dq := inject_Z D) in *.
  set (Mk := (inject_Z (Zpos m) * inject_Z (2 ^ k))%Q) in *.
  change (inject_Z (2 ^ 53 - 1)) with (9007199254740991 # 1)%Q in HG1.
  change (inject_Z (2 ^ 53)) with (9007199254740992 # 1)%Q in HG1, HG2.
  change (inject_Z (2 ^ 53 + 1)) with (9007199254740993 # 1)%Q in HG2.
  change (inject_Z 0) with 0%Q in *.
  assert (Hx : (Nq / Dq * Dq == Nq)%Q) by (field; lra).
  assert (Hxpos : (0 < Nq / Dq)%Q) by (apply Qlt_shift_div_l; lra).
  set (x := (Nq / Dq)%Q) in *.
  unfold close. rewrite Hv. unfold eps.
  split_and!.
  - nra.
  - assert ((9007199254740991 # 1) * x <= (9007199254740992 # 1) * Mk)%Q by nra.
    nra.
  - assert ((9007199254740992 # 1) * Mk <= (9007199254740993 # 1) * x)%Q by nra.
    nra.
Qed.

(** *** Conversion, division and multiplication *)

Lemma iter_xO m p : Zpos (Pos.iter xO m p) = (Zpos m * 2 ^ Zpos p)%Z.
Proof.
  induction p as [|p IH] using Pos.peano_ind.
  - simpl. lia.
  - rewrite Pos.iter_succ, Pos2Z.inj_xO, IH, Pos2Z.inj_succ, Z.pow_succ_r by lia. ring.
Qed.

Lemma normal_digits m : normal m → Zpos (digits2_pos m) = 53%Z.
Proof. intros H. by apply digits2_pos_unique. Qed.

(** Integers below 2 ^ 53 are numbers, exactly. *)
Lemma ofZ_exact a :
  (0 < a < 2 ^ 53)%Z →
  ∃ m e, binary_normalize 53 1024 a 0 false = S754_finite false m e
    ∧ normal m ∧ (-52 ≤ e ≤ 0)%Z ∧ Zpos m = (a * 2 ^ (- e))%Z
    ∧ (value m e == inject_Z a)%Q.
Proof.
  intros Ha. destruct a as [|a|a]; [lia| |lia]. simpl binary_normalize.
  unfold binary_round.
  pose proof (digits2_pos_bounds a) as Hd.
  set (d := Zpos (digits2_pos a)) in *.
  assert (Hd53 : (1 ≤ d ≤ 53)%Z).
  { split; [lia|]. destruct (decide (d ≤ 53)%Z); [done|].
    assert (2 ^ 53 ≤ 2 ^ (d - 1))%Z by (apply Z.pow_le_mono_r; lia). lia. }
  rewrite Z.add_0_r, (fexp_normal d) by lia.
  assert (Hal : ∃ mz, shl_align a 0 (d - 53) = (mz, (d - 53)%Z)
                 ∧ Zpos mz = (Zpos a * 2 ^ (53 - d))%Z).
  { unfold shl_align. rewrite Z.sub_0_r.
    destruct (d - 53)%Z as [|p|p] eqn:Hp; [|lia|].
    - exists a. split; [done|]. replace (53 - d)%Z with 0%Z by lia. lia.
    - exists (Pos.iter xO a p). split; [done|]. rewrite iter_xO. do 2 f_equal. lia. }
  destruct Hal as (mz & -> & Hmz).
  assert (Hmzn : normal mz).
  { unfold normal. rewrite Hmz.
    replace (2 ^ 52)%Z with (2 ^ (d - 1) * 2 ^ (53 - d))%Z
      by (rewrite <-Z.pow_add_r by lia; f_equal; lia).
    replace (2 ^ 53)%Z with (2 ^ d * 2 ^ (53 - d))%Z
      by (rewrite <-Z.pow_add_r by lia; f_equal; lia).
    assert (0 < 2 ^ (53 - d))%Z by (apply Z.pow_pos_nonneg; lia). nia. }
  destruct (binary_round_aux_normal (Zpos mz) (d - 53) loc_Exact (Zpos mz) 1)
    as (m & e & Heq & Hm & He & Herr & _).
  { by apply located_exact. }
  { simpl. rewrite (normal_digits _ Hmzn). lia. }
  { simpl. rewrite (normal_digits _ Hmzn). lia. }
  { simpl. rewrite (normal_digits _ Hmzn). lia. }
  simpl Zdigits2 in *. rewrite (normal_digits _ Hmzn) in *.
  replace (53 - 53)%Z with 0%Z in * by lia. simpl (2 ^ 0)%Z in Herr.
  assert (He' : e = (d - 53)%Z).
  { destruct (decide (e = d - 53)%Z); [done|].
    assert (e - (d - 53) = 1)%Z as Hk by lia. rewrite Hk in Herr.
    unfold normal in *. lia. }
  subst e. replace (d - 53 - (d - 53))%Z with 0%Z in Herr by lia.
  assert (m = mz) by lia. subst m.
  exists mz, (d - 53)%Z. split_and!; try done; try lia.
  - rewrite Hmz. do 2 f_equal. lia.
  - unfold value. rewrite Hmz, inject_Z_mult.
    rewrite <-(pow2_inject (53 - d)) by lia.
    rewrite <-Qmult_assoc, <-pow2_add.
    replace (53 - d + (d - 53))%Z with 0%Z by lia. simpl. ring.
Qed.

Lemma close_proper v X X' : (X == X')%Q → close v X → close v X'.
Proof. intros HX (H0 & H1 & H2). unfold close. rewrite <-HX. done. Qed.

Lemma Zdigits2_between m lo hi :
  (0 ≤ lo)%Z → (2 ^ lo ≤ m < 2 ^ hi)%Z → (lo < Zdigits2 m ≤ hi)%Z.
Proof.
  intros Hlo [H1 H2].
  assert (0 < m)%Z by (pose proof (Z.pow_pos_nonneg 2 lo); lia).
  pose proof (Zdigits2_bounds m ltac:(done)) as [H3 H4].
  split.
  - destruct (decide (lo < Zdigits2 m)%Z); [done|].
    assert (2 ^ Zdigits2 m ≤ 2 ^ lo)%Z by (apply Z.pow_le_mono_r; lia). lia.
  - destruct (decide (Zdigits2 m ≤ hi)%Z); [done|].
    assert (2 ^ hi ≤ 2 ^ (Zdigits2 m - 1))%Z by (apply Z.pow_le_mono_r; lia). lia.
Qed.

(** The quotient of two normal numbers of moderate exponent is the exact
    quotient up to one rounding. *)
Lemma div_close A ea T et :
  normal A → normal T → (-500 ≤ ea - et ≤ 500)%Z →
  ∃ m e, SFdiv 53 1024 (S754_finite false A ea) (S754_finite false T et)
         = S754_finite false m e
    ∧ normal m ∧ (ea - et - 53 ≤ e ≤ ea - et - 51)%Z
    ∧ close (value m e) (value A ea / value T et).
Proof.
  intros HA HT He. unfold SFdiv, SFdiv_core_binary. simpl Zdigits2.
  rewrite (normal_digits _ HA), (normal_digits _ HT).
  replace (53 + ea - (53 + et))%Z with (ea - et)%Z by lia.
  rewrite (fexp_normal (ea - et)) by lia.
  rewrite Z.min_l by lia.
  replace (ea - et - (ea - et - 53))%Z with 53%Z by lia.
  cbv iota beta. rewrite Z.shiftl_mul_pow2 by lia.
  pose proof (Z_div_mod (Zpos A * 2 ^ 53) (Zpos T) ltac:(lia)) as Hdm.
  destruct (Z.div_eucl (Zpos A * 2 ^ 53) (Zpos T)) as [q r].
  destruct Hdm as [Hdm Hr]. simpl xorb.
  unfold normal in HA, HT.
  assert (Hq : (2 ^ 52 ≤ q < 2 ^ 54)%Z) by nia.
  pose proof (Zdigits2_between q 52 54 ltac:(lia) Hq) as Hdq.
  destruct (binary_round_aux_close q (ea - et - 53) (new_location (Zpos T) r)
              (q * Zpos T + r) (Zpos T)) as (m & e & Heq & Hm & Hee & Hcl);
    [apply located_new_location; lia | lia | lia | lia |].
  exists m, e. split_and!; try done; try lia.
  eapply close_proper; [|exact Hcl].
  rewrite (Z.mul_comm q), <-Hdm. unfold value.
  rewrite inject_Z_mult, <-(pow2_inject 53) by lia.
  replace ea with ((ea - et - 53) + 53 + et)%Z at 2 by lia.
  rewrite !pow2_add.
  pose proof (pow2_pos et). pose proof (pow2_pos (ea - et - 53)).
  assert (0 < inject_Z (Zpos T))%Q by (by rewrite <-(Zlt_Qlt 0)).
  field. split; lra.
Qed.

(** The product of two normal numbers of moderate exponent is the exact
    product up to one rounding. *)
Lemma mul_close A ea C ec :
  normal A → normal C → (-500 ≤ ea + ec ≤ 500)%Z →
  ∃ m e, SFmul 53 1024 (S754_finite false A ea) (S754_finite false C ec)
         = S754_finite false m e
    ∧ normal m ∧ (ea + ec + 52 ≤ e ≤ ea + ec + 54)%Z
    ∧ close (value m e) (value A ea * value C ec).
Proof.
  intros HA HC He. unfold SFmul. simpl xorb.
  unfold normal in HA, HC.
  assert (Hp : (2 ^ 104 ≤ Zpos (A * C) < 2 ^ 106)%Z).
  { rewrite Pos2Z.inj_mul.
    change (2 ^ 104)%Z with (2 ^ 52 * 2 ^ 52)%Z. change (2 ^ 106)%Z with (2 ^ 53 * 2 ^ 53)%Z.
    nia. }
  pose proof (Zdigits2_between _ 104 106 ltac:(lia) Hp) as Hd.
  destruct (binary_round_aux_close (Zpos (A * C)) (ea + ec) loc_Exact (Zpos (A * C)) 1)
    as (m & e & Heq & Hm & Hee & Hcl);
    [apply located_exact; lia | lia | lia | lia |].
  exists m, e. split_and!; try done; try lia.
  eapply close_proper; [|exact Hcl].
  unfold value. rewrite Pos2Z.inj_mul, inject_Z_mult, pow2_add.
  change (inject_Z 1) with 1%Q. field.
Qed.

Lemma ofZ_100 : Js.ofZ 100 = S754_finite false 7036874417766400 (-46).
Proof. reflexivity. Qed.

Lemma value_100 : (value 7036874417766400 (-46) == 100)%Q.
Proof. reflexivity. Qed.

Lemma normal_100 : normal 7036874417766400.
Proof. unfold normal. lia. Qed.

(** The binary64 value of [a / t * 100], for counts. *)
Lemma percent_close a t :
  (0 < a ≤ t)%Z → (t < 2 ^ 53)%Z →
  ∃ m e, Js.mul (Js.div (Js.ofZ a) (Js.ofZ t)) (Js.ofZ 100) = S754_finite false m e
    ∧ normal m
    ∧ ∃ v1, close v1 (inject_Z a / inject_Z t) ∧ close (value m e) (v1 * 100).
Proof.
  intros Ha Ht.
  destruct (ofZ_exact a ltac:(lia)) as (A & ea & HA & HAn & Hea & _ & HAv).
  destruct (ofZ_exact t ltac:(lia)) as (T & et & HT & HTn & Het & _ & HTv).
  unfold Js.mul, Js.div, Js.ofZ, Js.prec, Js.emax in *. rewrite HA, HT.
  destruct (div_close A ea T et HAn HTn ltac:(lia)) as (M1 & E1 & Hdiv & HM1 & HE1 & Hc1).
  rewrite Hdiv. change (binary_normalize 53 1024 100 0 false) with (Js.ofZ 100).
  rewrite ofZ_100.
  destruct (mul_close M1 E1 _ (-46) HM1 normal_100 ltac:(lia))
    as (M2 & E2 & Hmul & HM2 & HE2 & Hc2).
  rewrite Hmul. exists M2, E2. split_and!; try done.
  exists (value M1 E1). split.
  - eapply close_proper; [|exact Hc1]. by rewrite HAv, HTv.
  - eapply close_proper; [|exact Hc2]. by rewrite value_100.
Qed.

Local Close Scope Q_scope.

(** *** The percentage of a count, to one decimal *)

(** For a count [a] out of [t], [t] below 2 ^ 40: [toFixed(1)] of the
    binary64 value of [a / t * 100] is the text of [n / 10] for an
    integer [n] nearest to [1000 * a / t]. *)
Lemma toFixed1_percent a t :
  (0 ≤ a ≤ t)%Z → (0 < t < 2 ^ 40)%Z →
  ∃ n, Fixed.toFixed1 (Js.mul (Js.div (Js.ofZ a) (Js.ofZ t)) (Js.ofZ 100))
       = Fixed.Digits false n
    ∧ nearestTo a t n.
Proof.
  intros Ha Ht. destruct (decide (a = 0%Z)) as [->|Hne].
  { destruct (ofZ_exact t ltac:(lia)) as (T & et & HT & _).
    exists 0%Z. unfold Js.mul, Js.div, Js.ofZ, Js.prec, Js.emax in *.
    rewrite HT. split; [done|]. unfold nearestTo. lia. }
  destruct (percent_close a t ltac:(lia) ltac:(lia))
    as (m & e & Heq & Hm & v1 & (Hu & Hv1lo & Hv1hi) & (_ & Hv2lo & Hv2hi)).
  rewrite Heq. unfold normal in Hm.
  set (aq := inject_Z a) in *. set (tq := inject_Z t) in *.
  assert (Htq : (0 < tq)%Q) by (unfold tq; rewrite <-(Zlt_Qlt 0); lia).
  assert (Haq : (0 < aq ∧ aq <= tq)%Q)
    by (unfold aq, tq; rewrite <-(Zlt_Qlt 0), <-Zle_Qle; lia).
  assert (Htq40 : (tq < 1099511627776)%Q)
    by (unfold tq; change 1099511627776%Q with (inject_Z (2 ^ 40)); rewrite <-Zlt_Qlt; lia).
  assert (Hut : (aq / tq * tq == aq)%Q) by (field; lra).
  set (u := (aq / tq)%Q) in *.
  assert (Hu1 : (u <= 1)%Q) by nra.
  set (v2 := value m e) in *.
  unfold eps in *.
  assert (Hv2 : (100 * u - (1 # 35184372088832) <= v2 ∧ v2 <= 100 * u + (1 # 35184372088832))%Q).
  { split; nra. }
  (* the exponent is negative *)
  assert (He : (e < 0)%Z).
  { destruct (decide (e < 0)%Z); [done|exfalso].
    assert (1 <= 2 ^ e)%Q by (apply Qpower_1_le; [lra|lia]).
    assert (inject_Z (2 ^ 52) <= inject_Z (Zpos m))%Q by (rewrite <-Zle_Qle; lia).
    change (inject_Z (2 ^ 52)) with 4503599627370496%Q in *.
    unfold v2, value in Hv2. nra. }
  destruct e as [|e|p]; [lia|lia|]. unfold Fixed.toFixed1.
  assert (Hw : (0 < 2 ^ Zpos p)%Z) by (apply Z.pow_pos_nonneg; lia).
  assert (Hbig : Fixed.atLeast (10 ^ 21) m (Zneg p) = false).
  { unfold Fixed.atLeast. apply Z.leb_gt. 
    assert (2 ^ 53 < 10 ^ 21)%Z by done. nia. }
  rewrite Hbig. eexists. split; [done|].
  unfold Fixed.nearestTenths.
  set (w := (2 ^ Zpos p)%Z) in *.
  replace (2 ^ (Zpos p + 1))%Z with (2 * w)%Z by (unfold w; rewrite Z.pow_add_r by lia; lia).
  set (n := ((20 * Zpos m + w) / (2 * w))%Z).
  assert (Hfloor : (n * (2 * w) ≤ 20 * Zpos m + w < (n + 1) * (2 * w))%Z).
  { unfold n. pose proof (Z.div_mod (20 * Zpos m + w) (2 * w) ltac:(lia)).
    pose proof (Z.mod_pos_bound (20 * Zpos m + w) (2 * w) ltac:(lia)). lia. }
  destruct Hfloor as [Hf1 Hf2]. rewrite Zle_Qle in Hf1. rewrite Zlt_Qlt in Hf2.
  rewrite !inject_Z_mult, !inject_Z_plus, !inject_Z_mult in Hf1, Hf2.
  rewrite inject_Z_plus in Hf2.
  change (inject_Z 20) with 20%Q in *. change (inject_Z 2) with 2%Q in *.
  change (inject_Z 1) with 1%Q in *.
  assert (Hwq : (0 < inject_Z w)%Q) by (rewrite <-(Zlt_Qlt 0); lia).
  assert (Hv2w : (v2 * inject_Z w == inject_Z (Zpos m))%Q).
  { unfold v2, value, w. rewrite <-(pow2_inject (Zpos p)) by lia.
    rewrite <-Qmult_assoc, <-pow2_add. replace (Z.neg p + Z.pos p)%Z with 0%Z by lia.
    simpl. ring. }
  set (wq := inject_Z w) in *. set (mq := inject_Z (Zpos m)) in *.
  set (nq := inject_Z n) in *.
  assert (Hn1 : (2 * nq <= 20 * v2 + 1)%Q).
  { apply (Qmult_le_r _ _ wq Hwq).
    assert (E : ((20 * v2 + 1) * wq == 20 * mq + wq)%Q) by (rewrite <-Hv2w; ring).
    assert (E2 : (2 * nq * wq == nq * (2 * wq))%Q) by ring.
    rewrite E, E2. exact Hf1. }
  assert (Hn2 : (20 * v2 + 1 < 2 * nq + 2)%Q).
  { apply (Qmult_lt_r _ _ wq Hwq).
    assert (E : ((20 * v2 + 1) * wq == 20 * mq + wq)%Q) by (rewrite <-Hv2w; ring).
    assert (E2 : ((2 * nq + 2) * wq == (nq + 1) * (2 * wq))%Q) by ring.
    rewrite E, E2. exact Hf2. }
  clear Hf1 Hf2 Hv2w Hv1lo Hv1hi Hv2lo Hv2hi.
  destruct Hv2 as [Hv2a Hv2b]. destruct Haq as [Haq1 Haq2].
  assert (Hy : (2000 * u * tq == 2000 * aq)%Q) by (rewrite <-Hut; ring).
  assert (Hz1 : (2 * nq * tq < 2000 * aq + tq + 1)%Q).
  { assert ((2 * nq - 2000 * u - 1) * tq <= (20 # 35184372088832) * tq)%Q
      by (apply Qmult_le_compat_r; lra).
    nra. }
  assert (Hz2 : (2000 * aq < 2 * nq * tq + tq + 1)%Q).
  { assert ((- (20 # 35184372088832)) * tq <= (2 * nq - 2000 * u + 1) * tq)%Q
      by (apply Qmult_le_compat_r; lra).
    nra. }
  unfold nearestTo.
  assert (H1 : (2 * n * t < 2000 * a + t + 1)%Z).
  { rewrite Zlt_Qlt. rewrite !inject_Z_plus, !inject_Z_mult. exact Hz1. }
  assert (H2 : (2000 * a < 2 * n * t + t + 1)%Z).
  { rewrite Zlt_Qlt. rewrite !inject_Z_plus, !inject_Z_mult. exact Hz2. }
  lia.
Qed.

End Binary64.

(** ** Statistics of the student history *)

Lemma assoc_countRecord k key name st stats :
  assoc k (countRecord key name st stats)
  = if decide (k = key)
    then Some (Tally.count st (default (Tally.fresh name) (assoc key stats)))
    else assoc k stats.
Proof.
  induction stats as [|[k0 s0] stats IH]; simpl.
  - repeat case_decide; simplify_eq; done.
  - destruct (decide (k0 = key)) as [->|Hne]; simpl.
    + repeat case_decide; simplify_eq; done.
    + rewrite IH. repeat case_decide; simplify_eq; done.
Qed.

Lemma elem_of_keys_countRecord k key name st stats :
  k ∈ (countRecord key name st stats).*1 ↔ k = key ∨ k ∈ stats.*1.
Proof.
  induction stats as [|[k0 s0] stats IH]; simpl.
  - rewrite list_elem_of_singleton. set_solver.
  - destruct (decide (k0 = key)) as [->|Hne]; simpl.
    + set_solver.
    + rewrite !elem_of_cons, IH. set_solver.
Qed.

Lemma NoDup_countRecord key name st stats :
  NoDup stats.*1 → NoDup (countRecord key name st stats).*1.
Proof.
  induction stats as [|[k0 s0] stats IH]; simpl; intros Hnd.
  - apply NoDup_singleton.
  - apply NoDup_cons in Hnd as [Hk0 Hnd].
    destruct (decide (k0 = key)) as [->|Hne]; simpl.
    + by apply NoDup_cons.
    + apply NoDup_cons. split; [|by apply IH].
      rewrite elem_of_keys_countRecord. intros [?|?]; done.
Qed.

Lemma tallyOf_snoc g p :
  tallyOf (g ++ [p])
  = Some (Tally.count (Attendance.status (Populated.doc p))
            (default (Tally.fresh (Attendance.subjectName (Populated.doc p)))
               (tallyOf g))).
Proof.
  destruct g as [|q g]; simpl.
  - unfold countStatus. rewrite !filter_cons, !filter_nil.
    destruct (Attendance.status (Populated.doc p)); repeat case_decide; done.
  - unfold countStatus. rewrite !filter_cons, !filter_app, !filter_cons, !filter_nil.
    rewrite length_app. simpl.
    destruct (Attendance.status (Populated.doc p)) eqn:Hst; simpl.
    all: repeat (case_decide; try congruence); simpl.
    all: rewrite ?length_app; simpl; f_equal; f_equal; lia.
Qed.

Lemma group_snoc k records p :
  group k (records ++ [p])
  = group k records ++ (if decide (subjectKey p = Some k) then [p] else []).
Proof.
  unfold group. rewrite filter_app, filter_cons, filter_nil. done.
Qed.

Lemma counted_step stats seen p subject :
  counted stats seen → Populated.subject p = Some subject →
  counted (countRecord (Subject._id subject)
             (Attendance.subjectName (Populated.doc p))
             (Attendance.status (Populated.doc p)) stats)
          (seen ++ [p]).
Proof.
  intros [Hnd Hassoc] Hs. split; [by apply NoDup_countRecord|].
  assert (Hkey : subjectKey p = Some (Subject._id subject))
    by (unfold subjectKey; by rewrite Hs).
  intros k. rewrite assoc_countRecord, group_snoc.
  destruct (decide (k = Subject._id subject)) as [->|Hne].
  - rewrite decide_True by done. by rewrite tallyOf_snoc, Hassoc.
  - rewrite decide_False by congruence. by rewrite app_nil_r.
Qed.

Lemma countRecords_counted records :
  ∀ stats seen stats',
    counted stats seen → countRecords records stats = Some stats' →
    counted stats' (seen ++ records).
Proof.
  induction records as [|p records IH]; intros stats seen stats' Hc Heq; simpl in Heq.
  - simplify_eq. by rewrite app_nil_r.
  - destruct (Populated.subject p) as [subject|] eqn:Hs; [|done].
    apply (IH _ (seen ++ [p])) in Heq; [|by apply counted_step].
    by rewrite <-app_assoc in Heq.
Qed.

Lemma countRecords_total records :
  ∀ stats, Forall (λ p, is_Some (Populated.subject p)) records →
           is_Some (countRecords records stats).
Proof.
  induction records as [|p records IH]; intros stats H; simpl; [done|].
  apply Forall_cons in H as [[s ->] H]. by apply IH.
Qed.

Lemma assoc_elem_of {A} k (x : A) stats :
  NoDup stats.*1 → (k, x) ∈ stats ↔ assoc k stats = Some x.
Proof.
  induction stats as [|[k0 x0] stats IH]; simpl; intros Hnd.
  - split; [by intros ?%elem_of_nil | done].
  - apply NoDup_cons in Hnd as [Hk0 Hnd]. rewrite elem_of_cons, (IH Hnd).
    case_decide as Hk.
    + subst k0. split; [|intros [= ->]; by left].
      intros [[= ->]|Hin]; [done|]. destruct Hk0.
      apply list_elem_of_fmap. exists (k, x). split; [done|]. by apply IH.
    + split; [|by right]. intros [[= -> ->]|?]; done.
Qed.

Lemma gradeTable :
  ∀ i, In i (seq 0 1001) →
       bool_decide (gradeOf (PctText (Fixed.Digits false (Z.of_nat i)))
                    = gradeByTenths (Z.of_nat i)) = true.
Proof. apply forallb_forall. vm_compute. reflexivity. Qed.

Lemma gradeOf_tenths n :
  (0 ≤ n ≤ 1000)%Z →
  gradeOf (PctText (Fixed.Digits false n)) = gradeByTenths n.
Proof.
  intros Hn.
  assert (Hin : In (Z.to_nat n) (seq 0 1001)) by (apply in_seq; lia).
  apply gradeTable in Hin. apply bool_decide_eq_true in Hin.
  by rewrite Z2Nat.id in Hin by lia.
Qed.

Lemma nearestTo_range a t n :
  (0 ≤ a ≤ t)%Z → (0 < t)%Z → nearestTo a t n → (0 ≤ n ≤ 1000)%Z.
Proof. unfold nearestTo. intros Ha Ht Hn. nia. Qed.

Lemma finish_spec s :
  (0 ≤ Tally.present s + Tally.late s ≤ Tally.total s)%Z →
  (0 < Tally.total s < 2 ^ 40)%Z →
  ∃ n, Stat.percentage (finish s) = PctText (Fixed.Digits false n)
    ∧ nearestTo (Tally.present s + Tally.late s) (Tally.total s) n
    ∧ Stat.status (finish s) = gradeByTenths n.
Proof.
  intros Ha Ht. unfold finish, percentageOf. cbn [Stat.percentage Stat.status].
  assert ((0 <? Tally.total s)%Z = true) as -> by (apply Z.ltb_lt; lia).
  destruct (Binary64.toFixed1_percent _ _ Ha Ht) as (n & -> & Hn).
  exists n. split_and!; [done|done|].
  apply gradeOf_tenths. eapply nearestTo_range; [exact Ha | lia | exact Hn].
Qed.

Lemma countStatus_sum g :
  (countStatus Present g + countStatus Absent g + countStatus Late g
   = Z.of_nat (length g))%Z.
Proof.
  unfold countStatus. induction g as [|p g IH]; [done|].
  rewrite !filter_cons. 
  destruct (Attendance.status (Populated.doc p)); repeat (case_decide; try congruence);
    simpl length; lia.
Qed.

Lemma countStatus_nonneg st g : (0 ≤ countStatus st g)%Z.
Proof. unfold countStatus. lia. Qed.

Lemma length_group k records : (length (group k records) ≤ length records)%nat.
Proof. apply length_filter. Qed.


Lemma counted_nil : counted [] [].
Proof. split; [apply NoDup_nil_2 | done]. Qed.

Lemma elem_of_keys_assoc {A} k (stats : list (string * A)) :
  k ∈ stats.*1 ↔ is_Some (assoc k stats).
Proof.
  induction stats as [|[k0 x0] stats IH]; simpl.
  - split; [by intros ?%elem_of_nil | by intros [? ?]].
  - rewrite elem_of_cons, IH. case_decide as Hk.
    + subst k0. split; [by eexists | by left].
    + split; [by intros [?|?] | by right].
Qed.

Lemma tallyOf_is_Some g : is_Some (tallyOf g) ↔ g ≠ [].
Proof.
  destruct g as [|p g]; simpl.
  - split; [by intros [? ?] | done].
  - split; [done | by eexists].
Qed.

Lemma keys_finish (stats : list (string * Tally.t)) :
  ((λ ks : string * Tally.t, (ks.1, finish ks.2)) <$> stats).*1 = stats.*1.
Proof. induction stats as [|[k c] stats IH]; simpl; [done|]. by f_equal. Qed.

(** The statistics of a history whose records all have their subject:
    one entry per subject that has records, holding the counts of the
    records of the subject, the percentage as a nearest one-decimal
    value and the grade of that value. *)
Lemma perSubject_spec records :
  (Z.of_nat (length records) < 2 ^ 32)%Z →
  Forall (λ p, is_Some (Populated.subject p)) records →
  ∃ stats,
    perSubject records = Some stats
    ∧ statistics records = Some stats.*2
    ∧ NoDup stats.*1
    ∧ (∀ k, k ∈ stats.*1 ↔ group k records ≠ [])
    ∧ ∀ k s, (k, s) ∈ stats →
        let g := group k records in
        let c := Stat.tally s in
        g ≠ []
        ∧ Tally.total c = Z.of_nat (length g)
        ∧ Tally.present c = countStatus Present g
        ∧ Tally.absent c = countStatus Absent g
        ∧ Tally.late c = countStatus Late g
        ∧ ∃ n, Stat.percentage s = PctText (Fixed.Digits false n)
            ∧ nearestTo (Tally.present c + Tally.late c) (Tally.total c) n
            ∧ Stat.status s = gradeByTenths n.
Proof.
  intros Hlen Hall.
  destruct (countRecords_total records [] Hall) as [stats0 H0].
  destruct (countRecords_counted records [] [] stats0 counted_nil H0) as [Hnd Hassoc].
  rewrite app_nil_l in Hassoc.
  eexists. unfold statistics, perSubject. rewrite H0.
  split_and!; [done | done | by rewrite keys_finish | |].
  - intros k. by rewrite keys_finish, elem_of_keys_assoc, Hassoc, tallyOf_is_Some.
  - intros k s ([k' c] & Heq & Hin)%list_elem_of_fmap.
    simpl in Heq. injection Heq as Hk Hs. subst k' s. simpl.
    apply assoc_elem_of in Hin; [|done]. rewrite Hassoc in Hin.
    pose proof (length_group k records) as Hlg.
    pose proof (countStatus_sum (group k records)) as Hsum.
    pose proof (countStatus_nonneg Present (group k records)).
    pose proof (countStatus_nonneg Absent (group k records)).
    pose proof (countStatus_nonneg Late (group k records)).
    destruct (group k records) as [|p g] eqn:Hg; [done|].
    simpl in Hin. injection Hin as <-. simpl Tally.total. simpl Tally.present.
    simpl Tally.absent. simpl Tally.late.
    split_and!; try done.
    apply finish_spec; simpl Tally.total; simpl Tally.present; simpl Tally.late;
      simpl length in *.
    + lia.
    + assert (2 ^ 32 < 2 ^ 40)%Z by done. lia.
Qed.

(** At an exact half the binary64 value decides which neighbour is
    returned: 23 of 80 is exactly 28.75 and gives 28.7 (the product is
    just below 28.75), 1 of 16 is exactly 6.25 and gives 6.3. *)
Lemma percentage_at_a_half :
  percentageOf (Tally.mk "" 80 23 57 0) = PctText (Fixed.Digits false 287)
  ∧ percentageOf (Tally.mk "" 16 1 15 0) = PctText (Fixed.Digits false 63).
Proof. split; vm_compute; reflexivity. Qed.

(** C5. The statistics part of the student history, on a history of
    fewer than 2 ^ 32 records (the length of an array) whose records
    have their subject, returns one entry per subject that has records.
    For the non-empty group of records of a subject the entry holds
    total, present, absent and late as the counts of the group; its
    percentage is the text of a one-decimal value [n / 10] nearest to
    (present + late) / total * 100 (the code rounds the binary64 value
    of that expression with [toFixed(1)]; the result is within 0.05 of
    the exact percentage); and its status is excellent when that
    percentage is at least 90.0, good when it is at least 75.0 and below
    90.0, bad otherwise.  Ten records with 7 present, 2 late and 1
    absent give "90.0" and excellent; 3 present of 4 give "75.0" and
    good; 749 present of 1000 give "74.9" and bad. *)
Theorem statistics_per_subject :
  (∀ records,
     (Z.of_nat (length records) < 2 ^ 32)%Z →
     Forall (λ p, is_Some (Populated.subject p)) records →
     ∃ stats,
       perSubject records = Some stats
       ∧ statistics records = Some stats.*2
       ∧ NoDup stats.*1
       ∧ (∀ k, k ∈ stats.*1 ↔ group k records ≠ [])
       ∧ ∀ k s, (k, s) ∈ stats →
           let g := group k records in
           let c := Stat.tally s in
           g ≠ []
           ∧ Tally.total c = Z.of_nat (length g)
           ∧ Tally.present c = countStatus Present g
           ∧ Tally.absent c = countStatus Absent g
           ∧ Tally.late c = countStatus Late g
           ∧ ∃ n, Stat.percentage s = PctText (Fixed.Digits false n)
               ∧ nearestTo (Tally.present c + Tally.late c) (Tally.total c) n
               ∧ Stat.status s = gradeByTenths n)
  ∧ statistics (Example.history 7 2 1)
    = Some [Stat.mk (Tally.mk "Algorithms" 10 7 1 2)
              (PctText (Fixed.Digits false 900)) Excellent]
  ∧ Fixed.text false 900 = "90.0"
  ∧ statistics (Example.history 3 0 1)
    = Some [Stat.mk (Tally.mk "Algorithms" 4 3 1 0)
              (PctText (Fixed.Digits false 750)) Good]
  ∧ Fixed.text false 750 = "75.0"
  ∧ statistics (Example.history 749 0 251)
    = Some [Stat.mk (Tally.mk "Algorithms" 1000 749 251 0)
              (PctText (Fixed.Digits false 749)) Bad]
  ∧ Fixed.text false 749 = "74.9".
Proof.
  split; [exact perSubject_spec|].
  split_and!; by vm_compute.
Qed.

(** ** The session start *)

Lemma failing_nil checks :
  failing checks = [] ↔ Forall (λ c, c.2 = true) checks.
Proof.
  unfold failing. induction checks as [|[f b] checks IH]; simpl.
  - split; [constructor | done].
  - rewrite filter_cons, Forall_cons. case_decide as Hb; simpl in *.
    + subst b. split; [done | by intros []].
    + rewrite IH. split; [|by intros []]. intros ?. split; [by destruct b|done].
Qed.


Lemma validate_start body :
  StartBody.validate body = []
  ↔ isMongoId (StartBody.subjectId body) = true
    ∧ isIn ["A"; "B"; "C"] (StartBody.division body) = true
    ∧ isIn ["CSE"; "ME"; "CE"; "EE"; "ECE"] (StartBody.department body) = true
    ∧ (1 ≤ StartBody.semester body ≤ 8)%Z.
Proof.
  unfold StartBody.validate. rewrite failing_nil, !Forall_cons, Forall_nil. simpl.
  unfold isInt. rewrite andb_true_iff, !Z.leb_le. naive_solver.
Qed.

(** What a successful session start read and wrote. *)
Lemma startSession_succeeded now user body db code b db' :
  startSession now user body db = (Sent code b, db')
  → ∃ subject faculty,
      Auth.role user = RoleFaculty
      ∧ StartBody.validate body = []
      ∧ Subject.findById (StartBody.subjectId body) (subjects db) = Some subject
      ∧ User.findById (Auth.userId user) (users db) = Some faculty
      ∧ code = 201%nat
      ∧ b.1 = "Attendance session started successfully"
      ∧ b.2 = AttendanceSession.mk
                (sessionIdOf now (Auth.userId user) (StartBody.subjectId body))
                (StartBody.subjectId body) (Subject.name subject)
                (Auth.userId user) (User.username faculty) now now
                (StartBody.division body) (StartBody.department body)
                (StartBody.semester body)
                (Z.of_nat (length (filter
                   (User.enrolled (StartBody.department body)
                      (StartBody.division body) (StartBody.semester body))
                   (users db))))
                Active None None None
      ∧ db' = withSessions db (sessions db ++ [b.2]).
Proof.
  unfold startSession, Auth.requireRole. intros H.
  destruct (bool_decide (Auth.role user ∈ [RoleFaculty])) eqn:Hrole; [|discriminate].
  apply bool_decide_eq_true in Hrole. apply list_elem_of_singleton in Hrole.
  simpl in H. destruct (StartBody.validate body) eqn:Hval; [|discriminate].
  destruct (Subject.findById _ _) as [subject|] eqn:Hs; [|discriminate].
  destruct (User.findById _ _) as [faculty|] eqn:Hf; [|discriminate].
  exists subject, faculty. by simplify_eq.
Qed.

Lemma startSession_failed now user body db reply db' :
  startSession now user body db = (reply, db') → ¬ succeeded reply → db' = db.
Proof.
  unfold startSession. intros H Hn.
  repeat (match type of H with
          | context [match ?x with _ => _ end] => destruct x eqn:?
          | context [if ?x then _ else _] => destruct x eqn:?
          end; simpl in H; try (by simplify_eq); try (simplify_eq; by destruct Hn)).
Qed.

Lemma endSession_failed now user sid db reply db' :
  endSession now user sid db = (reply, db') → ¬ succeeded reply → db' = db.
Proof.
  unfold endSession. intros H Hn.
  destruct (negb _); [by simplify_eq|].
  destruct (AttendanceSession.findOne _ _ _ _) as [[i s]|]; [|by simplify_eq].
  simplify_eq. by destruct Hn.
Qed.

Lemma succeeded_dec {A} (r : Reply A) : succeeded r ∨ ¬ succeeded r.
Proof. destruct r; simpl; auto. Qed.

(** The three shapes of one step. *)
Lemma step_cases db op :
  step db op = db
  ∨ ∃ db', step db op = db'
      ∧ ((∃ now user body code b, op = OpStart now user body
            ∧ startSession now user body db = (Sent code b, db'))
         ∨ (∃ now user sid code b, op = OpEnd now user sid
              ∧ endSession now user sid db = (Sent code b, db'))
         ∨ (∃ user body code b, op = OpMark user body
              ∧ mark user body db = (Sent code b, db'))).
Proof.
  destruct op as [now user body|now user sid|user body]; simpl.
  - destruct (startSession now user body db) as [reply db'] eqn:H.
    destruct reply as [code b| | |];
      [right; exists db'; split; [done|]; left; by eexists _, _, _, _, _
      | left; eapply startSession_failed; eauto..].
  - destruct (endSession now user sid db) as [reply db'] eqn:H.
    destruct reply as [code b| | |];
      [right; exists db'; split; [done|]; right; left; by eexists _, _, _, _, _
      | left; eapply endSession_failed; eauto..].
  - destruct (mark user body db) as [reply db'] eqn:H.
    destruct reply as [code b| | |];
      [right; exists db'; split; [done|]; right; right; by eexists _, _, _, _
      | left; eapply mark_failed; eauto..].
Qed.

(** What a successful mark wrote. *)
Lemma mark_store user body db code b db' :
  mark user body db = (Sent code b, db')
  → users db' = users db ∧ subjects db' = subjects db ∧ sessions db' = sessions db
    ∧ Attendance.keyed (MarkBody.studentId body) (MarkBody.sessionId body) b.2
    ∧ ((∃ i old, Attendance.findOne (MarkBody.studentId body) (MarkBody.sessionId body)
                   (attendances db) = Some (i, old)
          ∧ sameRecord old b.2
          ∧ attendances db' = <[i := b.2]> (attendances db))
       ∨ (Attendance.findOne (MarkBody.studentId body) (MarkBody.sessionId body)
            (attendances db) = None
          ∧ attendances db' = attendances db ++ [b.2])).
Proof.
  intros H.
  apply mark_succeeded in H as (st & session & k & student & _ & _ & _ & _ & Hcase).
  cbv zeta in Hcase.
  destruct Hcase as [(i & old & Hf & _ & -> & ->)|(Hf & _ & _ & Hk & _ & _ & _ & ->)].
  - split_and!; try done.
    + apply list_find_Some in Hf as (_ & [? ?] & _). by split.
    + left. exists i, old. split_and!; [done| |done]. simpl. by eexists _, _, _.
  - split_and!; try done. by right.
Qed.

Lemma startSession_store now user body db code b db' :
  startSession now user body db = (Sent code b, db')
  → users db' = users db ∧ subjects db' = subjects db
    ∧ attendances db' = attendances db ∧ sessions db' = sessions db ++ [b.2].
Proof.
  intros H.
  by apply startSession_succeeded in H as (_ & _ & _ & _ & _ & _ & _ & _ & _ & ->).
Qed.

Lemma endSession_store now user sid db code b db' :
  endSession now user sid db = (Sent code b, db')
  → users db' = users db ∧ subjects db' = subjects db
    ∧ attendances db' = attendances db
    ∧ ∃ i s, sessions db !! i = Some s
        ∧ AttendanceSession.matches sid (Auth.userId user) Active s
        ∧ b.2 = AttendanceSession.close now
                  (Attendance.countDocuments sid Present (attendances db))
                  (AttendanceSession.totalStudents s
                   - Attendance.countDocuments sid Present (attendances db))%Z s
        ∧ sessions db' = <[i := b.2]> (sessions db).
Proof.
  intros H. apply endSession_succeeded in H as (i & s & Hf & _ & -> & ->).
  apply findOne_session_Some in Hf as (Hi & _ & Hm).
  split_and!; try done. by exists i, s.
Qed.

(** ** What a run keeps of the documents it found *)

Lemma sameSession_refl s : sameSession s s.
Proof. by repeat split. Qed.

Lemma sameSession_trans s1 s2 s3 :
  sameSession s1 s2 → sameSession s2 s3 → sameSession s1 s3.
Proof. unfold sameSession. intros H1 H2. destruct_and!. split_and!; congruence. Qed.

Lemma sameSession_close now p a s : sameSession s (AttendanceSession.close now p a s).
Proof. by repeat split. Qed.

Lemma sameRecord_refl r : sameRecord r r.
Proof.
  exists (Attendance.status r), (Attendance.detectionConfidence r), (Attendance.remarks r).
  by destruct r.
Qed.

Lemma sameRecord_trans r1 r2 r3 : sameRecord r1 r2 → sameRecord r2 r3 → sameRecord r1 r3.
Proof. intros (st & c & m & ->) (st' & c' & m' & ->). by exists st', c', m'. Qed.

(** One step on the sessions: a document stays where it is, and changes
    at most by being completed. *)
Lemma step_sessions db op j s :
  sessions db !! j = Some s →
  ∃ s', sessions (step db op) !! j = Some s' ∧ sameSession s s'
    ∧ (s' = s ∨ AttendanceSession.status s = Active
               ∧ AttendanceSession.status s' = Completed).
Proof.
  intros Hj.
  destruct (step_cases db op) as [->|(db' & -> & [H|[H|H]])].
  - exists s. split_and!; [done | apply sameSession_refl | by left].
  - destruct H as (now & user & body & code & b & _ & H).
    apply startSession_store in H as (_ & _ & _ & ->).
    exists s. split_and!; [|apply sameSession_refl|by left].
    by apply lookup_app_l_Some.
  - destruct H as (now & user & sid & code & b & _ & H).
    apply endSession_store in H as (_ & _ & _ & i & s0 & Hi & (_ & _ & Hact) & Hb & ->).
    destruct (decide (i = j)) as [->|Hne].
    + simplify_eq. eexists. split_and!.
      * apply list_lookup_insert_eq. by eapply lookup_lt_Some.
      * rewrite Hb. apply sameSession_close.
      * right. split; [done|]. by rewrite Hb.
    + exists s. rewrite list_lookup_insert_ne by done.
      split_and!; [done | apply sameSession_refl | by left].
  - destruct H as (user & body & code & b & _ & H).
    apply mark_store in H as (_ & _ & -> & _).
    exists s. split_and!; [done | apply sameSession_refl | by left].
Qed.

Lemma step_users db op : users (step db op) = users db ∧ subjects (step db op) = subjects db.
Proof.
  destruct (step_cases db op) as [->|(db' & -> & [H|[H|H]])]; [done|..].
  - destruct H as (now & user & body & code & b & _ & H).
    by apply startSession_store in H as (-> & -> & _).
  - destruct H as (now & user & sid & code & b & _ & H).
    by apply endSession_store in H as (-> & -> & _).
  - destruct H as (user & body & code & b & _ & H).
    by apply mark_store in H as (-> & -> & _).
Qed.

(** One step on the attendance records: a record stays where it is, and
    changes at most in its status, confidence and remarks. *)
Lemma step_attendances db op i r :
  attendances db !! i = Some r →
  ∃ r', attendances (step db op) !! i = Some r' ∧ sameRecord r r'.
Proof.
  intros Hi.
  destruct (step_cases db op) as [->|(db' & -> & [H|[H|H]])].
  - exists r. split; [done | apply sameRecord_refl].
  - destruct H as (now & user & body & code & b & _ & H).
    apply startSession_store in H as (_ & _ & -> & _).
    exists r. split; [done | apply sameRecord_refl].
  - destruct H as (now & user & sid & code & b & _ & H).
    apply endSession_store in H as (_ & _ & -> & _).
    exists r. split; [done | apply sameRecord_refl].
  - destruct H as (user & body & code & b & _ & H).
    apply mark_store in H as (_ & _ & _ & _ & [(i0 & old & Hf & Hsame & ->)|(_ & ->)]).
    + apply list_find_Some in Hf as (Hi0 & _ & _).
      destruct (decide (i0 = i)) as [->|Hne].
      * simplify_eq. exists b.2. split; [|done].
        apply list_lookup_insert_eq. by eapply lookup_lt_Some.
      * exists r. rewrite list_lookup_insert_ne by done.
        split; [done | apply sameRecord_refl].
    + exists r. split; [by apply lookup_app_l_Some | apply sameRecord_refl].
Qed.

Lemma run_cons op ops db : run (op :: ops) db = run ops (step db op).
Proof. done. Qed.

(** X10. Over any sequence of session starts, session ends and marks, the
    users and the subjects are left as they are, and a session document
    stays at its place in the collection: it keeps its identifier,
    subject, faculty, dates, cohort and total, it is rewritten only by
    the one session end that completes it, and once completed it never
    changes again. *)
Theorem run_sessions_lifecycle ops db j s :
  sessions db !! j = Some s →
  users (run ops db) = users db
  ∧ subjects (run ops db) = subjects db
  ∧ ∃ s', sessions (run ops db) !! j = Some s' ∧ sameSession s s'
      ∧ (AttendanceSession.status s = Completed → s' = s)
      ∧ (AttendanceSession.status s' = Active → s' = s).
Proof.
  revert db s. induction ops as [|op ops IH]; intros db s Hj.
  - split_and!; [done..|]. exists s. split_and!; [done | apply sameSession_refl | done..].
  - rewrite run_cons.
    destruct (step_sessions db op j s Hj) as (s1 & Hj1 & Hsame1 & Hcase).
    destruct (IH _ _ Hj1) as (Hu & Hs & s' & Hj' & Hsame' & Hdone & Hact).
    destruct (step_users db op) as [Hu1 Hs1].
    split_and!; [congruence..|].
    exists s'. split_and!; [done | by eapply sameSession_trans | |].
    + intros Hc. destruct Hcase as [->|[? ?]]; [by apply Hdone | congruence].
    + intros Ha. destruct Hcase as [->|[_ Hc1]]; [by apply Hact|].
      rewrite (Hdone Hc1) in Ha. congruence.
Qed.

(** X11. Over any sequence of session starts, session ends and marks an
    attendance record is never removed nor moved: it stays at its place
    and keeps its student, session, subject, faculty, date and cohort;
    only its status, confidence and remarks are rewritten. *)
Theorem run_attendance_lifecycle ops db i r :
  attendances db !! i = Some r →
  ∃ r', attendances (run ops db) !! i = Some r' ∧ sameRecord r r'
    ∧ recordKey r' = recordKey r.
Proof.
  revert db r. induction ops as [|op ops IH]; intros db r Hi.
  - exists r. split_and!; [done | apply sameRecord_refl | done].
  - rewrite run_cons.
    destruct (step_attendances db op i r Hi) as (r1 & Hi1 & Hsame1).
    destruct (IH _ _ Hi1) as (r' & Hi' & Hsame' & Hk).
    exists r'. split_and!; [done | by eapply sameRecord_trans |].
    rewrite Hk. by destruct Hsame1 as (st & c & m & ->).
Qed.

(** ** The shape of the session documents *)

Lemma countDocuments_nonneg sid st l : (0 ≤ Attendance.countDocuments sid st l)%Z.
Proof. unfold Attendance.countDocuments. lia. Qed.

Lemma sessionShape_close now sid l s :
  sessionShape s → AttendanceSession.status s = Active →
  sessionShape (AttendanceSession.close now (Attendance.countDocuments sid Present l)
                  (AttendanceSession.totalStudents s
                   - Attendance.countDocuments sid Present l)%Z s).
Proof.
  intros (Hdiv & Hdep & Hsem & Htot & _) _. unfold sessionShape. simpl.
  split; [done|]. split; [done|]. split; [done|]. split; [done|].
  eexists _, _, _. split; [done|]. split; [done|]. split; [done|].
  split; [apply countDocuments_nonneg | lia].
Qed.

Lemma step_sessionShape db op :
  Forall sessionShape (sessions db) → Forall sessionShape (sessions (step db op)).
Proof.
  intros Hall.
  destruct (step_cases db op) as [->|(db' & -> & [H|[H|H]])]; [done|..].
  - destruct H as (now & user & body & code & b & _ & H).
    pose proof (startSession_store _ _ _ _ _ _ _ H) as (_ & _ & _ & ->).
    apply startSession_succeeded in H as (subject & faculty & _ & Hval & _ & _ & _ & _ & Hb & _).
    apply validate_start in Hval as (_ & Hdiv & Hdep & Hsem).
    apply Forall_app. split; [done|]. apply Forall_singleton.
    rewrite Hb. unfold sessionShape. simpl.
    split; [done|]. split; [done|]. split; [done|]. split; [lia|done].
  - destruct H as (now & user & sid & code & b & _ & H).
    apply endSession_store in H as (_ & _ & _ & i & s & Hi & (_ & _ & Hact) & Hb & ->).
    apply Forall_insert; [done|]. rewrite Hb.
    apply sessionShape_close; [|done].
    eapply Forall_lookup_1; eauto.
  - destruct H as (user & body & code & b & _ & H).
    by apply mark_store in H as (_ & _ & -> & _).
Qed.

(** X12. Starting from session documents of the shape the handlers write
    (in particular from a store with no session), every session
    document after any run has a division, a department and a semester
    that pass the validators and a total that is a count; while it is
    active it has no end time and no counts, and once completed it has
    an end time and the two counts, with presentStudents at least 0 and
    absentStudents + presentStudents = totalStudents. *)
Theorem run_sessionShape ops db :
  Forall sessionShape (sessions db) → Forall sessionShape (sessions (run ops db)).
Proof.
  revert db. induction ops as [|op ops IH]; intros db H; [done|].
  rewrite run_cons. by apply IH, step_sessionShape.
Qed.

(** ** One record per student and session, in every run *)

Lemma recordKey_keyed stu sid r : Attendance.keyed stu sid r ↔ recordKey r = (stu, sid).
Proof. unfold Attendance.keyed, recordKey. split; [by intros [-> ->] | by intros [= -> ->]]. Qed.

Lemma sameRecord_key r r' : sameRecord r r' → recordKey r' = recordKey r.
Proof. by intros (st & c & m & ->). Qed.

Lemma findOne_None_key stu sid l :
  Attendance.findOne stu sid l = None → (stu, sid) ∉ recordKey <$> l.
Proof.
  unfold Attendance.findOne. rewrite list_find_None, Forall_forall.
  intros H (r & Hk & Hin)%list_elem_of_fmap. apply (H r Hin).
  by apply recordKey_keyed.
Qed.

Lemma step_uniqueRecords db op : uniqueRecords db → uniqueRecords (step db op).
Proof.
  unfold uniqueRecords. intros Hnd.
  destruct (step_cases db op) as [->|(db' & -> & [H|[H|H]])]; [done|..].
  - destruct H as (now & user & body & code & b & _ & H).
    by apply startSession_store in H as (_ & _ & -> & _).
  - destruct H as (now & user & sid & code & b & _ & H).
    by apply endSession_store in H as (_ & _ & -> & _).
  - destruct H as (user & body & code & b & _ & H).
    apply mark_store in H as (_ & _ & _ & Hk & [(i & old & Hf & Hsame & ->)|(Hf & ->)]).
    + apply list_find_Some in Hf as (Hi & _ & _).
      rewrite list_fmap_insert, list_insert_id; [done|].
      rewrite list_lookup_fmap, Hi. simpl. f_equal. symmetry. by apply sameRecord_key.
    + rewrite fmap_app. apply NoDup_app. split_and!; [done| |apply NoDup_singleton].
      intros k Hin ->%list_elem_of_singleton.
      apply recordKey_keyed in Hk. rewrite Hk in Hin.
      by apply findOne_None_key in Hf.
Qed.

(** X13. If no two attendance records of the store share a (student,
    session) pair, none do after any sequence of session starts, session
    ends and marks. *)
Theorem run_uniqueRecords ops db : uniqueRecords db → uniqueRecords (run ops db).
Proof.
  revert db. induction ops as [|op ops IH]; intros db H; [done|].
  rewrite run_cons. by apply IH, step_uniqueRecords.
Qed.

Lemma NoDup_filter_students sid st (l : list Attendance.t) :
  NoDup (recordKey <$> l) →
  NoDup (Attendance.student <$> filter (Attendance.inSession sid st) l).
Proof.
  induction l as [|r l IH]; simpl; intros Hnd; [constructor|].
  apply NoDup_cons in Hnd as [Hr Hnd]. rewrite filter_cons.
  case_decide as Hin; [|by apply IH]. simpl.
  apply NoDup_cons. split; [|by apply IH].
  intros (r' & Hstu & Hr')%list_elem_of_fmap.
  apply list_elem_of_filter in Hr' as [[Hsid' _] Hr'].
  apply Hr. apply list_elem_of_fmap. exists r'. split; [|done].
  destruct Hin as [Hsid _]. unfold recordKey. congruence.
Qed.

(** X9. With one record per (student, session) pair, a session end counts
    no student twice: presentStudents is the number of distinct students
    with a present record of the session. *)
Theorem endSession_counts_students now user sid db code b db' :
  uniqueRecords db →
  endSession now user sid db = (Sent code b, db') →
  let students :=
    Attendance.student <$> filter (Attendance.inSession sid Present) (attendances db) in
  NoDup students
  ∧ AttendanceSession.presentStudents b.2 = Some (Z.of_nat (length students)).
Proof.
  intros Hu Hend. split; [by apply NoDup_filter_students|].
  apply endSession_store in Hend as (_ & _ & _ & i & s & _ & _ & -> & _).
  simpl. by rewrite length_fmap.
Qed.

(** ** Records and the sessions they were marked in *)

(** The record a mark creates copies the session the handler found, and
    takes the name and enrollment number of the student. *)
Lemma mark_created user body db code b db' :
  mark user body db = (Sent code b, db') →
  Attendance.findOne (MarkBody.studentId body) (MarkBody.sessionId body)
    (attendances db) = None →
  ∃ session student,
    session ∈ sessions db
    ∧ AttendanceSession.matches (MarkBody.sessionId body) (Auth.userId user) Active session
    ∧ User.findById (MarkBody.studentId body) (users db) = Some student
    ∧ Attendance.studentName b.2 = User.username student
    ∧ Attendance.enrollmentNumber b.2 = User.enrollmentNumber student
    ∧ Attendance.sessionId b.2 = AttendanceSession.sessionId session
    ∧ Attendance.faculty b.2 = AttendanceSession.faculty session
    ∧ Attendance.subject b.2 = AttendanceSession.subject session
    ∧ Attendance.subjectName b.2 = AttendanceSession.subjectName session
    ∧ Attendance.date b.2 = AttendanceSession.date session
    ∧ Attendance.division b.2 = AttendanceSession.division session
    ∧ Attendance.department b.2 = AttendanceSession.department session
    ∧ Attendance.semester b.2 = AttendanceSession.semester session.
Proof.
  unfold mark. intros H Hnone.
  destruct (negb _); [discriminate|].
  destruct (MarkBody.validate body); [|discriminate].
  destruct (parseMarkStatus _) as [st|]; [|discriminate].
  destruct (AttendanceSession.findOne _ _ _ _) as [[j session]|] eqn:Hs; [|discriminate].
  destruct (User.findById (MarkBody.studentId body) _) as [student|] eqn:Hu; [|discriminate].
  destruct (negb _); [discriminate|]. rewrite Hnone in H.
  destruct (User.findById (Auth.userId user) _); [|discriminate].
  apply findOne_session_Some in Hs as (_ & Hin & Hm).
  pose proof Hm as (Hsid & Hfac & _).
  exists session, student. simplify_eq. simpl. by split_and!.
Qed.

Lemma refersTo_same db db' r r' :
  sameRecord r r' → sessions db' = sessions db → refersTo db r → refersTo db' r'.
Proof.
  intros (st & c & m & ->) Hs (s & Hin & H). exists s. rewrite Hs. by split.
Qed.

Lemma step_wellReferenced db op :
  Forall (refersTo db) (attendances db) →
  Forall (refersTo (step db op)) (attendances (step db op)).
Proof.
  intros Hall.
  destruct (step_cases db op) as [->|(db' & -> & [H|[H|H]])]; [done|..].
  - destruct H as (now & user & body & code & b & _ & H).
    apply startSession_store in H as (_ & _ & -> & Hs).
    eapply Forall_impl; [exact Hall|]. intros r (s & Hin & Hr).
    exists s. split; [|done]. rewrite Hs. apply elem_of_app. by left.
  - destruct H as (now & user & sid & code & b & _ & H).
    apply endSession_store in H as (_ & _ & -> & i & s0 & Hi & _ & Hb & Hs).
    eapply Forall_impl; [exact Hall|]. intros r (s & Hin & Hr).
    apply list_elem_of_lookup in Hin as [j Hj].
    destruct (decide (i = j)) as [->|Hne].
    + simplify_eq. exists b.2. split.
      * rewrite Hs. eapply list_elem_of_lookup_2, list_lookup_insert_eq.
        by eapply lookup_lt_Some.
      * by rewrite Hb.
    + exists s. split; [|done]. rewrite Hs.
      eapply list_elem_of_lookup_2. by rewrite list_lookup_insert_ne.
  - destruct H as (user & body & code & b & _ & H).
    pose proof (mark_store _ _ _ _ _ _ H)
      as (_ & _ & Hs & _ & [(i & old & Hf & Hsame & ->)|(Hf & ->)]).
    + apply list_find_Some in Hf as (Hi & _ & _).
      apply Forall_insert.
      * eapply Forall_impl; [exact Hall|]. intros r Hr.
        eapply refersTo_same; [apply sameRecord_refl | done | done].
      * eapply refersTo_same; [done | done |]. eapply Forall_lookup_1; eauto.
    + apply Forall_app. split.
      * eapply Forall_impl; [exact Hall|]. intros r Hr.
        eapply refersTo_same; [apply sameRecord_refl | done | done].
      * apply Forall_singleton.
        destruct (mark_created _ _ _ _ _ _ H Hf)
          as (session & student & Hin & _ & _ & _ & _ & ? & ? & ? & ? & ? & ? & ? & ?).
        exists session. rewrite Hs. by split_and!.
Qed.

(** X14. If every attendance record of the store carries the session
    identifier, faculty, subject, subject name, date, division,
    department and semester of one of the sessions of the store (as in
    a store with no record), every record does after any sequence of
    session starts, session ends and marks: a mark copies them from the
    session it found, and no handler changes them afterwards. *)
Theorem run_wellReferenced ops db :
  Forall (refersTo db) (attendances db) →
  Forall (refersTo (run ops db)) (attendances (run ops db)).
Proof.
  revert db. induction ops as [|op ops IH]; intros db H; [done|].
  rewrite run_cons. by apply IH, step_wellReferenced.
Qed.

(** ** Marking one pair and the other records *)

(** X6. A mark leaves the sessions as they are and touches at most the
    record of its own (student, session) pair: every record of another
    pair stays at its place, unchanged, and the collection grows by at
    most one record. *)
Theorem mark_frame user body db :
  let db' := (mark user body db).2 in
  users db' = users db ∧ subjects db' = subjects db ∧ sessions db' = sessions db
  ∧ (length (attendances db) ≤ length (attendances db') ≤ S (length (attendances db)))
  ∧ ∀ i r, attendances db !! i = Some r →
      recordKey r ≠ (MarkBody.studentId body, MarkBody.sessionId body) →
      attendances db' !! i = Some r.
Proof.
  destruct (mark user body db) as [reply db'] eqn:H. cbn [snd].
  destruct (succeeded_dec reply) as [Hs|Hn].
  - destruct reply as [code b| | |]; try done.
    apply mark_store in H as (-> & -> & -> & _ & [(i0 & old & Hf & _ & ->)|(_ & ->)]).
    + apply list_find_Some in Hf as (Hi0 & Hk & _).
      split_and!; try done; [rewrite length_insert; lia..|].
      intros i r Hi Hne. rewrite list_lookup_insert_ne; [done|].
      intros ->. simplify_eq. by apply recordKey_keyed in Hk.
    + split_and!; try done; [rewrite length_app; simpl; lia..|].
      intros i r Hi _. by apply lookup_app_l_Some.
  - apply mark_failed in H as ->; [|done]. split_and!; try done; lia.
Qed.

(** ** A session end and the marks after it *)

Lemma endSession_no_active now user sid db code b db' :
  uniqueSessionIds db →
  endSession now user sid db = (Sent code b, db') →
  ∀ fid, ¬ activeSessionOf sid fid db'.
Proof.
  intros Huniq Hend fid (s' & Hin' & Hsid' & _ & Hst').
  apply endSession_store in Hend
    as (_ & _ & _ & i & s & Hi & (Hsid & _ & _) & Hb & Hs).
  rewrite Hs in Hin'. apply list_elem_of_lookup in Hin' as [j Hj].
  destruct (decide (i = j)) as [->|Hne].
  - rewrite list_lookup_insert_eq in Hj by (by eapply lookup_lt_Some).
    simplify_eq. by rewrite Hb in Hst'.
  - rewrite list_lookup_insert_ne in Hj by done.
    destruct Hne. eapply (NoDup_fmap_lookup AttendanceSession.sessionId); eauto.
    congruence.
Qed.

(** X8. With session identifiers unique in the store, once a session end
    has succeeded no mark for that session identifier succeeds, whoever
    sends it, and the store is left as the session end left it; a
    faculty caller with a well-formed body is answered
    InvalidSessionError. *)
Theorem mark_after_endSession now user sid db code b db' user' body reply db'' :
  uniqueSessionIds db →
  endSession now user sid db = (Sent code b, db') →
  MarkBody.sessionId body = sid →
  mark user' body db' = (reply, db'') →
  ¬ succeeded reply ∧ db'' = db'
  ∧ (Auth.role user' = RoleFaculty → MarkBody.validate body = []
     → reply = InvalidSessionError).
Proof.
  intros Huniq Hend Hsid Hmark.
  pose proof (endSession_no_active _ _ _ _ _ _ _ Huniq Hend (Auth.userId user')) as Hno.
  assert (Hn : ¬ succeeded reply).
  { intros Hsuc. destruct reply as [code' b'| | |]; try done.
    apply mark_succeeded in Hmark as (_ & session & j & _ & _ & Hf & _).
    apply Hno. apply activeSessionOf_findOne. rewrite <-Hsid, Hf. by eexists. }
  split; [done|]. split; [by eapply mark_failed|].
  intros Hrole Hval. destruct (validate_mark_status _ Hval) as [st Hst].
  revert Hmark. unfold mark.
  rewrite (requireRole_faculty _ Hrole), Hval, Hst. cbn [negb].
  destruct (AttendanceSession.findOne _ _ _ _) as [[j s]|] eqn:Hf; [|by intros [= <- _]].
  destruct Hno. apply activeSessionOf_findOne. rewrite <-Hsid, Hf. by eexists.
Qed.

(** ** A session start and what follows it *)


(** X2. Right after a successful session start the caller can use the
    session: a session end with the identifier returned succeeds, and a
    mark of any existing student with a well-formed body succeeds. *)
Theorem startSession_then now user body db code b db' :
  startSession now user body db = (Sent code b, db') →
  let sid := AttendanceSession.sessionId b.2 in
  activeSessionOf sid (Auth.userId user) db'
  ∧ (∀ now', succeeded (endSession now' user sid db').1)
  ∧ (∀ mbody, MarkBody.validate mbody = [] → MarkBody.sessionId mbody = sid →
       validStudent (MarkBody.studentId mbody) db' →
       succeeded (mark user mbody db').1).
Proof.
  intros H sid. subst sid.
  pose proof (startSession_store _ _ _ _ _ _ _ H) as (Hu & _ & _ & Hs).
  apply startSession_succeeded in H
    as (subject & faculty & Hrole & _ & _ & Hf & _ & _ & Hb & _).
  assert (Hact : activeSessionOf (AttendanceSession.sessionId b.2) (Auth.userId user) db').
  { exists b.2. split; [rewrite Hs; apply elem_of_app; right; apply list_elem_of_here|].
    rewrite Hb. by split_and!. }
  apply activeSessionOf_findOne in Hact as Hfind. destruct Hfind as [[j s] Hfind].
  split_and!; [done| |].
  - intros now'. unfold endSession.
    rewrite (requireRole_faculty _ Hrole), Hfind. by cbn.
  - intros mbody Hval Hsid (student & Hstu & Hr).
    destruct (validate_mark_status _ Hval) as [st Hst]. unfold mark.
    rewrite (requireRole_faculty _ Hrole), Hval, Hst, Hsid, Hfind, Hstu. cbn [negb].
    rewrite (bool_decide_eq_true_2 _ Hr). cbn [negb]. rewrite Hu, Hf.
    by destruct (Attendance.findOne _ _ _) as [[i old]|].
Qed.



(** ** Session identifiers *)

Lemma plain_pretty_N_go x : ∀ s, plain s → plain (pretty_N_go x s).
Proof.
  induction (N.lt_wf_0 x) as [x _ IH]; intros s Hs.
  assert (x = 0 ∨ 0 < x)%N as [->|Hx] by lia; [by rewrite pretty_N_go_0|].
  rewrite pretty_N_go_step by done. apply IH; [by apply N.div_lt|].
  split; [|done]. unfold pretty_N_char. by repeat case_match.
Qed.

Lemma plain_pretty_N (x : N) : plain (pretty x).
Proof.
  unfold pretty, pretty_N. case_decide; [by split|]. by apply plain_pretty_N_go.
Qed.

Lemma plain_pretty_Z (z : Z) : plain (pretty z).
Proof.
  destruct z as [|p|p]; unfold pretty, pretty_Z.
  - by split.
  - apply plain_pretty_N.
  - split; [done|]. apply plain_pretty_N.
Qed.

Lemma append_nil s : "" +:+ s = s.
Proof. done. Qed.

Lemma append_cons c s t : String c s +:+ t = String c (s +:+ t).
Proof. done. Qed.

(** Texts without underscore that are followed by one end at the same place. *)
Lemma plain_prefix s1 : ∀ s2 r1 r2,
  plain s1 → plain s2 →
  s1 +:+ String underscore r1 = s2 +:+ String underscore r2 → s1 = s2 ∧ r1 = r2.
Proof.
  induction s1 as [|c1 s1 IH]; intros [|c2 s2] r1 r2 H1 H2;
    rewrite ?append_nil, ?append_cons; intros Heq.
  - by injection Heq as ->.
  - injection Heq as <- _. by destruct H2.
  - injection Heq as -> _. by destruct H1.
  - injection Heq as -> Heq. destruct H1 as [_ H1], H2 as [_ H2].
    destruct (IH _ _ _ H1 H2 Heq) as [-> ->]. done.
Qed.

Lemma length_append s t : String.length (s +:+ t) = (String.length s + String.length t)%nat.
Proof.
  induction s as [|c s IH]; rewrite ?append_nil, ?append_cons; simpl; [done|].
  by rewrite IH.
Qed.

(** Texts that end in parts of the same length start with the same part. *)
Lemma suffix_same_length s1 : ∀ s2 t1 t2,
  String.length t1 = String.length t2 →
  s1 +:+ t1 = s2 +:+ t2 → s1 = s2 ∧ t1 = t2.
Proof.
  induction s1 as [|c1 s1 IH]; intros [|c2 s2] t1 t2 Hlen;
    rewrite ?append_nil, ?append_cons; intros Heq.
  - done.
  - subst t1. simpl in Hlen. rewrite length_append in Hlen. lia.
  - subst t2. simpl in Hlen. rewrite length_append in Hlen. lia.
  - injection Heq as -> Heq. destruct (IH _ _ _ Hlen Heq) as [-> ->]. done.
Qed.

Lemma sessionIdOf_time now1 fid1 subj1 now2 fid2 subj2 :
  sessionIdOf now1 fid1 subj1 = sessionIdOf now2 fid2 subj2 → now1 = now2.
Proof.
  unfold sessionIdOf. intros H.
  apply (plain_prefix (pretty now1) (pretty now2)) in H as [H _];
    [|apply plain_pretty_Z..].
  by apply (inj pretty) in H.
Qed.

Lemma isMongoId_length s : isMongoId s = true → String.length s = 24%nat.
Proof.
  unfold isMongoId. intros [_ H]%andb_true_iff. by apply Nat.eqb_eq in H.
Qed.

Lemma sessionIdOf_inj now1 fid1 subj1 now2 fid2 subj2 :
  isMongoId subj1 = true → isMongoId subj2 = true →
  sessionIdOf now1 fid1 subj1 = sessionIdOf now2 fid2 subj2 →
  now1 = now2 ∧ fid1 = fid2 ∧ subj1 = subj2.
Proof.
  unfold sessionIdOf. intros H1%isMongoId_length H2%isMongoId_length H.
  apply (plain_prefix (pretty now1) (pretty now2)) in H as [Hnow H];
    [|apply plain_pretty_Z..].
  apply (inj pretty) in Hnow.
  apply (suffix_same_length fid1 fid2 (String underscore subj1)
           (String underscore subj2)) in H as [-> H]; [|simpl; congruence].
  by injection H as ->.
Qed.

(** X3. The identifier tells the session starts apart: two successful
    session starts (on whatever stores) return the same session
    identifier only when they read the same clock value, came from the
    same caller and named the same subject. *)
Theorem startSession_identifier now1 user1 body1 db1 code1 b1 db1'
    now2 user2 body2 db2 code2 b2 db2' :
  startSession now1 user1 body1 db1 = (Sent code1 b1, db1') →
  startSession now2 user2 body2 db2 = (Sent code2 b2, db2') →
  AttendanceSession.sessionId b1.2 = AttendanceSession.sessionId b2.2 →
  now1 = now2 ∧ Auth.userId user1 = Auth.userId user2
  ∧ StartBody.subjectId body1 = StartBody.subjectId body2.
Proof.
  intros H1 H2.
  apply startSession_succeeded in H1 as (? & ? & _ & Hv1 & _ & _ & _ & _ & -> & _).
  apply startSession_succeeded in H2 as (? & ? & _ & Hv2 & _ & _ & _ & _ & -> & _).
  apply validate_start in Hv1 as [Hv1 _], Hv2 as [Hv2 _]. simpl.
  by apply sessionIdOf_inj.
Qed.

Lemma step_uniqueSessionIds db op :
  uniqueSessionIds db →
  (∀ now user body, op = OpStart now user body →
     ∀ s fid subj, s ∈ sessions db →
       AttendanceSession.sessionId s ≠ sessionIdOf now fid subj) →
  uniqueSessionIds (step db op).
Proof.
  unfold uniqueSessionIds. intros Hu Hfresh.
  destruct (step_cases db op) as [->|(db' & -> & [H|[H|H]])]; [done|..].
  - destruct H as (now & user & body & code & b & -> & H).
    pose proof (startSession_store _ _ _ _ _ _ _ H) as (_ & _ & _ & ->).
    apply startSession_succeeded in H as (? & ? & _ & _ & _ & _ & _ & _ & Hb & _).
    rewrite fmap_app. apply NoDup_app. split_and!; [done| |apply NoDup_singleton].
    intros id (s & -> & Hin)%list_elem_of_fmap Hid.
    apply list_elem_of_singleton in Hid. rewrite Hb in Hid. simpl in Hid.
    by eapply Hfresh.
  - destruct H as (now & user & sid & code & b & _ & H).
    apply endSession_store in H as (_ & _ & _ & i & s & Hi & _ & Hb & ->).
    rewrite list_fmap_insert, list_insert_id; [done|].
    rewrite list_lookup_fmap, Hi, Hb. done.
  - destruct H as (user & body & code & b & _ & H).
    by apply mark_store in H as (_ & _ & -> & _).
Qed.

Lemma step_sessionIds db op s' :
  s' ∈ sessions (step db op) →
  (∃ s, s ∈ sessions db ∧ AttendanceSession.sessionId s' = AttendanceSession.sessionId s)
  ∨ ∃ now user body, op = OpStart now user body
      ∧ AttendanceSession.sessionId s'
        = sessionIdOf now (Auth.userId user) (StartBody.subjectId body).
Proof.
  destruct (step_cases db op) as [->|(db' & -> & [H|[H|H]])]; [by left; eexists|..].
  - destruct H as (now & user & body & code & b & -> & H).
    pose proof (startSession_store _ _ _ _ _ _ _ H) as (_ & _ & _ & ->).
    apply startSession_succeeded in H as (? & ? & _ & _ & _ & _ & _ & _ & Hb & _).
    intros [Hin|Hin%list_elem_of_singleton]%elem_of_app; [by left; eexists|].
    right. exists now, user, body. split; [done|]. subst s'. by rewrite Hb.
  - destruct H as (now & user & sid & code & b & _ & H).
    apply endSession_store in H as (_ & _ & _ & i & s & Hi & _ & Hb & ->).
    intros [j Hj]%list_elem_of_lookup. left.
    destruct (decide (i = j)) as [->|Hne].
    + rewrite list_lookup_insert_eq in Hj by (by eapply lookup_lt_Some).
      exists s. split; [by eapply list_elem_of_lookup_2|]. simplify_eq. by rewrite Hb.
    + rewrite list_lookup_insert_ne in Hj by done.
      exists s'. split; [by eapply list_elem_of_lookup_2|done].
  - destruct H as (user & body & code & b & _ & H).
    apply mark_store in H as (_ & _ & -> & _). intros Hin. left. by eexists.
Qed.

(** X4. Distinct clock readings keep the session identifiers unique:
    from a store whose session identifiers are pairwise distinct and
    none of which is one a session start of the run could build, any
    sequence of session starts, session ends and marks in which no two
    session starts read the same clock value leaves the session
    identifiers pairwise distinct. *)
Theorem run_uniqueSessionIds ops db :
  uniqueSessionIds db →
  NoDup (startTimes ops) →
  (∀ s now fid subj, s ∈ sessions db → now ∈ startTimes ops →
     AttendanceSession.sessionId s ≠ sessionIdOf now fid subj) →
  uniqueSessionIds (run ops db).
Proof.
  revert db. induction ops as [|op ops IH]; intros db Hu Hnd Hfresh; [done|].
  rewrite run_cons. apply IH.
  - apply step_uniqueSessionIds; [done|].
    intros now user body -> s fid subj Hin. apply Hfresh; [done|]. simpl. by left.
  - destruct op; simpl in Hnd; [by apply NoDup_cons in Hnd as [_ ?]|done..].
  - intros s' now' fid subj Hin Hnow'.
    apply step_sessionIds in Hin as [(s & Hin & ->)|(now & user & body & -> & ->)].
    + apply Hfresh; [done|]. destruct op; simpl; [by right|done..].
    + intros Heq%sessionIdOf_time. subst now'. simpl in Hnd.
      by apply NoDup_cons in Hnd as [? _].
Qed.

(** ** Sorting *)

Lemma insertBy_Permutation {A} (le : A → A → bool) x l : insertBy le x l ≡ₚ x :: l.
Proof.
  induction l as [|y l IH]; simpl; [done|].
  destruct (le x y); [done|]. rewrite IH. apply Permutation_swap.
Qed.

Lemma sortBy_Permutation {A} (le : A → A → bool) l : sortBy le l ≡ₚ l.
Proof.
  induction l as [|x l IH]; simpl; [done|].
  unfold sortBy in IH. by rewrite insertBy_Permutation, IH.
Qed.

Section sorted.
Context {A : Type} (le : A → A → bool) (R : A → A → Prop).
Hypothesis le_R : ∀ a b, le a b = true → R a b.
Hypothesis le_total : ∀ a b, le a b = false → R b a.
Hypothesis R_trans : ∀ a b c, R a b → R b c → R a c.

Lemma StronglySorted_insertBy x l :
  StronglySorted R l → StronglySorted R (insertBy le x l).
Proof using le_R le_total R_trans.
  induction 1 as [|y l Hl IH Hy]; simpl.
  - by repeat constructor.
  - destruct (le x y) eqn:Hxy.
    + constructor; [by constructor|]. apply le_R in Hxy.
      constructor; [done|]. eapply Forall_impl; [exact Hy|]. eauto.
    + constructor; [done|]. apply le_total in Hxy.
      rewrite (insertBy_Permutation le x l). by constructor.
Qed.

Lemma StronglySorted_sortBy l : StronglySorted R (sortBy le l).
Proof using le_R le_total R_trans.
  induction l as [|x l IH]; simpl; [constructor|].
  by apply StronglySorted_insertBy.
Qed.
End sorted.

Lemma sorted_byDateDesc l : StronglySorted newestFirst (sortBy byDateDesc l).
Proof.
  apply StronglySorted_sortBy; unfold byDateDesc, newestFirst.
  - intros a b. by rewrite Z.leb_le.
  - intros a b. rewrite Z.leb_gt. lia.
  - intros a b c. lia.
Qed.

(** The order of the texts is transitive. *)
Lemma ascii_compare_N a b :
  Ascii.compare a b = (Ascii.N_of_ascii a ?= Ascii.N_of_ascii b)%N.
Proof. done. Qed.

Lemma string_compare_Lt_trans s1 : ∀ s2 s3,
  String.compare s1 s2 ≠ Gt → String.compare s2 s3 ≠ Gt → String.compare s1 s3 ≠ Gt.
Proof.
  induction s1 as [|c1 s1 IH]; intros [|c2 s2] [|c3 s3]; simpl; try done.
  rewrite !ascii_compare_N.
  destruct (N.compare_spec (Ascii.N_of_ascii c1) (Ascii.N_of_ascii c2)) as [H12|H12|H12];
    [|destruct (N.compare_spec (Ascii.N_of_ascii c2) (Ascii.N_of_ascii c3)) as [H23|H23|H23]
     |done].
  - rewrite H12. destruct (Ascii.N_of_ascii c2 ?= Ascii.N_of_ascii c3)%N; eauto.
  - intros _ _. rewrite <-H23. by apply N.compare_lt_iff in H12 as ->.
  - intros _ _. assert (Ascii.N_of_ascii c1 < Ascii.N_of_ascii c3)%N as Hlt by lia.
    by apply N.compare_lt_iff in Hlt as ->.
  - done.
Qed.

Lemma string_leb_trans s1 s2 s3 :
  String.leb s1 s2 = true → String.leb s2 s3 = true → String.leb s1 s3 = true.
Proof.
  unfold String.leb. intros H12 H23.
  pose proof (string_compare_Lt_trans s1 s2 s3) as H.
  destruct (String.compare s1 s2), (String.compare s2 s3), (String.compare s1 s3);
    try done; by destruct H.
Qed.

Lemma sorted_byDateDescThenName l :
  StronglySorted newestFirstThenName (sortBy byDateDescThenName l).
Proof.
  apply StronglySorted_sortBy; unfold byDateDescThenName, newestFirstThenName.
  - intros a b [H|[H1 H2]%andb_true_iff]%orb_true_iff.
    + left. by apply Z.ltb_lt.
    + right. split; [by apply Z.eqb_eq|done].
  - intros a b [H1 H2]%orb_false_iff. apply Z.ltb_ge in H1.
    apply andb_false_iff in H2 as [H2|H2].
    + left. apply Z.eqb_neq in H2. lia.
    + destruct (decide (Attendance.date a = Attendance.date b)) as [Heq|Hne]; [|left; lia].
      right. split; [done|].
      by destruct (String.leb_total (Attendance.studentName a) (Attendance.studentName b))
        as [H|H]; [congruence|].
  - intros a b c [H1|[H1 H1']] [H2|[H2 H2']]; [left; lia..|].
    right. split; [congruence|]. by eapply string_leb_trans.
Qed.

(** ** The filters of the queries *)

Lemma given_Some p v : given p = Some v ↔ p = Some v ∧ v ≠ "".
Proof.
  unfold given. destruct p as [s|]; [|naive_solver].
  destruct (String.eqb_spec s ""); naive_solver.
Qed.

Lemma given_None p : given p = None ↔ ∀ v, p = Some v → v = "".
Proof.
  unfold given. destruct p as [s|]; [|naive_solver].
  destruct (String.eqb_spec s ""); naive_solver.
Qed.

Lemma holds_option {A} (o : option A) (P : A → Prop) :
  Filter.holds o P ↔ ∀ v, o = Some v → P v.
Proof. destruct o; simpl; naive_solver. Qed.

Lemma holds_bothDates sd ed (P : Z → Z → Prop) :
  Filter.holds (bothDates sd ed) (λ v, P v.1 v.2)
  ↔ ∀ a b, sd = Some a → ed = Some b → P a b.
Proof. destruct sd, ed; simpl; naive_solver. Qed.

Lemma history_filter studentId q :
  let f := StudentQuery.filter studentId q in
  Filter.student f = Some studentId
  ∧ Filter.subject f = given (StudentQuery.subjectId q)
  ∧ Filter.division f = None ∧ Filter.department f = None
  ∧ Filter.semester f = None ∧ Filter.faculty f = None
  ∧ Filter.date f = bothDates (StudentQuery.startDate q) (StudentQuery.endDate q).
Proof.
  destruct q as [subj sd ed]. unfold StudentQuery.filter. simpl.
  destruct (given subj), sd, ed; by split_and!.
Qed.

Lemma report_filter user q :
  let f := ReportQuery.filter user q in
  Filter.student f = None
  ∧ Filter.subject f = given (ReportQuery.subjectId q)
  ∧ Filter.division f = given (ReportQuery.division q)
  ∧ Filter.department f = given (ReportQuery.department q)
  ∧ Filter.semester f = ReportQuery.semester q
  ∧ Filter.faculty f
    = (if bool_decide (Auth.role user = RoleFaculty) then Some (Auth.userId user)
       else given (ReportQuery.facultyId q))
  ∧ Filter.date f = bothDates (ReportQuery.startDate q) (ReportQuery.endDate q).
Proof.
  destruct q as [subj div dep sem sd ed fac]. unfold ReportQuery.filter. simpl.
  destruct (given subj), (given div), (given dep), (given fac), sem, sd, ed,
    (bool_decide (Auth.role user = RoleFaculty)); by split_and!.
Qed.

Lemma matches_history studentId q r :
  Filter.matches (StudentQuery.filter studentId q) r ↔ inHistory studentId q r.
Proof.
  destruct (history_filter studentId q) as (H1 & H2 & H3 & H4 & H5 & H6 & H7).
  unfold Filter.matches, inHistory. rewrite H1, H2, H3, H4, H5, H6, H7.
  rewrite given_holds, (holds_bothDates _ _ (λ a b, (a ≤ Attendance.date r ≤ b)%Z)).
  simpl. naive_solver.
Qed.

Lemma matches_report user q r :
  Filter.matches (ReportQuery.filter user q) r ↔ inReport user q r.
Proof.
  destruct (report_filter user q) as (H1 & H2 & H3 & H4 & H5 & H6 & H7).
  unfold Filter.matches, inReport. rewrite H1, H2, H3, H4, H5, H6, H7.
  rewrite !given_holds, (holds_bothDates _ _ (λ a b, (a ≤ Attendance.date r ≤ b)%Z)).
  destruct (bool_decide (Auth.role user = RoleFaculty)); [|rewrite given_holds];
    rewrite (holds_option (ReportQuery.semester q)); simpl; tauto.
Qed.

(** ** The student history *)

Lemma doc_populateHistory db (l : list Attendance.t) :
  Populated.doc <$> (populateHistory db <$> l) = l.
Proof. induction l as [|r l IH]; simpl; [done|]. by f_equal. Qed.

Lemma countRecords_None records : ∀ stats,
  countRecords records stats = None
  ↔ Exists (λ p, Populated.subject p = None) records.
Proof.
  induction records as [|p records IH]; intros stats; simpl.
  - split; [done | by intros ?%Exists_nil].
  - rewrite Exists_cons. destruct (Populated.subject p) as [subject|]; [|naive_solver].
    rewrite IH. naive_solver.
Qed.

Lemma totalCounted_countRecord key name st stats :
  totalCounted (finish <$> (countRecord key name st stats).*2)
  = (totalCounted (finish <$> stats.*2) + 1)%Z.
Proof.
  induction stats as [|[k s] stats IH]; simpl.
  - destruct st; simpl; lia.
  - case_decide; simpl; [destruct st; simpl; lia|].
    unfold fmap in IH. rewrite IH. lia.
Qed.

Lemma totalCounted_countRecords records : ∀ stats stats',
  countRecords records stats = Some stats' →
  totalCounted (finish <$> stats'.*2)
  = (totalCounted (finish <$> stats.*2) + Z.of_nat (length records))%Z.
Proof.
  induction records as [|p records IH]; intros stats stats'; simpl.
  - intros [= <-]. lia.
  - destruct (Populated.subject p) as [subject|]; [|done].
    intros H%IH. rewrite H, totalCounted_countRecord. lia.
Qed.

Lemma statistics_finish records stats :
  statistics records = Some stats ↔
  ∃ stats0, countRecords records [] = Some stats0 ∧ stats = finish <$> stats0.*2.
Proof.
  unfold statistics, perSubject.
  destruct (countRecords records []) as [stats0|]; [|naive_solver].
  assert (((λ ks : string * Tally.t, (ks.1, finish ks.2)) <$> stats0).*2
          = finish <$> stats0.*2) as ->.
  { rewrite <-!list_fmap_compose. by apply list_fmap_ext. }
  naive_solver.
Qed.

Lemma studentAttendance_allowed user studentId q db :
  Auth.role user ≠ RoleStudent ∨ Auth.userId user = studentId →
  studentAttendance user studentId q db
  = match statistics (populateHistory db <$>
            sortBy byDateDesc (find (StudentQuery.filter studentId q) (attendances db))) with
    | None => ServerError
    | Some statistics =>
      Sent 200 (populateHistory db <$>
                  sortBy byDateDesc (find (StudentQuery.filter studentId q) (attendances db)),
                statistics)
    end.
Proof.
  intros Hok. unfold studentAttendance.
  assert (bool_decide (Auth.role user = RoleStudent)
          && negb (String.eqb (Auth.userId user) studentId) = false) as ->; [|done].
  destruct Hok as [Hr | ->].
  - by rewrite bool_decide_eq_false_2.
  - rewrite String.eqb_refl. by rewrite andb_false_r.
Qed.

Lemma studentAttendance_sent user studentId q db code att stats :
  studentAttendance user studentId q db = Sent code (att, stats) →
  code = 200%nat
  ∧ att = populateHistory db <$>
            sortBy byDateDesc (find (StudentQuery.filter studentId q) (attendances db))
  ∧ statistics att = Some stats.
Proof.
  unfold studentAttendance. destruct (_ && _); [done|].
  destruct (statistics _) as [stats'|] eqn:Hs; [|done].
  intros [= <- <- <-]. by rewrite Hs.
Qed.

(** X16. When the student history is sent, its records are the records of
    the store that the query asks for, each once: those of the student,
    of the subject when a subject is given and not empty, and between
    the two dates when both are given (a single date is ignored).  They
    come newest first, each with the subject and faculty documents of
    the store, and the totals of the statistics entries add up to the
    number of records, every entry counting at least one record and as
    many as its present, absent and late counts together. *)
Theorem studentAttendance_history user studentId q db code att stats :
  studentAttendance user studentId q db = Sent code (att, stats) →
  code = 200%nat
  ∧ att = populateHistory db <$> (Populated.doc <$> att)
  ∧ Populated.doc <$> att
    ≡ₚ find (StudentQuery.filter studentId q) (attendances db)
  ∧ (∀ r, r ∈ Populated.doc <$> att ↔ r ∈ attendances db ∧ inHistory studentId q r)
  ∧ StronglySorted newestFirst (Populated.doc <$> att)
  ∧ totalCounted stats = Z.of_nat (length att)
  ∧ Forall (λ s, (1 ≤ Tally.total (Stat.tally s))%Z
              ∧ (Tally.present (Stat.tally s) + Tally.absent (Stat.tally s)
                 + Tally.late (Stat.tally s) = Tally.total (Stat.tally s))%Z) stats.
Proof.
  intros (-> & Hatt & Hstats)%studentAttendance_sent.
  assert (Hdoc : Populated.doc <$> att
                 = sortBy byDateDesc (find (StudentQuery.filter studentId q) (attendances db)))
    by (by rewrite Hatt, doc_populateHistory).
  apply statistics_finish in Hstats as (stats0 & H0 & ->).
  split_and!.
  - done.
  - by rewrite Hdoc.
  - rewrite Hdoc. apply sortBy_Permutation.
  - intros r. rewrite Hdoc, elem_of_sortBy. unfold find.
    by rewrite list_elem_of_filter, matches_history, (comm _ (r ∈ _)).
  - rewrite Hdoc. apply sorted_byDateDesc.
  - by rewrite (totalCounted_countRecords _ _ _ H0).
  - destruct (countRecords_counted att [] [] stats0 counted_nil H0) as [Hnd Hassoc].
    rewrite app_nil_l in Hassoc.
    apply Forall_fmap, Forall_fmap, Forall_forall. intros [k c] Hin. simpl.
    apply assoc_elem_of in Hin; [|done]. rewrite Hassoc in Hin.
    pose proof (countStatus_sum (group k att)) as Hsum.
    destruct (group k att) as [|p g]; [done|].
    simpl in Hin. injection Hin as <-. simpl in *. lia.
Qed.

(** X17. For a caller who passes the access check the student history
    answers the server error exactly when one of the records the query
    asks for names a subject that is not in the store: the statistics
    read the identifier of the populated subject, which is null then. *)
Theorem studentAttendance_server_error user studentId q db :
  Auth.role user ≠ RoleStudent ∨ Auth.userId user = studentId →
  studentAttendance user studentId q db = ServerError
  ↔ ∃ r, r ∈ attendances db ∧ inHistory studentId q r
       ∧ Subject.findById (Attendance.subject r) (subjects db) = None.
Proof.
  intros Hok. rewrite (studentAttendance_allowed _ _ _ _ Hok).
  destruct (statistics _) as [stats|] eqn:Hs.
  - split; [done|]. intros (r & Hin & Hq & Hnone).
    apply statistics_finish in Hs as (stats0 & H0 & _).
    assert (countRecords (populateHistory db <$>
              sortBy byDateDesc (find (StudentQuery.filter studentId q) (attendances db)))
              [] = None) as Hn; [|congruence].
    apply countRecords_None, Exists_exists. exists (populateHistory db r).
    split; [|done]. apply list_elem_of_fmap. exists r. split; [done|].
    apply elem_of_sortBy, list_elem_of_filter. by rewrite matches_history.
  - split; [intros _|done].
    assert (countRecords (populateHistory db <$>
              sortBy byDateDesc (find (StudentQuery.filter studentId q) (attendances db)))
              [] = None) as Hn.
    { revert Hs. unfold statistics, perSubject. by destruct (countRecords _ _). }
    apply countRecords_None, Exists_exists in Hn as (p & Hin & Hnone).
    apply list_elem_of_fmap in Hin as (r & -> & Hin).
    apply elem_of_sortBy, list_elem_of_filter in Hin as [Hm Hin].
    exists r. by rewrite <-matches_history.
Qed.

(** ** Subjects that stay known *)

Lemma sameRecord_subject r r' : sameRecord r r' → Attendance.subject r' = Attendance.subject r.
Proof. by intros (st & c & m & ->). Qed.

Lemma step_subjectsKnown db op : subjectsKnown db → subjectsKnown (step db op).
Proof.
  intros [Hs Hr].
  destruct (step_cases db op) as [->|(db' & -> & [H|[H|H]])]; [done|..].
  - destruct H as (now & user & body & code & b & _ & H).
    pose proof (startSession_store _ _ _ _ _ _ _ H) as (_ & Hsub & Hatt & Hses).
    apply startSession_succeeded in H as (subject & ? & _ & _ & Hf & _ & _ & _ & Hb & _).
    split; rewrite Hsub; [|by rewrite Hatt].
    rewrite Hses. apply Forall_app. split; [done|].
    apply Forall_singleton. rewrite Hb. simpl. by eexists.
  - destruct H as (now & user & sid & code & b & _ & H).
    apply endSession_store in H as (_ & Hsub & Hatt & i & s & Hi & _ & Hb & Hses).
    split; rewrite Hsub; [|by rewrite Hatt].
    rewrite Hses. apply Forall_insert; [done|].
    rewrite Hb. simpl. by eapply (Forall_lookup_1 _ _ _ _ Hs).
  - destruct H as (user & body & code & b & _ & H).
    pose proof (mark_store _ _ _ _ _ _ H)
      as (_ & Hsub & Hses & _ & [(i & old & Hf & Hsame & Hatt)|(Hf & Hatt)]).
    + split; rewrite Hsub; [by rewrite Hses|].
      apply list_find_Some in Hf as (Hi & _ & _).
      rewrite Hatt. apply Forall_insert; [done|].
      rewrite (sameRecord_subject _ _ Hsame). by eapply (Forall_lookup_1 _ _ _ _ Hr).
    + split; rewrite Hsub; [by rewrite Hses|].
      rewrite Hatt. apply Forall_app. split; [done|]. apply Forall_singleton.
      destruct (mark_created _ _ _ _ _ _ H Hf)
        as (session & student & Hin & _ & _ & _ & _ & _ & _ & -> & _).
      by eapply (proj1 (Forall_forall _ _) Hs).
Qed.

(** X15. The handlers never cause the server error of the student
    history themselves: from a store in which the subject of every
    session and of every record exists, after any sequence of session
    starts, session ends and marks no request for a student history is
    answered with the server error. *)
Theorem run_history_never_fails ops db user studentId q :
  subjectsKnown db →
  studentAttendance user studentId q (run ops db) ≠ ServerError.
Proof.
  intros Hk.
  assert (Hk' : subjectsKnown (run ops db)).
  { revert db Hk. induction ops as [|op ops IH]; intros db Hk; [done|].
    rewrite run_cons. by apply IH, step_subjectsKnown. }
  destruct Hk' as [_ Hr]. unfold studentAttendance.
  destruct (_ && _); [done|].
  destruct (statistics _) as [stats|] eqn:Hs; [done|]. exfalso.
  assert (countRecords (populateHistory (run ops db) <$>
            sortBy byDateDesc (find (StudentQuery.filter studentId q)
                                 (attendances (run ops db)))) [] = None) as Hn.
  { revert Hs. unfold statistics, perSubject. by destruct (countRecords _ _). }
  apply countRecords_None, Exists_exists in Hn as (p & Hin & Hnone).
  apply list_elem_of_fmap in Hin as (r & -> & Hin).
  apply elem_of_sortBy, list_elem_of_filter in Hin as [_ Hin].
  apply (proj1 (Forall_forall _ _) Hr) in Hin as [? Hsome]. simpl in Hnone. congruence.
Qed.

(** ** The report *)

(** X19. To a caller whose role is faculty or admin the report is always
    sent, with code 200: its records are the records of the store that
    the query asks for, each once, with the student, subject and faculty
    documents of the store, ordered newest first and, within one date,
    by student name ascending.  A parameter that is the empty text is
    ignored, and so is a single date. *)
Theorem report_sorted user q db :
  Auth.role user = RoleFaculty ∨ Auth.role user = RoleAdmin →
  ∃ att, report user q db = Sent 200 att
    ∧ att = populateReport db <$> (Populated.doc <$> att)
    ∧ Populated.doc <$> att ≡ₚ find (ReportQuery.filter user q) (attendances db)
    ∧ (∀ r, r ∈ Populated.doc <$> att ↔ r ∈ attendances db ∧ inReport user q r)
    ∧ StronglySorted newestFirstThenName (Populated.doc <$> att).
Proof.
  intros Hrole. unfold report.
  assert (Auth.requireRole [RoleFaculty; RoleAdmin] user = true) as ->.
  { apply bool_decide_eq_true. destruct Hrole as [-> | ->]; set_solver. }
  cbn [negb]. eexists. split; [done|]. rewrite doc_populateReport. split_and!.
  - done.
  - apply sortBy_Permutation.
  - intros r. rewrite elem_of_sortBy. unfold find.
    by rewrite list_elem_of_filter, matches_report, (comm _ (r ∈ _)).
  - apply sorted_byDateDescThenName.
Qed.

(** ** Percentages in order *)

Lemma percentageOf_attended s s' :
  attended s = attended s' → Tally.total s = Tally.total s' →
  percentageOf s = percentageOf s'.
Proof. unfold percentageOf, attended. by intros -> ->. Qed.

Lemma gradeByTenths_mono n n' :
  (n ≤ n')%Z → (gradeRank (gradeByTenths n) ≤ gradeRank (gradeByTenths n'))%nat.
Proof.
  unfold gradeByTenths. intros Hn.
  destruct (Z.leb_spec 900 n), (Z.leb_spec 900 n'), (Z.leb_spec 750 n),
    (Z.leb_spec 750 n'); simpl; lia.
Qed.

(** X18. The percentage and the grade follow the attendance: of two
    tallies with the same total (below 2 ^ 40), the one with at least as
    many records present or late has at least the percentage and at
    least the grade of the other.  The percentage lies between 0.0 and
    100.0; it is 0.0 with the grade bad when no record is present or
    late, and 100.0 with the grade excellent when all are. *)
Theorem percentage_monotone s s' :
  Tally.total s' = Tally.total s →
  (0 < Tally.total s < 2 ^ 40)%Z →
  (0 ≤ attended s ≤ attended s')%Z → (attended s' ≤ Tally.total s)%Z →
  ∃ n n', Stat.percentage (finish s) = PctText (Fixed.Digits false n)
    ∧ Stat.percentage (finish s') = PctText (Fixed.Digits false n')
    ∧ (0 ≤ n ≤ n' ∧ n' ≤ 1000)%Z
    ∧ (gradeRank (Stat.status (finish s)) ≤ gradeRank (Stat.status (finish s')))%nat
    ∧ (attended s = 0%Z → n = 0%Z ∧ Stat.status (finish s) = Bad)
    ∧ (attended s' = Tally.total s → n' = 1000%Z ∧ Stat.status (finish s') = Excellent).
Proof.
  unfold attended. intros Ht Htot Ha Ha'.
  destruct (finish_spec s) as (n & Hp & Hn & Hg); [lia | done |].
  destruct (finish_spec s') as (n' & Hp' & Hn' & Hg'); [lia | lia |].
  rewrite Ht in Hn'. exists n, n'.
  assert (Hle : (n ≤ n')%Z).
  { destruct (decide (Tally.present s + Tally.late s = Tally.present s' + Tally.late s')%Z)
      as [Heq|Hne].
    - assert (Heq' : percentageOf s = percentageOf s')
        by (by apply percentageOf_attended).
      unfold finish in Hp, Hp'. simpl in Hp, Hp'. rewrite Heq', Hp' in Hp.
      injection Hp as ->. lia.
    - unfold nearestTo in Hn, Hn'.
      destruct (Z_lt_le_dec n' n) as [Hlt|]; [|done]. exfalso.
      assert (Tally.total s * (n' + 1) ≤ Tally.total s * n)%Z by nia. nia. }
  pose proof (nearestTo_range _ _ _ (conj (proj1 Ha) (Z.le_trans _ _ _ (proj2 Ha) Ha'))
                (proj1 Htot) Hn) as Hr.
  assert (Hr' : (0 ≤ n' ≤ 1000)%Z) by (eapply nearestTo_range; [|exact (proj1 Htot)|exact Hn']; lia).
  split_and!; try done; try lia.
  - rewrite Hg, Hg'. by apply gradeByTenths_mono.
  - intros H0. rewrite H0 in Hn. unfold nearestTo in Hn.
    assert (n = 0%Z) as -> by nia. by rewrite Hg.
  - intros H1. rewrite H1 in Hn'. unfold nearestTo in Hn'.
    assert (n' = 1000%Z) as -> by nia. by rewrite Hg'.
Qed.

(** ** The list of sessions *)

Lemma sorted_byCreatedDesc createdAt l :
  StronglySorted (newestCreatedFirst createdAt) (sortBy (byCreatedDesc createdAt) l).
Proof.
  apply StronglySorted_sortBy; unfold byCreatedDesc, newestCreatedFirst.
  - intros a b. by rewrite Z.leb_le.
  - intros a b. rewrite Z.leb_gt. lia.
  - intros a b c. lia.
Qed.

(** X20. To a caller whose role is faculty the list of sessions is sent
    with code 200.  It holds the first sessions, up to the limit (10
    when none is given), of an arrangement by creation time, newest
    first, of the caller's own sessions, restricted to the status asked
    for when one is given; every session listed is a session of the
    store whose faculty is the caller, and comes with its subject
    document. *)
Theorem listSessions_spec createdAt user q db :
  Auth.role user = RoleFaculty →
  ∃ l rest,
    listSessions createdAt user q db = Sent 200 l
    ∧ l = (λ s, (s, Subject.findById (AttendanceSession.subject s) (subjects db))) <$> l.*1
    ∧ l.*1 ++ rest ≡ₚ filter (SessionsQuery.matches (Auth.userId user) q) (sessions db)
    ∧ StronglySorted (newestCreatedFirst createdAt) (l.*1 ++ rest)
    ∧ length l = (Pos.to_nat (default 10%positive (SessionsQuery.limit q))
                  `min` length (l.*1 ++ rest))%nat
    ∧ ∀ s, s ∈ l.*1 →
        s ∈ sessions db ∧ AttendanceSession.faculty s = Auth.userId user
        ∧ ∀ v, SessionsQuery.status q = Some v → v ≠ "" →
            parseSessionStatus v = Some (AttendanceSession.status s).
Proof.
  intros Hrole. unfold listSessions. rewrite (requireRole_faculty _ Hrole). cbn [negb].
  set (n := Pos.to_nat (default 10%positive (SessionsQuery.limit q))).
  set (all := sortBy (byCreatedDesc createdAt)
                (filter (SessionsQuery.matches (Auth.userId user) q) (sessions db))).
  assert (Hfst : ((λ s, (s, Subject.findById (AttendanceSession.subject s) (subjects db)))
                    <$> take n all).*1 = take n all).
  { rewrite <-list_fmap_compose. by rewrite list_fmap_id. }
  exists ((λ s, (s, Subject.findById (AttendanceSession.subject s) (subjects db)))
            <$> take n all), (drop n all).
  rewrite Hfst, take_drop. split_and!.
  - done.
  - done.
  - apply sortBy_Permutation.
  - apply sorted_byCreatedDesc.
  - by rewrite length_fmap, length_take.
  - intros s (i & Hin%list_elem_of_lookup_2 & _)%elem_of_take. subst all.
    apply elem_of_sortBy in Hin.
    apply list_elem_of_filter in Hin as [[Hfac Hst] Hin].
    split_and!; [done|done|]. intros v Hv Hne.
    by apply (proj1 (given_holds _ _) Hst).
Qed.

(** ** The same mark twice *)

Lemma mark_succeeded_guard user body db code b db' :
  mark user body db = (Sent code b, db') →
  Auth.requireRole [RoleFaculty] user = true ∧ MarkBody.validate body = [].
Proof.
  unfold mark. intros H.
  destruct (Auth.requireRole _ _); [|discriminate]. split; [done|].
  cbn [negb] in H. destruct (MarkBody.validate body); [done|discriminate].
Qed.

Lemma list_find_insert {A} (P : A → Prop) `{∀ x, Decision (P x)} (l : list A) i x y :
  list_find P l = Some (i, x) → P y → list_find P (<[i := y]> l) = Some (i, y).
Proof.
  intros (Hi & _ & Hfirst)%list_find_Some Hy. apply list_find_Some. split_and!.
  - apply list_lookup_insert_eq. by eapply lookup_lt_Some.
  - done.
  - intros j z Hj Hlt. rewrite list_lookup_insert_ne in Hj by lia. by eapply Hfirst.
Qed.

Lemma remark_remark st conf rem r :
  Attendance.remark st conf rem (Attendance.remark st conf rem r)
  = Attendance.remark st conf rem r.
Proof. done. Qed.

Lemma remark_same st conf rem r :
  Attendance.status r = st → Attendance.detectionConfidence r = conf →
  Attendance.remarks r = rem → Attendance.remark st conf rem r = r.
Proof. destruct r. simpl. by intros -> -> ->. Qed.

(** X7. A mark sent twice changes the store no more than the mark sent
    once: the second call leaves the store the first one left, and when
    the first succeeded the second answers 200 with the same record. *)
Theorem mark_idempotent user body db :
  (mark user body (mark user body db).2).2 = (mark user body db).2
  ∧ (∀ code b, (mark user body db).1 = Sent code b →
       (mark user body (mark user body db).2).1
       = Sent 200 ("Attendance updated successfully", b.2)).
Proof.
  destruct (mark user body db) as [reply db1] eqn:H. cbn [fst snd].
  destruct (succeeded_dec reply) as [Hs|Hn].
  - destruct reply as [code b| | |]; try done.
    destruct (mark_succeeded_guard _ _ _ _ _ _ H) as [Hrole Hval].
    pose proof (mark_store _ _ _ _ _ _ H) as (Hu & _ & Hses & Hkey & _).
    apply mark_succeeded in H
      as (st & session & j & student & Hst & Hf & Hstu & Hr & Hcase).
    cbv zeta in Hcase.
    assert (Hnext : ∃ i, Attendance.findOne (MarkBody.studentId body)
                           (MarkBody.sessionId body) (attendances db1) = Some (i, b.2)
                         ∧ <[i := b.2]> (attendances db1) = attendances db1
                         ∧ Attendance.remark st
                             (Js.or (MarkBody.detectionConfidence body) Js.zero)
                             (Js.or (MarkBody.remarks body) Js.empty) b.2 = b.2).
    { destruct Hcase as [(i & old & Ha & _ & Hb & ->)|(Ha & _ & _ & _ & H1 & H2 & H3 & ->)].
      - exists i. cbn [attendances withAttendances]. split_and!.
        + by eapply list_find_insert.
        + apply list_insert_insert_eq.
        + rewrite Hb. apply remark_remark.
      - exists (length (attendances db)). cbn [attendances withAttendances]. split_and!.
        + apply findOne_attendance_last; [by apply findOne_attendance_None|done].
        + apply insert_last.
        + by apply remark_same. }
    destruct Hnext as (i & Hfind & Hins & Hsame).
    assert (Hgoal : mark user body db1
                    = (Sent 200 ("Attendance updated successfully", b.2), db1)).
    { unfold mark. rewrite Hrole, Hval, Hst, Hses, Hf, Hu, Hstu. cbn [negb].
      rewrite (bool_decide_eq_true_2 _ Hr). cbn [negb].
      rewrite Hfind, Hsame, Hins. by destruct db1. }
    rewrite Hgoal. split; [done|]. by intros ? ? [= _ <-].
  - pose proof (mark_failed _ _ _ _ _ H Hn) as ->. rewrite H. cbn [fst snd].
    split; [done|]. intros code b ->. by destruct Hn.
Qed.

(** ** A mark and the queries after it *)

Lemma subjectsKnown_statistics db l :
  subjectsKnown db → l ⊆ attendances db →
  is_Some (statistics (populateHistory db <$> l)).
Proof.
  intros [_ Hr] Hsub.
  destruct (countRecords_total (populateHistory db <$> l) []) as [stats0 H0].
  - apply Forall_fmap, Forall_forall. intros r Hin. simpl.
    by apply (proj1 (Forall_forall _ _) Hr), Hsub.
  - exists (finish <$> stats0.*2). apply statistics_finish. by exists stats0.
Qed.

Lemma mark_stored user body db code b db' :
  mark user body db = (Sent code b, db') → b.2 ∈ attendances db'.
Proof.
  intros H.
  apply mark_store in H as (_ & _ & _ & _ & [(i & old & Hf & _ & ->)|(_ & ->)]).
  - apply list_find_Some in Hf as (Hi & _).
    eapply list_elem_of_lookup_2, list_lookup_insert_eq. by eapply lookup_lt_Some.
  - apply elem_of_app. right. apply list_elem_of_here.
Qed.

(** X21. A mark is read back by the queries.  After a successful mark on
    a store in which the subject of every session and record exists, a
    history of the marked student asked by a caller who passes the
    access check is sent with code 200 and holds the record the mark
    returned, whenever the query admits that record; and a report asked
    by a faculty or admin caller holds it whenever the query of that
    caller admits it.  The record has the student, the session and the
    status of the mark. *)
Theorem mark_then_queries user body db code b db' :
  mark user body db = (Sent code b, db') →
  subjectsKnown db →
  Attendance.student b.2 = MarkBody.studentId body
  ∧ Attendance.sessionId b.2 = MarkBody.sessionId body
  ∧ parseMarkStatus (MarkBody.status body) = Some (Attendance.status b.2)
  ∧ (∀ caller q,
       Auth.role caller ≠ RoleStudent ∨ Auth.userId caller = MarkBody.studentId body →
       inHistory (MarkBody.studentId body) q b.2 →
       ∃ att stats,
         studentAttendance caller (MarkBody.studentId body) q db' = Sent 200 (att, stats)
         ∧ b.2 ∈ Populated.doc <$> att)
  ∧ (∀ caller q,
       Auth.role caller = RoleFaculty ∨ Auth.role caller = RoleAdmin →
       inReport caller q b.2 →
       ∃ att, report caller q db' = Sent 200 att ∧ b.2 ∈ Populated.doc <$> att).
Proof.
  intros H Hk.
  pose proof (mark_stored _ _ _ _ _ _ H) as Hin.
  assert (Hk' : subjectsKnown db').
  { pose proof (step_subjectsKnown db (OpMark user body) Hk) as Hs.
    simpl in Hs. by rewrite H in Hs. }
  pose proof (mark_store _ _ _ _ _ _ H) as (_ & _ & _ & [Hstu Hsid] & _).
  assert (Hst : parseMarkStatus (MarkBody.status body) = Some (Attendance.status b.2)).
  { apply mark_succeeded in H as (st & ? & ? & ? & Hst & _ & _ & _ & Hcase).
    cbv zeta in Hcase. rewrite Hst. f_equal.
    destruct Hcase as [(i & old & _ & _ & -> & _)|(_ & _ & _ & _ & -> & _)]; done. }
  split_and!; [done..| |].
  - intros caller q Hok Hq. rewrite (studentAttendance_allowed _ _ _ _ Hok).
    destruct (subjectsKnown_statistics db'
                (sortBy byDateDesc (find (StudentQuery.filter (MarkBody.studentId body) q)
                                      (attendances db'))) Hk') as [stats ->].
    { intros r Hr%elem_of_sortBy. by apply list_elem_of_filter in Hr as [_ ?]. }
    eexists _, _. split; [done|].
    rewrite doc_populateHistory. apply elem_of_sortBy, list_elem_of_filter.
    by rewrite matches_history.
  - intros caller q Hrole Hq. unfold report.
    assert (Auth.requireRole [RoleFaculty; RoleAdmin] caller = true) as ->.
    { apply bool_decide_eq_true. destruct Hrole as [-> | ->]; set_solver. }
    cbn [negb]. eexists. split; [done|].
    rewrite doc_populateReport. apply elem_of_sortBy, list_elem_of_filter.
    by rewrite matches_report.
Qed.

(** ** The sessions listed after a start and after an end *)

Lemma listSessions_all createdAt user q db :
  Auth.role user = RoleFaculty →
  (length (filter (SessionsQuery.matches (Auth.userId user) q) (sessions db))
   ≤ Pos.to_nat (default 10%positive (SessionsQuery.limit q)))%nat →
  ∃ l, listSessions createdAt user q db = Sent 200 l
    ∧ ∀ s, s ∈ l.*1 ↔ s ∈ sessions db ∧ SessionsQuery.matches (Auth.userId user) q s.
Proof.
  intros Hrole Hlen. unfold listSessions. rewrite (requireRole_faculty _ Hrole).
  cbn [negb]. eexists. split; [done|]. intros s.
  rewrite <-list_fmap_compose, list_fmap_id.
  rewrite take_ge by (by rewrite (sortBy_Permutation _ _)).
  by rewrite elem_of_sortBy, list_elem_of_filter, (comm _ (s ∈ _)).
Qed.

Lemma listSessions_only createdAt user q db l s :
  listSessions createdAt user q db = Sent 200 l → s ∈ l.*1 →
  s ∈ sessions db ∧ SessionsQuery.matches (Auth.userId user) q s.
Proof.
  unfold listSessions. destruct (negb _); [done|]. intros [= <-].
  rewrite <-list_fmap_compose, list_fmap_id.
  intros (i & Hin%list_elem_of_lookup_2 & _)%elem_of_take.
  apply elem_of_sortBy in Hin. by apply list_elem_of_filter in Hin as [? ?].
Qed.

(** X22. The list of sessions follows the session start and the session
    end.  A session just started is among the caller's sessions listed
    with the status active, and a session just ended among those listed
    with the status completed, provided the limit is not below the
    number of the caller's sessions of that status; and with session
    identifiers unique, no session with the identifier of the session
    ended is listed with the status active any more, whatever the
    limit. *)
Theorem listSessions_follows createdAt user limit db :
  (∀ now body code b db',
     startSession now user body db = (Sent code b, db') →
     let q := SessionsQuery.mk (Some "active") limit in
     (length (filter (SessionsQuery.matches (Auth.userId user) q) (sessions db'))
      ≤ Pos.to_nat (default 10%positive limit))%nat →
     ∃ l, listSessions createdAt user q db' = Sent 200 l ∧ b.2 ∈ l.*1)
  ∧ (∀ now sid code b db',
       endSession now user sid db = (Sent code b, db') →
       let q := SessionsQuery.mk (Some "completed") limit in
       (length (filter (SessionsQuery.matches (Auth.userId user) q) (sessions db'))
        ≤ Pos.to_nat (default 10%positive limit))%nat →
       ∃ l, listSessions createdAt user q db' = Sent 200 l ∧ b.2 ∈ l.*1)
  ∧ (∀ now sid code b db' l s,
       uniqueSessionIds db →
       endSession now user sid db = (Sent code b, db') →
       listSessions createdAt user (SessionsQuery.mk (Some "active") limit) db'
       = Sent 200 l →
       s ∈ l.*1 → AttendanceSession.sessionId s ≠ sid).
Proof.
  split_and!.
  - intros now body code b db' H q Hlen.
    pose proof (startSession_store _ _ _ _ _ _ _ H) as (_ & _ & _ & Hs).
    apply startSession_succeeded in H
      as (? & ? & Hrole & _ & _ & _ & _ & _ & Hb & _).
    destruct (listSessions_all createdAt user q db' Hrole Hlen) as (l & Hl & Hin).
    exists l. split; [done|]. apply Hin. split.
    + rewrite Hs. apply elem_of_app. right. apply list_elem_of_here.
    + rewrite Hb. by split.
  - intros now sid code b db' H q Hlen.
    assert (Hrole : Auth.role user = RoleFaculty).
    { revert H. unfold endSession, Auth.requireRole.
      destruct (bool_decide _) eqn:Hr; [|discriminate]. intros _.
      apply bool_decide_eq_true in Hr. by apply list_elem_of_singleton in Hr. }
    apply endSession_store in H as (_ & _ & _ & i & s & Hi & (_ & Hfac & _) & Hb & Hs).
    destruct (listSessions_all createdAt user q db' Hrole Hlen) as (l & Hl & Hin).
    exists l. split; [done|]. apply Hin. split.
    + rewrite Hs. eapply list_elem_of_lookup_2, list_lookup_insert_eq.
      by eapply lookup_lt_Some.
    + rewrite Hb. by split.
  - intros now sid code b db' l s Hu H Hl Hin Hsid.
    apply (listSessions_only _ _ _ _ _ _ Hl) in Hin as (Hin & Hfac & Hst).
    apply (endSession_no_active _ _ _ _ _ _ _ Hu H (Auth.userId user)).
    exists s. split; [done|]. split_and!; [done | done |].
    simpl in Hst. by injection Hst.
Qed.

(** ** Ending one session and the other documents *)

(** X23. A session end leaves the users, the subjects and the attendance
    records as they are and rewrites at most one session document: a
    session that is not an active session of the caller with the
    identifier stays at its place unchanged, no session is added or
    removed, and no two places of the collection change. *)
Theorem endSession_frame now user sid db :
  let db' := (endSession now user sid db).2 in
  users db' = users db ∧ subjects db' = subjects db
  ∧ attendances db' = attendances db
  ∧ length (sessions db') = length (sessions db)
  ∧ (∀ j s, sessions db !! j = Some s →
       ¬ AttendanceSession.matches sid (Auth.userId user) Active s →
       sessions db' !! j = Some s)
  ∧ (∀ j k, sessions db' !! j ≠ sessions db !! j →
       sessions db' !! k ≠ sessions db !! k → j = k).
Proof.
  destruct (endSession now user sid db) as [reply db'] eqn:H. cbn [snd].
  destruct (succeeded_dec reply) as [Hs|Hn].
  - destruct reply as [code b| | |]; try done.
    apply endSession_store in H as (-> & -> & -> & i & s0 & Hi & Hm & _ & ->).
    split_and!; try done.
    + by rewrite length_insert.
    + intros j s Hj Hnot. rewrite list_lookup_insert_ne; [done|].
      intros ->. by simplify_eq.
    + intros j k Hj Hk.
      destruct (decide (i = j)) as [->|Hij];
        [|by rewrite list_lookup_insert_ne in Hj].
      destruct (decide (j = k)) as [->|Hjk]; [done|].
      by rewrite list_lookup_insert_ne in Hk.
  - eapply endSession_failed in H as ->; [|done]. by split_and!.
Qed.


(** ** The theorems on the example store *)

(** The session start on the example store. *)
Lemma example_session :
  ∃ s, startSession Example.opened Example.asProf Example.start Example.db0
       = (Sent 201 ("Attendance session started successfully", s), Example.db1)
    ∧ AttendanceSession.sessionId s = Example.sid
    ∧ AttendanceSession.totalStudents s = 1%Z
    ∧ sessions Example.db1 = [s].
Proof. eexists. vm_compute. by split_and!. Qed.

(** The validator on the shapes of an identifier: twenty-four digits, or
    a prefix and twenty-two digits, and nothing else. *)
Lemma isMongoId_shapes :
  isMongoId "64b0000000000000000000c1" = true
  ∧ isMongoId "0x0000000000000000000000" = true
  ∧ isMongoId "0H00000000000000000000aF" = true
  ∧ isMongoId "64b0000000000000000000c" = false
  ∧ isMongoId "0x000000000000000000000000" = false
  ∧ isMongoId "0y0000000000000000000000" = false
  ∧ isMongoId "x00000000000000000000000" = false
  ∧ isMongoId "64b0000000000000000000cg" = false.
Proof. by vm_compute. Qed.

(** The replies to bodies that fail validators, each listing every
    failing field; an identifier with a prefix passes. *)
Lemma validation_errors_example :
  startSession Example.opened Example.asProf
    (StartBody.mk (Subject._id Example.algorithms) "D" "IT" 9) Example.db0
  = (Errors ["division"; "department"; "semester"], Example.db0)
  ∧ startSession Example.opened Example.asProf
      (StartBody.mk (Subject._id Example.algorithms) "A" "IT" 3) Example.db0
    = (Errors ["department"], Example.db0)
  ∧ mark Example.asProf
      (MarkBody.mk "" "chen" "here" Js.Undefined Js.Undefined) Example.db1
    = (Errors ["sessionId"; "studentId"; "status"], Example.db1)
  ∧ StartBody.validate (StartBody.mk "0x0000000000000000000000" "A" "CSE" 3) = []
  ∧ MarkBody.validate
      (MarkBody.mk Example.sid "0h00000000000000000000ab" "present"
         Js.Undefined Js.Undefined) = [].
Proof. split_and!; vm_compute; reflexivity. Qed.


Lemma mark_preconditions_example :
  mark Example.asOtherProf
    (Example.markOf Example.enrolledStudent "present" Js.Undefined Js.Undefined)
    Example.db1
  = (InvalidSessionError, Example.db1)
  ∧ mark Example.asProf
      (Example.markOf Example.prof "present" Js.Undefined Js.Undefined) Example.db1
    = (InvalidStudentError, Example.db1).
Proof.
  split.
  - apply (mark_preconditions Example.asOtherProf
             (Example.markOf Example.enrolledStudent "present" Js.Undefined Js.Undefined)
             Example.db1); [reflexivity | reflexivity |].
    intros (s & Hin & _ & Hfac & _). vm_compute in Hin.
    apply list_elem_of_singleton in Hin. subst s. discriminate Hfac.
  - apply (mark_preconditions Example.asProf
             (Example.markOf Example.prof "present" Js.Undefined Js.Undefined)
             Example.db1); [reflexivity | reflexivity | |].
    + eexists. split; [apply list_elem_of_here | by vm_compute].
    + intros (u & Hu & Hr). vm_compute in Hu. injection Hu as <-. discriminate Hr.
Defined.


Lemma mark_update_overwrites_example :
  ∃ r, attendances
         (mark Example.asProf
            (Example.markOf Example.enrolledStudent "late" Js.Undefined Js.Undefined)
            Example.db2).2 = [r]
    ∧ Attendance.detectionConfidence r = Js.zero
    ∧ Attendance.remarks r = Js.empty
    ∧ ∃ old, attendances Example.db2 = [old]
        ∧ Attendance.detectionConfidence old = Example.ninetenths
        ∧ Attendance.remarks old = Js.Str "on time".
Proof.
  set (body := Example.markOf Example.enrolledStudent "late" Js.Undefined Js.Undefined).
  destruct (mark Example.asProf body Example.db2) as [reply db'] eqn:Hm.
  assert (Hr : ∃ b, reply = Sent 200 b)
    by (vm_compute in Hm; injection Hm as <- _; by eexists).
  destruct Hr as [b ->].
  destruct (attendances Example.db2) as [|old l] eqn:Hatt; [discriminate Hatt|].
  assert (l = []) as -> by (vm_compute in Hatt; by injection Hatt).
  destruct (mark_update_overwrites Example.asProf body Example.db2 0 old 200 b db')
    as (st & _ & _ & Hdb & _ & _ & Hconf & Hrem).
  - rewrite Hatt. vm_compute in Hatt. injection Hatt as <-. reflexivity.
  - exact Hm.
  - exists b.2. rewrite Hatt in Hdb. split_and!.
    + exact Hdb.
    + by apply Hconf.
    + by apply Hrem.
    + exists old. vm_compute in Hatt. injection Hatt as <-. by split_and!.
Defined.


Lemma endSession_counts_example :
  ∃ s db4,
    endSession Example.closed Example.asProf Example.sid Example.dbLate
    = (Sent 200 ("Attendance session ended successfully", s), db4)
    ∧ AttendanceSession.totalStudents s = 1%Z
    ∧ AttendanceSession.presentStudents s = Some 1%Z
    ∧ AttendanceSession.absentStudents s = Some 0%Z
    ∧ AttendanceSession.endTime s = Some Example.closed
    ∧ AttendanceSession.status s = Completed.
Proof.
  destruct (endSession Example.closed Example.asProf Example.sid Example.dbLate)
    as [reply db4] eqn:Hend.
  assert (Hr : ∃ s, reply = Sent 200 ("Attendance session ended successfully", s))
    by (vm_compute in Hend; injection Hend as <- _; by eexists).
  destruct Hr as [s ->]. exists s, db4.
  destruct (endSession_counts _ _ _ _ _ _ _ Hend)
    as (i & s0 & Hi & _ & _ & _ & Hp & Ha & He & Hst & Ht & _).
  assert (i = 0%nat) as -> by (apply lookup_lt_Some in Hi; vm_compute in Hi; lia).
  vm_compute in Hi. injection Hi as <-.
  cbn [snd] in Hp, Ha, He, Hst, Ht.
  split_and!; [reflexivity | exact Ht | | | exact He | exact Hst].
  - rewrite Hp. vm_compute. reflexivity.
  - rewrite Ha. vm_compute. reflexivity.
Defined.

Lemma endSession_counts_add_up_example :
  ∃ s db4 r,
    endSession Example.closed Example.asProf Example.sid Example.dbLate
    = (Sent 200 ("Attendance session ended successfully", s), db4)
    ∧ r ∈ attendances Example.dbLate ∧ Attendance.inSession Example.sid Late r
    ∧ countsAddUp s.
Proof.
  destruct (endSession Example.closed Example.asProf Example.sid Example.dbLate)
    as [reply db4] eqn:Hend.
  assert (Hr : ∃ s, reply = Sent 200 ("Attendance session ended successfully", s))
    by (vm_compute in Hend; injection Hend as <- _; by eexists).
  destruct Hr as [s ->]. exists s, db4.
  destruct (endSession_counts_add_up _ _ _ _ _ _ _ Hend) as (Hsum & _).
  eexists. split_and!; [reflexivity | | | exact Hsum].
  - vm_compute. apply list_elem_of_further, list_elem_of_here.
  - split; vm_compute; reflexivity.
Defined.

Lemma report_faculty_scope_example :
  report Example.asProf
    (ReportQuery.mk None None None None None None (Some (User._id Example.otherProf)))
    Example.dbLate
  = report Example.asProf
      (ReportQuery.mk None None None None None None None) Example.dbLate.
Proof.
  destruct (report_faculty_scope Example.asProf
              (ReportQuery.mk None None None None None None None) Example.dbLate)
    as [Hfac _].
  destruct (Hfac eq_refl) as (_ & Hsame & _).
  exact (Hsame (Some (User._id Example.otherProf)) None).
Defined.

Lemma studentAttendance_access_example :
  studentAttendance Example.asStudent (User._id Example.outsider)
    (StudentQuery.mk None None None) Example.dbLate
  = AccessDeniedError
  ∧ studentAttendance Example.asStudent (User._id Example.enrolledStudent)
      (StudentQuery.mk None None None) Example.dbLate
    ≠ AccessDeniedError.
Proof.
  split.
  - apply (studentAttendance_access Example.asStudent (User._id Example.outsider));
      [reflexivity | discriminate].
  - apply (studentAttendance_access Example.asStudent (User._id Example.enrolledStudent)).
    by right.
Defined.

Lemma mark_ignores_cohort_example :
  ∃ code b db', mark Example.asProf
      (Example.markOf Example.outsider "present" Js.Undefined Js.Undefined) Example.db2
    = (Sent code b, db')
    ∧ Attendance.student b.2 = User._id Example.outsider
    ∧ Attendance.department b.2 = "CSE"
    ∧ User.department Example.outsider = "ME".
Proof.
  destruct mark_ignores_cohort as [Hany _].
  destruct (Hany Example.asProf
              (Example.markOf Example.outsider "present" Js.Undefined Js.Undefined)
              Example.db2 Present 0%nat
              (AttendanceSession.mk Example.sid (Subject._id Example.algorithms)
                 "Algorithms" (User._id Example.prof) "asha" Example.opened
                 Example.opened "A" "CSE" 3 1 Active None None None)
              Example.outsider Example.prof)
    as (code & b & db' & Hm & _ & [Hk _] & _); try reflexivity.
  exists code, b, db'. split_and!; [exact Hm | exact Hk | | reflexivity].
  vm_compute in Hm. by injection Hm as <- <- <-.
Defined.

Lemma statistics_per_subject_example :
  ∃ s, perSubject (Example.history 7 2 1) = Some [("64b0000000000000000000c1", s)]
    ∧ Tally.total (Stat.tally s) = 10%Z
    ∧ Stat.percentage s = PctText (Fixed.Digits false 900)
    ∧ Stat.status s = Excellent.
Proof.
  destruct statistics_per_subject as [Hgen _].
  destruct (Hgen (Example.history 7 2 1)) as (stats & Hper & _ & _ & _ & Hentry).
  - vm_compute. reflexivity.
  - repeat (apply Forall_cons; split; [by eexists|]). apply Forall_nil_2.
  - assert (Hshape : ∃ s, stats = [("64b0000000000000000000c1", s)]).
    { vm_compute in Hper. injection Hper as <-. by eexists. }
    destruct Hshape as [s ->]. exists s.
    destruct (Hentry "64b0000000000000000000c1" s (list_elem_of_here _ _))
      as (_ & Htot & Hp & _ & Hl & n & Hpct & Hn & Hst).
    assert (Ha : (Tally.present (Stat.tally s) + Tally.late (Stat.tally s) = 9)%Z)
      by (rewrite Hp, Hl; by vm_compute).
    assert (Ht : Tally.total (Stat.tally s) = 10%Z) by (rewrite Htot; by vm_compute).
    rewrite Ha, Ht in Hn. unfold nearestTo in Hn.
    assert (n = 900%Z) as -> by lia.
    by split_and!.
Defined.

(** ** The further theorems on the example store *)


Lemma startSession_then_example :
  succeeded (endSession Example.closed Example.asProf Example.sid Example.db1).1
  ∧ succeeded
      (mark Example.asProf
         (Example.markOf Example.enrolledStudent "late" Js.Undefined Js.Undefined)
         Example.db1).1.
Proof.
  destruct example_session as (s & Hstart & Hsid & _).
  destruct (startSession_then _ _ _ _ _ _ _ Hstart) as (_ & Hend & Hmark).
  cbn [snd] in Hend, Hmark. rewrite Hsid in Hend, Hmark. split.
  - apply Hend.
  - apply Hmark; [reflexivity | reflexivity |].
    exists Example.enrolledStudent. split; reflexivity.
Defined.

Lemma startSession_identifier_example :
  Example.opened = Example.opened
  ∧ Auth.userId Example.asProf = Auth.userId Example.asProf
  ∧ StartBody.subjectId Example.start = StartBody.subjectId Example.start.
Proof.
  destruct example_session as (s & Hstart & _).
  exact (startSession_identifier _ _ _ _ _ _ _ _ _ _ _ _ _ _ Hstart Hstart eq_refl).
Defined.

Lemma run_uniqueSessionIds_example : uniqueSessionIds (run Trace.ops Example.db0).
Proof.
  apply (run_uniqueSessionIds Trace.ops Example.db0).
  - apply NoDup_nil_2.
  - apply (bool_decide_unpack _). vm_compute. reflexivity.
  - intros s now fid subj Hin. by apply elem_of_nil in Hin.
Defined.

Lemma mark_after_endSession_example :
  ∃ s db4,
    endSession Example.closed Example.asProf Example.sid Example.db3
    = (Sent 200 ("Attendance session ended successfully", s), db4)
    ∧ mark Example.asProf
        (Example.markOf Example.enrolledStudent "late" Js.Undefined Js.Undefined) db4
      = (InvalidSessionError, db4).
Proof.
  set (body := Example.markOf Example.enrolledStudent "late" Js.Undefined Js.Undefined).
  destruct (endSession Example.closed Example.asProf Example.sid Example.db3)
    as [reply db4] eqn:Hend.
  assert (Hr : ∃ s, reply = Sent 200 ("Attendance session ended successfully", s))
    by (vm_compute in Hend; injection Hend as <- _; by eexists).
  destruct Hr as [s ->]. exists s, db4. split; [reflexivity|].
  assert (Huniq : uniqueSessionIds Example.db3)
    by (vm_compute; apply NoDup_singleton).
  destruct (mark Example.asProf body db4) as [reply db5] eqn:Hm.
  destruct (mark_after_endSession _ _ _ _ _ _ _ Example.asProf body reply db5
              Huniq Hend eq_refl Hm) as (_ & -> & Hreply).
  by rewrite Hreply.
Defined.

Lemma endSession_counts_students_example :
  ∃ s db4,
    endSession Example.closed Example.asProf Example.sid Example.db3
    = (Sent 200 ("Attendance session ended successfully", s), db4)
    ∧ AttendanceSession.presentStudents s = Some 2%Z.
Proof.
  destruct (endSession Example.closed Example.asProf Example.sid Example.db3)
    as [reply db4] eqn:Hend.
  assert (Hr : ∃ s, reply = Sent 200 ("Attendance session ended successfully", s))
    by (vm_compute in Hend; injection Hend as <- _; by eexists).
  destruct Hr as [s ->]. exists s, db4. split; [reflexivity|].
  assert (Huniq : uniqueRecords Example.db3)
    by (apply (bool_decide_unpack _); vm_compute; reflexivity).
  destruct (endSession_counts_students _ _ _ _ _ _ _ Huniq Hend) as [_ Hp].
  cbn [snd] in Hp. rewrite Hp. vm_compute. reflexivity.
Defined.

Lemma run_sessions_lifecycle_example :
  ∃ s s', sessions Example.db1 !! 0%nat = Some s
    ∧ sessions (run Trace.rest Example.db1) !! 0%nat = Some s'
    ∧ sameSession s s'.
Proof.
  destruct example_session as (s & _ & _ & _ & Hs).
  assert (H0 : sessions Example.db1 !! 0%nat = Some s) by (by rewrite Hs).
  destruct (run_sessions_lifecycle Trace.rest Example.db1 0 s H0)
    as (_ & _ & s' & Hs' & Hsame & _).
  exists s, s'. exact (conj H0 (conj Hs' Hsame)).
Defined.

Lemma run_attendance_lifecycle_example :
  ∃ r r', attendances Example.db2 !! 0%nat = Some r
    ∧ attendances (run (tail Trace.rest) Example.db2) !! 0%nat = Some r'
    ∧ recordKey r' = recordKey r.
Proof.
  destruct (attendances Example.db2 !! 0%nat) as [r|] eqn:H0;
    [|vm_compute in H0; discriminate H0].
  destruct (run_attendance_lifecycle (tail Trace.rest) Example.db2 0 r H0)
    as (r' & Hr' & _ & Hkey).
  exists r, r'. exact (conj eq_refl (conj Hr' Hkey)).
Defined.

Lemma run_sessionShape_example :
  Forall sessionShape (sessions (run Trace.ops Example.db0)).
Proof. apply (run_sessionShape Trace.ops Example.db0). apply Forall_nil_2. Defined.

Lemma run_uniqueRecords_example : uniqueRecords (run Trace.ops Example.db0).
Proof. apply (run_uniqueRecords Trace.ops Example.db0). apply NoDup_nil_2. Defined.

Lemma run_wellReferenced_example :
  Forall (refersTo (run Trace.ops Example.db0)) (attendances (run Trace.ops Example.db0)).
Proof. apply (run_wellReferenced Trace.ops Example.db0). apply Forall_nil_2. Defined.

Lemma run_history_never_fails_example :
  studentAttendance Example.asStudent (User._id Example.enrolledStudent)
    (StudentQuery.mk None None None) (run Trace.ops Example.db0)
  ≠ ServerError.
Proof.
  apply (run_history_never_fails Trace.ops Example.db0).
  split; apply Forall_nil_2.
Defined.

Lemma studentAttendance_history_example :
  ∃ att stats,
    studentAttendance Example.asStudent (User._id Example.enrolledStudent)
      (StudentQuery.mk None None None) Example.dbLate
    = Sent 200 (att, stats)
    ∧ totalCounted stats = Z.of_nat (length att)
    ∧ StronglySorted newestFirst (Populated.doc <$> att).
Proof.
  destruct (studentAttendance Example.asStudent (User._id Example.enrolledStudent)
              (StudentQuery.mk None None None) Example.dbLate) as [code body| | |] eqn:H;
    try (vm_compute in H; discriminate H).
  destruct body as [att stats].
  destruct (studentAttendance_history _ _ _ _ _ _ _ H) as (-> & _ & _ & _ & Hs & Ht & _).
  exists att, stats. exact (conj eq_refl (conj Ht Hs)).
Defined.

Lemma studentAttendance_server_error_example :
  studentAttendance Example.asStudent (User._id Example.enrolledStudent)
    (StudentQuery.mk None None None) (Trace.noSubjects Example.dbLate)
  = ServerError.
Proof.
  apply (studentAttendance_server_error Example.asStudent
           (User._id Example.enrolledStudent) (StudentQuery.mk None None None)
           (Trace.noSubjects Example.dbLate)); [by right|].
  destruct (attendances (Trace.noSubjects Example.dbLate)) as [|r l] eqn:Hatt;
    [vm_compute in Hatt; discriminate Hatt|].
  exists r. split; [apply list_elem_of_here|].
  vm_compute in Hatt. injection Hatt as <- _. split; [|reflexivity].
  split_and!; [reflexivity | discriminate | discriminate].
Defined.

Lemma report_sorted_example :
  ∃ att, report Example.asProf (ReportQuery.mk None None None None None None None)
           Example.dbLate = Sent 200 att
    ∧ StronglySorted newestFirstThenName (Populated.doc <$> att).
Proof.
  destruct (report_sorted Example.asProf
              (ReportQuery.mk None None None None None None None) Example.dbLate)
    as (att & H & _ & _ & _ & Hs); [by left|].
  exists att. exact (conj H Hs).
Defined.

Lemma percentage_monotone_example :
  (gradeRank (Stat.status (finish (Tally.mk "Algorithms" 10 6 2 2)))
   ≤ gradeRank (Stat.status (finish (Tally.mk "Algorithms" 10 7 1 2))))%nat.
Proof.
  destruct (percentage_monotone (Tally.mk "Algorithms" 10 6 2 2)
              (Tally.mk "Algorithms" 10 7 1 2))
    as (n & n' & _ & _ & _ & Hg & _).
  - reflexivity.
  - by vm_compute.
  - by vm_compute.
  - by vm_compute.
  - exact Hg.
Defined.

Lemma listSessions_spec_example :
  ∃ l, listSessions AttendanceSession.date Example.asProf
         (SessionsQuery.mk (Some "completed") None) (run Trace.ops Example.db0)
       = Sent 200 l
    ∧ ∀ s, s ∈ l.*1 → AttendanceSession.status s = Completed.
Proof.
  destruct (listSessions_spec AttendanceSession.date Example.asProf
              (SessionsQuery.mk (Some "completed") None) (run Trace.ops Example.db0))
    as (l & rest & H & _ & _ & _ & _ & Hin); [reflexivity|].
  exists l. split; [exact H|]. intros s Hs.
  destruct (Hin s Hs) as (_ & _ & Hst).
  specialize (Hst "completed" eq_refl). 
  assert (Hne : "completed" ≠ "") by discriminate.
  apply Hst in Hne. vm_compute in Hne. by injection Hne.
Defined.

Lemma mark_then_queries_example :
  ∃ att stats r,
    studentAttendance Example.asStudent (User._id Example.enrolledStudent)
      (StudentQuery.mk None None None) Example.db2
    = Sent 200 (att, stats)
    ∧ r ∈ Populated.doc <$> att
    ∧ Attendance.status r = Present.
Proof.
  set (body := Example.markOf Example.enrolledStudent "present" Example.ninetenths
                 (Js.Str "on time")).
  assert (Hm : ∃ code b, mark Example.asProf body Example.db1 = (Sent code b, Example.db2)).
  { vm_compute. by eexists _, _. }
  destruct Hm as (code & b & Hm).
  assert (Hk : subjectsKnown Example.db1).
  { apply (step_subjectsKnown Example.db0
             (OpStart Example.opened Example.asProf Example.start)).
    split; apply Forall_nil_2. }
  destruct (mark_then_queries _ _ _ _ _ _ Hm Hk) as (Hstu & _ & Hst & Hhist & _).
  destruct (Hhist Example.asStudent (StudentQuery.mk None None None))
    as (att & stats & Hatt & Hin).
  - by right.
  - split_and!; [exact Hstu | discriminate | discriminate].
  - exists att, stats, b.2. split_and!; [exact Hatt | exact Hin |].
    change (Some Present = Some (Attendance.status b.2)) in Hst. congruence.
Defined.

Lemma listSessions_follows_example :
  ∃ s l,
    listSessions AttendanceSession.date Example.asProf
      (SessionsQuery.mk (Some "active") None) Example.db1
    = Sent 200 l
    ∧ s ∈ l.*1 ∧ AttendanceSession.sessionId s = Example.sid.
Proof.
  destruct example_session as (s & Hstart & Hsid & _ & Hs).
  destruct (listSessions_follows AttendanceSession.date Example.asProf None Example.db0)
    as (Hlisted & _ & _).
  destruct (Hlisted _ _ _ _ _ Hstart) as (l & Hl & Hin).
  - etrans; [apply length_filter|]. rewrite Hs. cbn [length]. 
    change (1 ≤ Pos.to_nat 10)%nat. lia.
  - exists s, l. exact (conj Hl (conj Hin Hsid)).
Defined.
